(** * BookERP (STCBilling): the order-to-cash pipeline

    A shallow embedding of the stock ledger, the pricing resolver, the order
    pipeline, the financial aggregator, credit control and the numbering
    service of [book_erp_v2] ([main.py], [services.py], [models.py]),
    together with the status derivation of the earlier direct-invoice flow
    ([app.py]), and the properties of these that the specification states.

    Conventions of the embedding:

    - Python [int] is [Z].  Python [float] is IEEE-754 binary64, computed
      with the executable operations of [SpecFloat] (round to nearest, ties
      to even), so that every request can be run on concrete rows.
    - A SQLModel [Session] is a pair of databases: the one already committed
      and the one the open transaction works on.  Queries read the working
      database (the session flushes before it queries), [commit] copies it
      over the committed one, and leaving a [with Session(engine)] block,
      normally or through an [HTTPException], drops what was not committed.
    - Tables are lists of rows in insertion order: [select(...).all()] is a
      [filter], [.first()] a [find], [session.get] a [find] on the primary
      key.
    - The wall clock is an argument of the requests that read it.
    - Not represented: descriptive columns, the [User] and [Warehouse]
      tables, role checks, rendering, and the failure of a commit on a
      duplicate number ([next_no] answers a number above every number it
      has parsed). *)

From Stdlib Require Import ZArith List Bool String Ascii Lia.
From Stdlib Require Import Floats.SpecFloat.
From Stdlib Require Import Numbers.DecimalString Numbers.DecimalPos.
Import ListNotations.

Local Open Scope Z_scope.

(* ===================================================================== *)
(** ** Python floats *)
(* ===================================================================== *)

Module Float64.

Definition float := spec_float.

Definition prec : Z := 53.
Definition emax : Z := 1024.

(** [float(n)] for a Python int: the nearest binary64 value. *)
Definition of_Z (z : Z) : float := binary_normalize prec emax z 0 false.

Definition fadd : float -> float -> float := SFadd prec emax.
Definition fsub : float -> float -> float := SFsub prec emax.
Definition fmul : float -> float -> float := SFmul prec emax.
Definition fdiv : float -> float -> float := SFdiv prec emax.

Definition flt : float -> float -> bool := SFltb.
Definition fle : float -> float -> bool := SFleb.
Definition feq : float -> float -> bool := SFeqb.
Definition fgt (x y : float) : bool := flt y x.

(** Truth value of a float: [bool(x)] is [x != 0.0]; a NaN is true. *)
Definition truthy (x : float) : bool := negb (feq x (S754_zero false)).

(** A decimal literal [n/d] written in the source ([0.001] is [decimal 1 1000]):
    the nearest binary64 value, as the Python reader produces. *)
Definition decimal (n d : Z) : float := fdiv (of_Z n) (of_Z d).

Definition f0 : float := S754_zero false.
Definition f1 : float := of_Z 1.
Definition f100 : float := of_Z 100.

(** Nearest integer to [num/den] ([den > 0]), ties to the even one. *)
Definition nearest_even (num den : Z) : Z :=
  let (q, r) := Z.div_eucl num den in
  match Z.compare (2 * r) den with
  | Lt => q
  | Gt => q + 1
  | Eq => if Z.even q then q else q + 1
  end.

(** Nearest integer to [m * 2^e * 100]. *)
Definition hundredths (m : positive) (e : Z) : Z :=
  match e with
  | Zneg k => nearest_even (Zpos m * 100) (2 ^ Zpos k)
  | _ => Zpos m * 100 * 2 ^ e
  end.

(** [round(x, 2)]: the exact value of [x] is rounded to two decimals (ties
    to even) and the decimal result is read back as the nearest binary64
    value; zeros, infinities and NaN round to themselves, and the sign of a
    result that rounds to zero is kept. *)
Definition round2 (x : float) : float :=
  match x with
  | S754_finite s m e =>
      match hundredths m e with
      | Zpos n => fdiv (S754_finite s n 0) f100
      | _ => S754_zero s
      end
  | _ => x
  end.

(** [min(a, b)] and [max(a, b)] on two arguments: the first argument is kept
    unless the second is strictly smaller (resp. larger). *)
Definition py_min (a b : float) : float := if flt b a then b else a.
Definition py_max (a b : float) : float := if fgt b a then b else a.

(** [sum(xs)]: the items are added left to right, starting from [0]
    (interpreters that compensate the rounding error of a float sum can
    differ from this in the last bit). *)
Definition py_sum (xs : list float) : float := fold_left fadd xs f0.

End Float64.

Import Float64.

(* ===================================================================== *)
(** ** Python strings *)
(* ===================================================================== *)

Local Open Scope string_scope.

(** [x.startswith(p)] *)
Definition startswith (x p : string) : bool := String.prefix p x.

(** [x.replace(p, e)] with [e] the empty string: the scan goes left to right
    and deletes every non-overlapping occurrence of [p]; [skip] counts the
    characters of an occurrence still to be dropped. *)
Fixpoint replace_go (p : string) (skip : nat) (x : string) : string :=
  match x with
  | EmptyString => EmptyString
  | String c rest =>
      match skip with
      | S k => replace_go p k rest
      | O =>
          if String.prefix p x
          then replace_go p (String.length p - 1) rest
          else String c (replace_go p 0 rest)
      end
  end.

Definition replace_empty (x p : string) : string :=
  match p with
  | EmptyString => x
  | _ => replace_go p 0 x
  end.

(** Whitespace that [int()] strips from an ASCII string: 0x09-0x0D and
    0x20. *)
Definition is_space (c : ascii) : bool :=
  let n := nat_of_ascii c in
  ((9 <=? n)%nat && (n <=? 13)%nat) || (n =? 32)%nat.

Fixpoint lstrip (s : string) : string :=
  match s with
  | String c r => if is_space c then lstrip r else s
  | EmptyString => EmptyString
  end.

Fixpoint rstrip (s : string) : string :=
  match s with
  | EmptyString => EmptyString
  | String c r =>
      match rstrip r with
      | EmptyString => if is_space c then EmptyString else String c EmptyString
      | r' => String c r'
      end
  end.

Definition digit_val (c : ascii) : option Z :=
  let n := nat_of_ascii c in
  if ((48 <=? n)%nat && (n <=? 57)%nat) then Some (Z.of_nat n - 48) else None.

(** Decimal digits, single underscores allowed between two digits. *)
Fixpoint digits_go (acc : Z) (after_digit : bool) (s : string) : option Z :=
  match s with
  | EmptyString => if after_digit then Some acc else None
  | String c r =>
      if Ascii.eqb c "_"%char
      then (if after_digit then digits_go acc false r else None)
      else match digit_val c with
           | Some d => digits_go (10 * acc + d) true r
           | None => None
           end
  end.

(** [int(s)] on an ASCII string: surrounding whitespace is dropped, one
    sign is allowed, then decimal digits; [None] is [ValueError]. *)
Definition py_int (s : string) : option Z :=
  match rstrip (lstrip s) with
  | String c r =>
      if Ascii.eqb c "-"%char then option_map Z.opp (digits_go 0 false r)
      else if Ascii.eqb c "+"%char then digits_go 0 false r
      else digits_go 0 false (String c r)
  | EmptyString => None
  end.

(** [str(n)] *)
Definition py_str (n : Z) : string := NilZero.string_of_int (Z.to_int n).

Fixpoint zeros (n : nat) : string :=
  match n with
  | O => EmptyString
  | S k => String "0"%char (zeros k)
  end.

(** [s.zfill(width)]: pad with zeros on the left up to [width], after a
    leading sign if there is one. *)
Definition zfill (s : string) (width : nat) : string :=
  let n := String.length s in
  if (width <=? n)%nat then s
  else
    match s with
    | String c r =>
        if (Ascii.eqb c "-"%char || Ascii.eqb c "+"%char)%bool
        then String c (zeros (width - n) ++ r)
        else zeros (width - n) ++ s
    | EmptyString => zeros width
    end.

(** [max(nums)] of a non-empty list. *)
Definition py_max_list (n : Z) (ns : list Z) : Z := fold_left Z.max ns n.

Local Open Scope Z_scope.

(* ===================================================================== *)
(** ** models.py

    One record per table, with the columns the pipeline reads or writes
    (descriptive columns such as titles, addresses, notes, transporter and
    payment mode are not represented).  Status columns range over the values
    listed next to them in [models.py]. *)
(* ===================================================================== *)

Inductive SOStatus := SO_OPEN | SO_APPROVED | SO_DISPATCHED | SO_CANCELLED.
Inductive DCStatus := DC_OPEN | DC_INVOICED.
Inductive InvStatus := INV_OPEN | INV_PAID | INV_PARTIAL | INV_CANCELLED.
Inductive RNStatus := RN_OPEN | RN_POSTED.

Definition SOStatus_eqb (a b : SOStatus) : bool :=
  match a, b with
  | SO_OPEN, SO_OPEN | SO_APPROVED, SO_APPROVED
  | SO_DISPATCHED, SO_DISPATCHED | SO_CANCELLED, SO_CANCELLED => true
  | _, _ => false
  end.

Definition DCStatus_eqb (a b : DCStatus) : bool :=
  match a, b with
  | DC_OPEN, DC_OPEN | DC_INVOICED, DC_INVOICED => true
  | _, _ => false
  end.

Definition RNStatus_eqb (a b : RNStatus) : bool :=
  match a, b with
  | RN_OPEN, RN_OPEN | RN_POSTED, RN_POSTED => true
  | _, _ => false
  end.

Module Item.
Record t := Build
  { id : Z; sku : string; gst_percent : float; sale_price : float }.
End Item.

Module Party.
Record t := Build
  { id : Z; state : option string; credit_limit : float;
    payment_terms_days : Z; is_blocked : bool }.
End Party.

Module PartyPrice.
Record t := Build
  { id : Z; party_id : Z; item_id : Z; discount_percent : float }.
End PartyPrice.

Module Stock.
Record t := Build { id : Z; warehouse_id : Z; item_id : Z; qty : Z }.
Definition set_qty (st : t) (q : Z) : t :=
  Build (id st) (warehouse_id st) (item_id st) q.
End Stock.

Module SalesOrder.
Record t := Build
  { id : Z; so_no : string; party_id : Z; warehouse_id : Z;
    status : SOStatus }.
Definition set_status (so : t) (st : SOStatus) : t :=
  Build (id so) (so_no so) (party_id so) (warehouse_id so) st.
End SalesOrder.

Module SalesOrderLine.
Record t := Build
  { id : Z; so_id : Z; item_id : Z; qty : Z; rate : float;
    gst_percent : float; discount_percent : float }.
End SalesOrderLine.

Module Challan.
Record t := Build { id : Z; dc_no : string; so_id : Z; status : DCStatus }.
Definition set_status (dc : t) (st : DCStatus) : t :=
  Build (id dc) (dc_no dc) (so_id dc) st.
End Challan.

Module ChallanLine.
Record t := Build { id : Z; dc_id : Z; item_id : Z; qty : Z }.
End ChallanLine.

Module Invoice.
Record t := Build
  { id : Z; invoice_no : string; dc_id : Z; party_id : Z; warehouse_id : Z;
    invoice_date : Z; place_of_supply_state : option string;
    status : InvStatus }.
Definition set_status (iv : t) (st : InvStatus) : t :=
  Build (id iv) (invoice_no iv) (dc_id iv) (party_id iv) (warehouse_id iv)
        (invoice_date iv) (place_of_supply_state iv) st.
End Invoice.

Module InvoiceLine.
Record t := Build
  { id : Z; invoice_id : Z; item_id : Z; qty : Z; rate : float;
    gst_percent : float; discount_percent : float }.
End InvoiceLine.

Module Payment.
Record t := Build
  { id : Z; party_id : Z; invoice_id : option Z; amount : float }.
End Payment.

Module ReturnNote.
Record t := Build
  { id : Z; rn_no : string; party_id : Z; warehouse_id : Z;
    status : RNStatus }.
Definition set_status (rn : t) (st : RNStatus) : t :=
  Build (id rn) (rn_no rn) (party_id rn) (warehouse_id rn) st.
End ReturnNote.

Module ReturnLine.
Record t := Build { id : Z; return_id : Z; item_id : Z; qty : Z }.
End ReturnLine.

(* ===================================================================== *)
(** ** db.py and the SQLModel session *)
(* ===================================================================== *)

Record DB := mkDB
  { items : list Item.t;
    parties : list Party.t;
    party_prices : list PartyPrice.t;
    stocks : list Stock.t;
    sales_orders : list SalesOrder.t;
    sales_order_lines : list SalesOrderLine.t;
    challans : list Challan.t;
    challan_lines : list ChallanLine.t;
    invoices : list Invoice.t;
    invoice_lines : list InvoiceLine.t;
    payments : list Payment.t;
    return_notes : list ReturnNote.t;
    return_lines : list ReturnLine.t }.

Definition empty_db : DB := mkDB [] [] [] [] [] [] [] [] [] [] [] [] [].

Definition set_stocks (db : DB) (l : list Stock.t) : DB :=
  mkDB (items db) (parties db) (party_prices db) l (sales_orders db)
       (sales_order_lines db) (challans db) (challan_lines db) (invoices db)
       (invoice_lines db) (payments db) (return_notes db) (return_lines db).

Definition set_sales_orders (db : DB) (l : list SalesOrder.t) : DB :=
  mkDB (items db) (parties db) (party_prices db) (stocks db) l
       (sales_order_lines db) (challans db) (challan_lines db) (invoices db)
       (invoice_lines db) (payments db) (return_notes db) (return_lines db).

Definition set_sales_order_lines (db : DB) (l : list SalesOrderLine.t) : DB :=
  mkDB (items db) (parties db) (party_prices db) (stocks db) (sales_orders db)
       l (challans db) (challan_lines db) (invoices db)
       (invoice_lines db) (payments db) (return_notes db) (return_lines db).

Definition set_challans (db : DB) (l : list Challan.t) : DB :=
  mkDB (items db) (parties db) (party_prices db) (stocks db) (sales_orders db)
       (sales_order_lines db) l (challan_lines db) (invoices db)
       (invoice_lines db) (payments db) (return_notes db) (return_lines db).

Definition set_challan_lines (db : DB) (l : list ChallanLine.t) : DB :=
  mkDB (items db) (parties db) (party_prices db) (stocks db) (sales_orders db)
       (sales_order_lines db) (challans db) l (invoices db)
       (invoice_lines db) (payments db) (return_notes db) (return_lines db).

Definition set_invoices (db : DB) (l : list Invoice.t) : DB :=
  mkDB (items db) (parties db) (party_prices db) (stocks db) (sales_orders db)
       (sales_order_lines db) (challans db) (challan_lines db) l
       (invoice_lines db) (payments db) (return_notes db) (return_lines db).

Definition set_invoice_lines (db : DB) (l : list InvoiceLine.t) : DB :=
  mkDB (items db) (parties db) (party_prices db) (stocks db) (sales_orders db)
       (sales_order_lines db) (challans db) (challan_lines db) (invoices db)
       l (payments db) (return_notes db) (return_lines db).

Definition set_payments (db : DB) (l : list Payment.t) : DB :=
  mkDB (items db) (parties db) (party_prices db) (stocks db) (sales_orders db)
       (sales_order_lines db) (challans db) (challan_lines db) (invoices db)
       (invoice_lines db) l (return_notes db) (return_lines db).

Definition set_return_notes (db : DB) (l : list ReturnNote.t) : DB :=
  mkDB (items db) (parties db) (party_prices db) (stocks db) (sales_orders db)
       (sales_order_lines db) (challans db) (challan_lines db) (invoices db)
       (invoice_lines db) (payments db) l (return_lines db).

Definition set_return_lines (db : DB) (l : list ReturnLine.t) : DB :=
  mkDB (items db) (parties db) (party_prices db) (stocks db) (sales_orders db)
       (sales_order_lines db) (challans db) (challan_lines db) (invoices db)
       (invoice_lines db) (payments db) (return_notes db) l.

(** The integer primary key given to a new row: one more than the largest
    key in the table. *)
Definition next_id (ids : list Z) : Z := 1 + fold_right Z.max 0 ids.

(** [HTTPException(status_code, detail)]; [detail] keeps the values that the
    source formats into the message. *)
Inductive Detail :=
| StockCannotGoNegative
| SONotFound
| SONotApproved
| InsufficientStock (item_id available : Z)
| ChallanNotAvailable
| SONotFoundForChallan
| PartyNotFound
| PartyIsBlocked
| OverduePending (overdue : float)
| CreditLimitExceeded (limit outstanding new_invoice : float)
| InvoiceNotFound
| ReturnNoteNotOpen.

Record HTTPException := HTTP { status_code : Z; detail : Detail }.

(** An exception that no handler of the application catches: the request
    is answered with 500. *)
Inductive Unhandled := AttributeError | DetachedInstanceError.

(** A column of an instance read after its [with Session(engine)] block.
    [commit] expires the instances of the session; one that was refreshed
    after the last commit still holds its columns, one that was not can no
    longer load them and the read raises [DetachedInstanceError]. *)
Definition read_detached {A B} (refreshed : bool) (row : A) (col : A -> B)
  : Unhandled + B :=
  if refreshed then inr (col row) else inl DetachedInstanceError.

Record Session := mkSession { committed : DB; working : DB }.

Inductive Outcome (A : Type) :=
| Returned (a : A) (s : Session)
| Raised (e : HTTPException) (s : Session).
Arguments Returned {A} a s.
Arguments Raised {A} e s.

Definition M (A : Type) : Type := Session -> Outcome A.

Definition ret {A} (a : A) : M A := fun s => Returned a s.

Definition bind {A B} (c : M A) (k : A -> M B) : M B :=
  fun s =>
    match c s with
    | Returned a s' => k a s'
    | Raised e s' => Raised e s'
    end.

Definition raise {A} (e : HTTPException) : M A := fun s => Raised e s.

(** A query: it sees the rows of the open transaction. *)
Definition exec {A} (q : DB -> A) : M A := fun s => Returned (q (working s)) s.

(** An insert or update inside the open transaction. *)
Definition write (f : DB -> DB) : M unit :=
  fun s => Returned tt (mkSession (committed s) (f (working s))).

(** [session.commit()] *)
Definition commit : M unit :=
  fun s => Returned tt (mkSession (working s) (working s)).

Declare Scope session_scope.
Delimit Scope session_scope with session.
Notation "x <- c ;; k" := (bind c (fun x => k))
  (at level 100, c at next level, right associativity) : session_scope.
Notation "c ;;; k" := (bind c (fun _ => k))
  (at level 100, right associativity) : session_scope.
Local Open Scope session_scope.

(** [for x in xs: body(x)] *)
Fixpoint for_each {A} (xs : list A) (body : A -> M unit) : M unit :=
  match xs with
  | [] => ret tt
  | x :: rest => body x ;;; for_each rest body
  end.

(** [for x in xs: acc = body(acc, x)] *)
Fixpoint for_fold {A S} (xs : list A) (acc : S) (body : S -> A -> M S) : M S :=
  match xs with
  | [] => ret acc
  | x :: rest => acc' <- body acc x ;; for_fold rest acc' body
  end.

(** [with Session(engine) as s: body]: the request starts from the stored
    database and leaves behind what was committed. *)
Definition with_session {A} (body : M A) (db : DB) : (HTTPException + A) * DB :=
  match body (mkSession db db) with
  | Returned a s => (inr a, committed s)
  | Raised e s => (inl e, committed s)
  end.

(** The wall clock read by a request: [datetime.now().strftime('%Y%m')] and
    [date.today().toordinal()]. *)
Record Clock := mkClock { yyyymm : string; today : Z }.

(* ===================================================================== *)
(** ** services.py *)
(* ===================================================================== *)

(** [select(Stock).where(warehouse_id == .., item_id == ..)] then [.first()] *)
Definition select_stock (warehouse_id item_id : Z) (db : DB) : option Stock.t :=
  find (fun st => (Stock.warehouse_id st =? warehouse_id)
                  && (Stock.item_id st =? item_id))%bool
       (stocks db).

(** Flushing a modified [Stock] object: the row with its key is replaced. *)
Definition update_stock (st : Stock.t) (db : DB) : DB :=
  set_stocks db
    (map (fun r => if Stock.id r =? Stock.id st then st else r) (stocks db)).

Definition get_stock (warehouse_id item_id : Z) : M Stock.t :=
  found <- exec (select_stock warehouse_id item_id) ;;
  match found with
  | Some st => ret st
  | None =>
      new_id <- exec (fun db => next_id (map Stock.id (stocks db))) ;;
      let st := Stock.Build new_id warehouse_id item_id 0 in
      write (fun db => set_stocks db (stocks db ++ [st])) ;;;
      commit ;;;
      ret st
  end.

Definition select_party_price (party_id item_id : Z) (db : DB)
  : option PartyPrice.t :=
  find (fun pp => (PartyPrice.party_id pp =? party_id)
                  && (PartyPrice.item_id pp =? item_id))%bool
       (party_prices db).

Definition apply_party_price (party_id : Z) (item : Item.t) : M (float * float) :=
  pp <- exec (select_party_price party_id (Item.id item)) ;;
  match pp with
  | None => ret (Item.sale_price item, f0)
  | Some pp =>
      let disc := py_max f0 (py_min f100 (PartyPrice.discount_percent pp)) in
      let rate :=
        round2 (fmul (Item.sale_price item) (fsub f1 (fdiv disc f100))) in
      ret (rate, disc)
  end.

(** The dictionary returned by [invoice_totals]. *)
Record Totals := mkTotals
  { subtotal : float; gst : float; total : float; paid : float;
    balance : float }.

Definition select_invoice_lines (invoice_id : Z) (db : DB)
  : list InvoiceLine.t :=
  filter (fun ln => InvoiceLine.invoice_id ln =? invoice_id) (invoice_lines db).

Definition select_payments (invoice_id : Z) (db : DB) : list Payment.t :=
  filter (fun p => match Payment.invoice_id p with
                   | Some i => i =? invoice_id
                   | None => false
                   end)
         (payments db).

(** One turn of the loop over the lines of an invoice: the pair is
    [(subtotal, gst)]. *)
Definition totals_step (acc : float * float) (ln : InvoiceLine.t)
  : float * float :=
  let amt := fmul (of_Z (InvoiceLine.qty ln)) (InvoiceLine.rate ln) in
  let disc_amt := fmul amt (fdiv (InvoiceLine.discount_percent ln) f100) in
  let taxable := fsub amt disc_amt in
  (fadd (fst acc) taxable,
   fadd (snd acc) (fmul taxable (fdiv (InvoiceLine.gst_percent ln) f100))).

Definition invoice_totals (invoice_id : Z) : M Totals :=
  lines <- exec (select_invoice_lines invoice_id) ;;
  let acc := fold_left totals_step lines (f0, f0) in
  let subtotal := fst acc in
  let gst := snd acc in
  let total := fadd subtotal gst in
  pays <- exec (select_payments invoice_id) ;;
  let paid := py_sum (map Payment.amount pays) in
  let balance := fsub total paid in
  ret (mkTotals (round2 subtotal) (round2 gst) (round2 total) (round2 paid)
                (round2 balance)).

(* ===================================================================== *)
(** ** main.py *)
(* ===================================================================== *)

(** [POST /stock/adjust] *)
Definition stock_adjust (warehouse_id item_id delta : Z)
  : DB -> (HTTPException + unit) * DB :=
  with_session (
    st <- get_stock warehouse_id item_id ;;
    let st := Stock.set_qty st (Stock.qty st + delta) in
    write (update_stock st) ;;;
    if Stock.qty st <? 0
    then raise (HTTP 400 StockCannotGoNegative)
    else commit).

(** The column of existing numbers that [next_no] scans for a prefix. *)
Definition existing_numbers (prefix : string) (db : DB) : list string :=
  if String.eqb prefix "SO" then map SalesOrder.so_no (sales_orders db)
  else if String.eqb prefix "DC" then map Challan.dc_no (challans db)
  else if String.eqb prefix "RN" then map ReturnNote.rn_no (return_notes db)
  else map Invoice.invoice_no (invoices db).

(** The loop collecting [nums]; a number whose remainder does not parse is
    passed over ([except Exception: pass]). *)
Fixpoint collect_nums (p : string) (existing : list string) : list Z :=
  match existing with
  | [] => []
  | x :: rest =>
      if (negb (String.eqb x EmptyString) && startswith x p)%bool
      then match py_int (replace_empty x p) with
           | Some n => n :: collect_nums p rest
           | None => collect_nums p rest
           end
      else collect_nums p rest
  end.

Definition next_no (clock : Clock) (prefix : string) : M string :=
  let p := prefix ++ "-" ++ yyyymm clock ++ "-" in
  existing <- exec (existing_numbers prefix) ;;
  let nums := collect_nums p existing in
  let n := match nums with
           | [] => 1
           | k :: ks => py_max_list k ks + 1
           end in
  ret (p ++ zfill (py_str n) 4).

(** The dictionary returned by [calc_party_summary]. *)
Record Summary := mkSummary { outstanding : float; overdue : float }.

Definition select_party_invoices (party_id : Z) (db : DB) : list Invoice.t :=
  filter (fun iv => Invoice.party_id iv =? party_id) (invoices db).

Definition calc_party_summary (clock : Clock) (party : Party.t) : M Summary :=
  invs <- exec (select_party_invoices (Party.id party)) ;;
  acc <- for_fold invs (f0, f0) (fun acc iv =>
    let total_out := fst acc in
    let overdue := snd acc in
    t <- invoice_totals (Invoice.id iv) ;;
    let bal := balance t in
    if fle bal f0 then ret (total_out, overdue)
    else
      let total_out := fadd total_out bal in
      let terms := Party.payment_terms_days party in
      if terms >? 0
      then
        let due_ordinal := Invoice.invoice_date iv + terms in
        if today clock >? due_ordinal
        then ret (total_out, fadd overdue bal)
        else ret (total_out, overdue)
      else ret (total_out, overdue)) ;;
  ret (mkSummary (round2 (fst acc)) (round2 (snd acc))).

(** [session.get(Model, id)] for the tables of the pipeline. *)
Definition get_item (id : Z) (db : DB) : option Item.t :=
  find (fun r => Item.id r =? id) (items db).
Definition get_party (id : Z) (db : DB) : option Party.t :=
  find (fun r => Party.id r =? id) (parties db).
Definition get_sales_order (id : Z) (db : DB) : option SalesOrder.t :=
  find (fun r => SalesOrder.id r =? id) (sales_orders db).
Definition get_challan (id : Z) (db : DB) : option Challan.t :=
  find (fun r => Challan.id r =? id) (challans db).
Definition get_invoice (id : Z) (db : DB) : option Invoice.t :=
  find (fun r => Invoice.id r =? id) (invoices db).
Definition get_return_note (id : Z) (db : DB) : option ReturnNote.t :=
  find (fun r => ReturnNote.id r =? id) (return_notes db).

Definition update_sales_order (so : SalesOrder.t) (db : DB) : DB :=
  set_sales_orders db
    (map (fun r => if SalesOrder.id r =? SalesOrder.id so then so else r)
         (sales_orders db)).
Definition update_challan (dc : Challan.t) (db : DB) : DB :=
  set_challans db
    (map (fun r => if Challan.id r =? Challan.id dc then dc else r)
         (challans db)).
Definition update_invoice (iv : Invoice.t) (db : DB) : DB :=
  set_invoices db
    (map (fun r => if Invoice.id r =? Invoice.id iv then iv else r)
         (invoices db)).
Definition update_return_note (rn : ReturnNote.t) (db : DB) : DB :=
  set_return_notes db
    (map (fun r => if ReturnNote.id r =? ReturnNote.id rn then rn else r)
         (return_notes db)).

(** [POST /sales-orders/{so_id}/approve] *)
Definition so_approve (so_id : Z) : DB -> (HTTPException + unit) * DB :=
  with_session (
    so <- exec (get_sales_order so_id) ;;
    match so with
    | None => raise (HTTP 404 SONotFound)
    | Some so =>
        write (update_sales_order (SalesOrder.set_status so SO_APPROVED)) ;;;
        commit
    end).

Definition select_so_lines (so_id : Z) (db : DB) : list SalesOrderLine.t :=
  filter (fun ln => SalesOrderLine.so_id ln =? so_id) (sales_order_lines db).

Definition select_challan_lines (dc_id : Z) (db : DB) : list ChallanLine.t :=
  filter (fun ln => ChallanLine.dc_id ln =? dc_id) (challan_lines db).

Definition select_return_lines (return_id : Z) (db : DB) : list ReturnLine.t :=
  filter (fun ln => ReturnLine.return_id ln =? return_id) (return_lines db).

(** [session.add] of a new row; the row comes back with its primary key. *)
Definition add_challan (dc_no : string) (so_id : Z) : M Challan.t :=
  new_id <- exec (fun db => next_id (map Challan.id (challans db))) ;;
  let dc := Challan.Build new_id dc_no so_id DC_OPEN in
  write (fun db => set_challans db (challans db ++ [dc])) ;;;
  ret dc.

Definition add_challan_line (dc_id item_id qty : Z) : M unit :=
  new_id <- exec (fun db => next_id (map ChallanLine.id (challan_lines db))) ;;
  write (fun db =>
           set_challan_lines db
             (challan_lines db ++ [ChallanLine.Build new_id dc_id item_id qty])).

Definition add_invoice (invoice_no : string) (dc_id party_id warehouse_id : Z)
    (invoice_date : Z) (place : option string) : M Invoice.t :=
  new_id <- exec (fun db => next_id (map Invoice.id (invoices db))) ;;
  let inv := Invoice.Build new_id invoice_no dc_id party_id warehouse_id
                           invoice_date place INV_OPEN in
  write (fun db => set_invoices db (invoices db ++ [inv])) ;;;
  ret inv.

Definition add_invoice_line (invoice_id item_id qty : Z)
    (rate gst_percent discount_percent : float) : M unit :=
  new_id <- exec (fun db => next_id (map InvoiceLine.id (invoice_lines db))) ;;
  write (fun db =>
           set_invoice_lines db
             (invoice_lines db ++
                [InvoiceLine.Build new_id invoice_id item_id qty rate
                                   gst_percent discount_percent])).

Definition add_payment_row (party_id : Z) (invoice_id : option Z)
    (amount : float) : M unit :=
  new_id <- exec (fun db => next_id (map Payment.id (payments db))) ;;
  write (fun db =>
           set_payments db
             (payments db ++ [Payment.Build new_id party_id invoice_id amount])).

Definition add_return_line (return_id item_id qty : Z) : M unit :=
  new_id <- exec (fun db => next_id (map ReturnLine.id (return_lines db))) ;;
  write (fun db =>
           set_return_lines db
             (return_lines db ++ [ReturnLine.Build new_id return_id item_id qty])).

(** [POST /challans/create] *)
Definition challan_create (clock : Clock) (so_id : Z)
  : DB -> (HTTPException + unit) * DB :=
  with_session (
    found <- exec (get_sales_order so_id) ;;
    match found with
    | None => raise (HTTP 400 SONotApproved)
    | Some so =>
        if negb (SOStatus_eqb (SalesOrder.status so) SO_APPROVED)
        then raise (HTTP 400 SONotApproved)
        else
          dc_no <- next_no clock "DC" ;;
          dc <- add_challan dc_no so_id ;;
          commit ;;;
          so_lines <- exec (select_so_lines so_id) ;;
          for_each so_lines (fun ln =>
            st <- get_stock (SalesOrder.warehouse_id so)
                            (SalesOrderLine.item_id ln) ;;
            if Stock.qty st <? SalesOrderLine.qty ln
            then raise (HTTP 400 (InsufficientStock (SalesOrderLine.item_id ln)
                                                    (Stock.qty st)))
            else
              write (update_stock
                       (Stock.set_qty st (Stock.qty st - SalesOrderLine.qty ln))) ;;;
              add_challan_line (Challan.id dc) (SalesOrderLine.item_id ln)
                               (SalesOrderLine.qty ln)) ;;;
          write (update_sales_order (SalesOrder.set_status so SO_DISPATCHED)) ;;;
          commit
    end).

(** The first loop of [invoice_create] over the challan lines: the pair is
    [(projected_sub, projected_gst)]. *)
Definition projected_amounts (party_id : Z) (dc_lines : list ChallanLine.t)
  : M (float * float) :=
  for_fold dc_lines (f0, f0) (fun acc dln =>
    it <- exec (get_item (ChallanLine.item_id dln)) ;;
    match it with
    | None => ret acc
    | Some it =>
        rd <- apply_party_price party_id it ;;
        let rate := fst rd in
        let disc := snd rd in
        let amt := fmul (of_Z (ChallanLine.qty dln)) rate in
        let disc_amt := fmul amt (fdiv disc f100) in
        let taxable := fsub amt disc_amt in
        ret (fadd (fst acc) taxable,
             fadd (snd acc) (fmul taxable (fdiv (Item.gst_percent it) f100)))
    end).

(** The second loop of [invoice_create]: challan lines copied to invoice
    lines. *)
Definition copy_dc_lines (invoice_id party_id : Z)
    (dc_lines : list ChallanLine.t) : M unit :=
  for_each dc_lines (fun dln =>
    it <- exec (get_item (ChallanLine.item_id dln)) ;;
    match it with
    | None => ret tt
    | Some it =>
        rd <- apply_party_price party_id it ;;
        add_invoice_line invoice_id (Item.id it) (ChallanLine.qty dln)
                         (fst rd) (Item.gst_percent it) (snd rd)
    end).

(** [POST /invoices/create].  The redirect is built from [inv.id] after the
    block: [inv] was refreshed after the first commit and not after the
    second, so that every request that gets there ends in a
    [DetachedInstanceError], with the invoice stored. *)
Definition invoice_create (clock : Clock) (dc_id : Z) (invoice_date : Z)
  : DB -> (HTTPException + (Unhandled + Z)) * DB :=
  with_session (
    found <- exec (get_challan dc_id) ;;
    match found with
    | None => raise (HTTP 400 ChallanNotAvailable)
    | Some dc =>
    if negb (DCStatus_eqb (Challan.status dc) DC_OPEN)
    then raise (HTTP 400 ChallanNotAvailable)
    else
    found_so <- exec (get_sales_order (Challan.so_id dc)) ;;
    match found_so with
    | None => raise (HTTP 400 SONotFoundForChallan)
    | Some so =>
    found_party <- exec (get_party (SalesOrder.party_id so)) ;;
    match found_party with
    | None => raise (HTTP 400 PartyNotFound)
    | Some party =>
    summary <- calc_party_summary clock party ;;
    if Party.is_blocked party then raise (HTTP 400 PartyIsBlocked)
    else if fgt (overdue summary) f0
    then raise (HTTP 400 (OverduePending (overdue summary)))
    else
    dc_lines <- exec (select_challan_lines dc_id) ;;
    projected <- projected_amounts (Party.id party) dc_lines ;;
    let projected_total := fadd (fst projected) (snd projected) in
    if (truthy (Party.credit_limit party)
        && fgt (fadd (outstanding summary) projected_total)
               (Party.credit_limit party))%bool
    then raise (HTTP 400 (CreditLimitExceeded (Party.credit_limit party)
                                              (outstanding summary)
                                              (round2 projected_total)))
    else
    invoice_no <- next_no clock "INV" ;;
    inv <- add_invoice invoice_no dc_id (Party.id party)
                       (SalesOrder.warehouse_id so) invoice_date
                       (Party.state party) ;;
    commit ;;;
    copy_dc_lines (Invoice.id inv) (Party.id party) dc_lines ;;;
    write (update_challan (Challan.set_status dc DC_INVOICED)) ;;;
    commit ;;;
    ret (read_detached false inv Invoice.id)
    end end end).

(** [POST /payments/add] *)
Definition add_payment (inv_id : Z) (amount : float)
  : DB -> (HTTPException + unit) * DB :=
  with_session (
    found <- exec (get_invoice inv_id) ;;
    match found with
    | None => raise (HTTP 404 InvoiceNotFound)
    | Some inv =>
        add_payment_row (Invoice.party_id inv) (Some inv_id) amount ;;;
        commit
    end).

(** [POST /returns/{rn_id}/add-line] *)
Definition returns_add_line (rn_id item_id qty : Z)
  : DB -> (HTTPException + unit) * DB :=
  with_session (
    found <- exec (get_return_note rn_id) ;;
    match found with
    | None => raise (HTTP 400 ReturnNoteNotOpen)
    | Some rn =>
        if negb (RNStatus_eqb (ReturnNote.status rn) RN_OPEN)
        then raise (HTTP 400 ReturnNoteNotOpen)
        else add_return_line rn_id item_id qty ;;; commit
    end).

(** [POST /returns/{rn_id}/post] *)
Definition returns_post (rn_id : Z) : DB -> (HTTPException + unit) * DB :=
  with_session (
    found <- exec (get_return_note rn_id) ;;
    match found with
    | None => raise (HTTP 400 ReturnNoteNotOpen)
    | Some rn =>
        if negb (RNStatus_eqb (ReturnNote.status rn) RN_OPEN)
        then raise (HTTP 400 ReturnNoteNotOpen)
        else
          lines <- exec (select_return_lines rn_id) ;;
          for_each lines (fun ln =>
            st <- get_stock (ReturnNote.warehouse_id rn) (ReturnLine.item_id ln) ;;
            write (update_stock
                     (Stock.set_qty st (Stock.qty st + ReturnLine.qty ln)))) ;;;
          write (update_return_note (ReturnNote.set_status rn RN_POSTED)) ;;;
          commit
    end).

(* ===================================================================== *)
(** ** app.py: the earlier direct-invoice flow

    Its tables are the ones above without the challan, price-slab and
    discount columns, which its functions never read. *)
(* ===================================================================== *)

Module App.

Definition totals_step (acc : float * float) (ln : InvoiceLine.t)
  : float * float :=
  let line_amount := fmul (of_Z (InvoiceLine.qty ln)) (InvoiceLine.rate ln) in
  (fadd (fst acc) line_amount,
   fadd (snd acc) (fmul line_amount (fdiv (InvoiceLine.gst_percent ln) f100))).

Definition invoice_totals (invoice_id : Z) : M Totals :=
  lines <- exec (select_invoice_lines invoice_id) ;;
  let acc := fold_left totals_step lines (f0, f0) in
  let subtotal := fst acc in
  let gst := snd acc in
  let total := fadd subtotal gst in
  paid <- exec (select_payments invoice_id) ;;
  let paid_amt := py_sum (map Payment.amount paid) in
  let balance := fsub total paid_amt in
  ret (mkTotals (round2 subtotal) (round2 gst) (round2 total) (round2 paid_amt)
                (round2 balance)).

(** The [if]/[elif] chain of [update_invoice_status]. *)
Definition derive_status (t : Totals) : InvStatus :=
  if fle (total t) f0 then INV_OPEN
  else if fle (balance t) (decimal 1 1000) then INV_PAID
  else if fgt (paid t) f0 then INV_PARTIAL
  else INV_OPEN.

Definition update_invoice_status (invoice_id : Z) : M unit :=
  found <- exec (get_invoice invoice_id) ;;
  match found with
  | None => ret tt
  | Some inv =>
      t <- invoice_totals invoice_id ;;
      write (update_invoice (Invoice.set_status inv (derive_status t))) ;;;
      commit
  end.

(** [POST /invoices/{invoice_id}/add_line] *)
Definition invoice_add_line (invoice_id item_id qty : Z)
    (rate gst_percent : float) : DB -> (HTTPException + unit) * DB :=
  with_session (
    found <- exec (get_invoice invoice_id) ;;
    match found with
    | None => raise (HTTP 404 InvoiceNotFound)
    | Some inv =>
        st <- get_stock (Invoice.warehouse_id inv) item_id ;;
        if Stock.qty st <? qty
        then raise (HTTP 400 (InsufficientStock item_id (Stock.qty st)))
        else
          write (update_stock (Stock.set_qty st (Stock.qty st - qty))) ;;;
          add_invoice_line invoice_id item_id qty rate gst_percent f0 ;;;
          commit ;;;
          update_invoice_status invoice_id
    end).

(** [POST /payments/create] *)
Definition payments_create (party_id invoice_id : Z) (amount : float)
  : DB -> (HTTPException + unit) * DB :=
  with_session (
    add_payment_row party_id (Some invoice_id) amount ;;;
    commit ;;;
    update_invoice_status invoice_id).

End App.


(* ===================================================================== *)
(** ** main.py: the requests that feed the pipeline *)
(* ===================================================================== *)

Definition set_party_prices (db : DB) (l : list PartyPrice.t) : DB :=
  mkDB (items db) (parties db) l (stocks db) (sales_orders db)
       (sales_order_lines db) (challans db) (challan_lines db) (invoices db)
       (invoice_lines db) (payments db) (return_notes db) (return_lines db).

(** [existing.discount_percent = discount_percent] *)
Definition with_discount (pp : PartyPrice.t) (discount_percent : float)
  : PartyPrice.t :=
  PartyPrice.Build (PartyPrice.id pp) (PartyPrice.party_id pp)
                   (PartyPrice.item_id pp) discount_percent.

Definition update_party_price (pp : PartyPrice.t) (db : DB) : DB :=
  set_party_prices db
    (map (fun r => if PartyPrice.id r =? PartyPrice.id pp then pp else r)
         (party_prices db)).

(** [POST /parties/price] *)
Definition set_party_price (party_id item_id : Z) (discount_percent : float)
  : DB -> (HTTPException + unit) * DB :=
  with_session (
    existing <- exec (select_party_price party_id item_id) ;;
    match existing with
    | Some existing =>
        write (update_party_price (with_discount existing discount_percent)) ;;;
        commit
    | None =>
        new_id <- exec (fun db => next_id (map PartyPrice.id (party_prices db))) ;;
        write (fun db =>
                 set_party_prices db
                   (party_prices db ++
                      [PartyPrice.Build new_id party_id item_id
                                        discount_percent])) ;;;
        commit
    end).

Definition add_sales_order (so_no : string) (party_id warehouse_id : Z)
  : M SalesOrder.t :=
  new_id <- exec (fun db => next_id (map SalesOrder.id (sales_orders db))) ;;
  let so := SalesOrder.Build new_id so_no party_id warehouse_id SO_OPEN in
  write (fun db => set_sales_orders db (sales_orders db ++ [so])) ;;;
  ret so.

(** [POST /sales-orders/create], for a request whose [so_date] is an ISO
    date; the result is the key of the new order. *)
Definition so_create (clock : Clock) (party_id warehouse_id : Z)
  : DB -> (HTTPException + Z) * DB :=
  with_session (
    so_no <- next_no clock "SO" ;;
    so <- add_sales_order so_no party_id warehouse_id ;;
    commit ;;;
    ret (SalesOrder.id so)).

Definition add_sales_order_line (so_id item_id qty : Z)
    (rate gst_percent discount_percent : float) : M unit :=
  new_id <- exec (fun db =>
                    next_id (map SalesOrderLine.id (sales_order_lines db))) ;;
  write (fun db =>
           set_sales_order_lines db
             (sales_order_lines db ++
                [SalesOrderLine.Build new_id so_id item_id qty rate
                                      gst_percent discount_percent])).

(** [POST /sales-orders/{so_id}/add-line].  [session.get(Item, item_id)] is
    not checked: for an unknown item, [apply_party_price] reads [item.id] of
    [None] and an [AttributeError] leaves the request before anything is
    stored. *)
Definition so_add_line (so_id item_id qty : Z)
  : DB -> (HTTPException + (Unhandled + unit)) * DB :=
  with_session (
    found <- exec (get_sales_order so_id) ;;
    match found with
    | None => raise (HTTP 404 SONotFound)
    | Some so =>
        item <- exec (get_item item_id) ;;
        match item with
        | None => ret (inl AttributeError)
        | Some item =>
            rd <- apply_party_price (SalesOrder.party_id so) item ;;
            add_sales_order_line so_id item_id qty (fst rd)
                                 (Item.gst_percent item) (snd rd) ;;;
            commit ;;;
            ret (inr tt)
        end
    end).

Definition add_return_note (rn_no : string) (party_id warehouse_id : Z)
  : M ReturnNote.t :=
  new_id <- exec (fun db => next_id (map ReturnNote.id (return_notes db))) ;;
  let rn := ReturnNote.Build new_id rn_no party_id warehouse_id RN_OPEN in
  write (fun db => set_return_notes db (return_notes db ++ [rn])) ;;;
  ret rn.

(** [POST /returns/create], for a request whose [return_date] is empty or
    an ISO date; the result is the key of the new return note. *)
Definition returns_create (clock : Clock) (party_id warehouse_id : Z)
  : DB -> (HTTPException + Z) * DB :=
  with_session (
    rn_no <- next_no clock "RN" ;;
    rn <- add_return_note rn_no party_id warehouse_id ;;
    commit ;;;
    ret (ReturnNote.id rn)).

(* ===================================================================== *)
(** * Derived definitions

    The values computed by the read-only helpers, as functions of the
    database (each is proved below to be what the helper returns), the
    line amounts and the numbering in the words of the specification, the
    invariants, and the sample databases on which the requests are run. *)
(* ===================================================================== *)

(** ** Values of the queries *)

(** What [apply_party_price] returns. *)
Definition resolve_price (db : DB) (party_id : Z) (item : Item.t)
  : float * float :=
  match select_party_price party_id (Item.id item) db with
  | None => (Item.sale_price item, f0)
  | Some pp =>
      let disc := py_max f0 (py_min f100 (PartyPrice.discount_percent pp)) in
      (round2 (fmul (Item.sale_price item) (fsub f1 (fdiv disc f100))), disc)
  end.

(** What [invoice_totals] returns. *)
Definition totals_of (db : DB) (invoice_id : Z) : Totals :=
  let acc := fold_left totals_step (select_invoice_lines invoice_id db) (f0, f0) in
  let total := fadd (fst acc) (snd acc) in
  let paid := py_sum (map Payment.amount (select_payments invoice_id db)) in
  mkTotals (round2 (fst acc)) (round2 (snd acc)) (round2 total) (round2 paid)
           (round2 (fsub total paid)).

(** One turn of the loop of [calc_party_summary]; the pair is
    [(total_out, overdue)]. *)
Definition summary_step (clock : Clock) (party : Party.t) (db : DB)
    (acc : float * float) (iv : Invoice.t) : float * float :=
  let bal := balance (totals_of db (Invoice.id iv)) in
  if fle bal f0 then acc
  else if Party.payment_terms_days party >? 0
       then if today clock >? Invoice.invoice_date iv + Party.payment_terms_days party
            then (fadd (fst acc) bal, fadd (snd acc) bal)
            else (fadd (fst acc) bal, snd acc)
       else (fadd (fst acc) bal, snd acc).

(** What [calc_party_summary] returns. *)
Definition party_summary (clock : Clock) (db : DB) (party : Party.t) : Summary :=
  let acc := fold_left (summary_step clock party db)
                       (select_party_invoices (Party.id party) db) (f0, f0) in
  mkSummary (round2 (fst acc)) (round2 (snd acc)).

(** One turn of the projection loop of [invoice_create]. *)
Definition projection_step (party_id : Z) (db : DB) (acc : float * float)
    (dln : ChallanLine.t) : float * float :=
  match get_item (ChallanLine.item_id dln) db with
  | None => acc
  | Some it =>
      let rd := resolve_price db party_id it in
      let amt := fmul (of_Z (ChallanLine.qty dln)) (fst rd) in
      let taxable := fsub amt (fmul amt (fdiv (snd rd) f100)) in
      (fadd (fst acc) taxable,
       fadd (snd acc) (fmul taxable (fdiv (Item.gst_percent it) f100)))
  end.

(** What [projected_amounts] returns. *)
Definition projection (db : DB) (party_id : Z) (dc_lines : list ChallanLine.t)
  : float * float :=
  fold_left (projection_step party_id db) dc_lines (f0, f0).

(** What [next_no] returns. *)
Definition next_number (clock : Clock) (prefix : string) (db : DB) : string :=
  let p := (prefix ++ "-" ++ yyyymm clock ++ "-")%string in
  p ++ zfill (py_str match collect_nums p (existing_numbers prefix db) with
                     | [] => 1
                     | k :: ks => py_max_list k ks + 1
                     end) 4.

(** The invoice-line table after one challan line has been copied. *)
Definition copy_step (db : DB) (invoice_id party_id : Z)
    (table : list InvoiceLine.t) (dln : ChallanLine.t) : list InvoiceLine.t :=
  match get_item (ChallanLine.item_id dln) db with
  | None => table
  | Some it =>
      let rd := resolve_price db party_id it in
      table ++ [InvoiceLine.Build (next_id (map InvoiceLine.id table))
                                  invoice_id (Item.id it) (ChallanLine.qty dln)
                                  (fst rd) (Item.gst_percent it) (snd rd)]
  end.

(** The invoice-line table after [copy_dc_lines]. *)
Definition copied_lines (db : DB) (invoice_id party_id : Z)
    (dc_lines : list ChallanLine.t) (table : list InvoiceLine.t)
  : list InvoiceLine.t :=
  fold_left (copy_step db invoice_id party_id) dc_lines table.

(** The invoice header that [invoice_create] inserts. *)
Definition new_invoice (clock : Clock) (db : DB) (dc_id : Z)
    (so : SalesOrder.t) (party : Party.t) (invoice_date : Z) : Invoice.t :=
  Invoice.Build (next_id (map Invoice.id (invoices db)))
                (next_number clock "INV" db) dc_id (Party.id party)
                (SalesOrder.warehouse_id so) invoice_date (Party.state party)
                INV_OPEN.

(** The stored database after a successful [invoice_create]. *)
Definition invoiced_db (clock : Clock) (db : DB) (dc_id : Z) (dc : Challan.t)
    (so : SalesOrder.t) (party : Party.t) (invoice_date : Z) : DB :=
  let inv := new_invoice clock db dc_id so party invoice_date in
  update_challan (Challan.set_status dc DC_INVOICED)
    (set_invoice_lines
       (set_invoices db (invoices db ++ [inv]))
       (copied_lines db (Invoice.id inv) (Party.id party)
                     (select_challan_lines dc_id db) (invoice_lines db))).

(** ** Line amounts of the specification *)

(** The amounts of one invoice line in the words of the specification:
    [line_amount = qty * rate], [discount_amount = line_amount *
    discount_percent / 100], [taxable = line_amount - discount_amount], and
    the tax of the line [taxable * gst_percent / 100]. *)
Definition line_amount (ln : InvoiceLine.t) : float :=
  fmul (of_Z (InvoiceLine.qty ln)) (InvoiceLine.rate ln).

Definition line_taxable (ln : InvoiceLine.t) : float :=
  fsub (line_amount ln)
       (fmul (line_amount ln) (fdiv (InvoiceLine.discount_percent ln) f100)).

Definition line_gst (ln : InvoiceLine.t) : float :=
  fmul (line_taxable ln) (fdiv (InvoiceLine.gst_percent ln) f100).

(** A line of an invoice: a row of the [InvoiceLine] table that carries the
    key of the invoice. *)
Definition line_of (invoice_id : Z) (ln : InvoiceLine.t) : bool :=
  InvoiceLine.invoice_id ln =? invoice_id.

(** A payment linked to an invoice: a row of the [Payment] table whose
    [invoice_id] is the key of the invoice; a payment on account has
    none. *)
Definition payment_of (invoice_id : Z) (p : Payment.t) : bool :=
  match Payment.invoice_id p with
  | Some i => i =? invoice_id
  | None => false
  end.

(** A price slab for a party and an item: a row of the [PartyPrice] table
    that carries both keys. *)
Definition slab_for (party_id item_id : Z) (pp : PartyPrice.t) : bool :=
  (PartyPrice.party_id pp =? party_id) && (PartyPrice.item_id pp =? item_id).

(** ** Numbering in the words of the specification *)

(** [x[n:]] *)
Fixpoint string_drop (n : nat) (x : string) : string :=
  match n, x with
  | O, _ => x
  | S k, String _ rest => string_drop k rest
  | S _, EmptyString => EmptyString
  end.

(** [p in s] *)
Fixpoint occurs (p s : string) : bool :=
  match s with
  | EmptyString => false
  | String _ rest => (String.prefix p s || occurs p rest)%bool
  end.

(** The numbers kept by the specification: the existing numbers that begin
    with the period prefix [p] and whose trailing suffix parses as an
    integer. *)
Definition kept_suffixes (p : string) (existing : list string) : list Z :=
  flat_map (fun x =>
              if startswith x p
              then match py_int (string_drop (String.length p) x) with
                   | Some n => [n]
                   | None => []
                   end
              else [])
           existing.

(** A document number in which the period prefix [p] does not come back
    after its leading occurrence. *)
Definition prefix_once (p x : string) : bool :=
  (negb (startswith x p)
   || negb (occurs p (string_drop (String.length p) x)))%bool.

(** A string without the character [-]. *)
Fixpoint no_dash (s : string) : bool :=
  match s with
  | EmptyString => true
  | String c rest => (negb (Ascii.eqb c "-"%char) && no_dash rest)%bool
  end.

(** A document number as [next_no] writes them for a prefix: the prefix, a
    period of [len] characters and a number that is not negative. *)
Definition issued (prefix : string) (len : nat) (x : string) : Prop :=
  exists (period : string) (n : Z),
    String.length period = len /\ 0 <= n
    /\ x = ((prefix ++ "-" ++ period ++ "-") ++ zfill (py_str n) 4)%string.

(** ** The stock invariant *)

(** No stock row holds a negative quantity. *)
Definition stock_nonneg (db : DB) : Prop :=
  Forall (fun st => 0 <= Stock.qty st) (stocks db).

(** Neither the committed nor the working database of a session does. *)
Definition session_nonneg (s : Session) : Prop :=
  stock_nonneg (committed s) /\ stock_nonneg (working s).

(** The session in which a computation ends, normally or not. *)
Definition final_session {A} (o : Outcome A) : Session :=
  match o with
  | Returned _ s => s
  | Raised _ s => s
  end.

(** ** Referential integrity *)

(** The foreign key of [InvoiceLine.invoice_id]: every invoice line belongs
    to an invoice of the database. *)
Definition invoice_lines_linked (db : DB) : bool :=
  forallb (fun ln => existsb (Z.eqb (InvoiceLine.invoice_id ln))
                             (map Invoice.id (invoices db)))
          (invoice_lines db).

(** A challan line whose item is still in the [Item] table. *)
Definition resolves (db : DB) (dln : ChallanLine.t) : bool :=
  match get_item (ChallanLine.item_id dln) db with
  | Some _ => true
  | None => false
  end.

(** The database without the challan lines whose item is gone. *)
Definition without_unresolved (db : DB) : DB :=
  set_challan_lines db (filter (resolves db) (challan_lines db)).

(** ** Sample databases *)

(** The invoice of the specification's example: two lines
    (qty 2, rate 100, gst 12, discount 10) and (qty 1, rate 50, gst 0,
    discount 0), no payment. *)
Definition example_invoice_db : DB :=
  set_invoice_lines empty_db
    [InvoiceLine.Build 1 1 1 2 (of_Z 100) (of_Z 12) (of_Z 10);
     InvoiceLine.Build 2 1 2 1 (of_Z 50) (of_Z 0) (of_Z 0)].

(** Two invoices side by side: invoice 1 with the two lines of the
    example, invoice 2 with one line of 3 copies at 10; a payment of 100
    against invoice 1, one of 30 against invoice 2 and one of 55 on
    account. *)
Definition ledger_db : DB :=
  set_payments
    (set_invoice_lines empty_db
       [InvoiceLine.Build 1 1 1 2 (of_Z 100) (of_Z 12) (of_Z 10);
        InvoiceLine.Build 2 2 3 3 (of_Z 10) (of_Z 0) (of_Z 0);
        InvoiceLine.Build 3 1 2 1 (of_Z 50) (of_Z 0) (of_Z 0)])
    [Payment.Build 1 1 (Some 1) (of_Z 100);
     Payment.Build 2 1 None (of_Z 55);
     Payment.Build 3 1 (Some 2) (of_Z 30)].

Definition sample_clock : Clock := mkClock "202501" 739000.

(** Warehouse 1 holds 5 copies of item 1; return note 1 is open. *)
Definition returns_db : DB :=
  set_return_notes
    (set_stocks empty_db [Stock.Build 1 1 1 5])
    [ReturnNote.Build 1 "RN-202501-0001" 1 1 RN_OPEN].

(** Approved order 1 asks for 5 copies of item 1; warehouse 1 holds 2. *)
Definition short_stock_db : DB :=
  set_sales_order_lines
    (set_sales_orders
       (set_stocks empty_db [Stock.Build 1 1 1 2])
       [SalesOrder.Build 1 "SO-202501-0001" 1 1 SO_APPROVED])
    [SalesOrderLine.Build 1 1 1 5 (of_Z 100) f0 f0].

(** Approved order 1 asks for 3 copies of item 1 and 4 of item 2;
    warehouse 1 holds 10 copies of item 1 and has no row for item 2. *)
Definition two_line_db : DB :=
  set_sales_order_lines
    (set_sales_orders
       (set_stocks empty_db [Stock.Build 1 1 1 10])
       [SalesOrder.Build 1 "SO-202501-0001" 1 1 SO_APPROVED])
    [SalesOrderLine.Build 1 1 1 3 (of_Z 100) f0 f0;
     SalesOrderLine.Build 2 1 2 4 (of_Z 50) f0 f0].

(** Approved order 1 asks for 3 copies of item 1; warehouse 1 holds 10. *)
Definition approved_db : DB :=
  set_sales_order_lines
    (set_sales_orders
       (set_stocks empty_db [Stock.Build 1 1 1 10])
       [SalesOrder.Build 1 "SO-202501-0001" 1 1 SO_APPROVED])
    [SalesOrderLine.Build 1 1 1 3 (of_Z 100) f0 f0].

(** Invoice 1 of party 1: one line of 5 copies at 100, no tax, no payment. *)
Definition unpaid_db : DB :=
  set_invoice_lines
    (set_invoices empty_db
       [Invoice.Build 1 "INV-202501-0001" 1 1 1 738990 None INV_OPEN])
    [InvoiceLine.Build 1 1 1 5 (of_Z 100) f0 f0].

(** Party 1 has a credit limit of -1; challan 1 of its order is open and
    has no line. *)
Definition negative_limit_db : DB :=
  mkDB [] [Party.Build 1 None (of_Z (-1)) 0 false] [] []
       [SalesOrder.Build 1 "SO-202501-0001" 1 1 SO_DISPATCHED] []
       [Challan.Build 1 "DC-202501-0001" 1 DC_OPEN] [] [] [] [] [] [].

(** The credit-control example of the specification: party 1 has a limit of
    1000 and owes 800 on invoice 1; open challan 1 carries 3 copies of item 1
    (list price 100), open challan 2 carries 3 copies of item 2 (list price
    50). *)
Definition credit_db : DB :=
  mkDB [Item.Build 1 "BK-1" f0 (of_Z 100); Item.Build 2 "BK-2" f0 (of_Z 50)]
       [Party.Build 1 None (of_Z 1000) 0 false]
       []
       []
       [SalesOrder.Build 1 "SO-202501-0001" 1 1 SO_DISPATCHED;
        SalesOrder.Build 2 "SO-202501-0002" 1 1 SO_DISPATCHED;
        SalesOrder.Build 3 "SO-202501-0003" 1 1 SO_DISPATCHED]
       []
       [Challan.Build 1 "DC-202501-0001" 1 DC_INVOICED;
        Challan.Build 2 "DC-202501-0002" 2 DC_OPEN;
        Challan.Build 3 "DC-202501-0003" 3 DC_OPEN]
       [ChallanLine.Build 1 1 1 8;
        ChallanLine.Build 2 2 1 3;
        ChallanLine.Build 3 3 2 3]
       [Invoice.Build 1 "INV-202501-0001" 1 1 1 738990 None INV_OPEN]
       [InvoiceLine.Build 1 1 1 8 (of_Z 100) f0 f0]
       [] [] [].

(** [credit_db] after item 2 has left the [Item] table and challan 3 has
    been given a second line, for item 1. *)
Definition orphan_line_db : DB :=
  mkDB [Item.Build 1 "BK-1" f0 (of_Z 100)]
       (parties credit_db) [] []
       (sales_orders credit_db) []
       (challans credit_db)
       (challan_lines credit_db ++ [ChallanLine.Build 4 3 1 1])
       (invoices credit_db) (invoice_lines credit_db) [] [] [].

(** The numbering example of the specification: invoices INV-202501-0001
    and INV-202501-0003 exist, together with one of the month before. *)
Definition numbering_db : DB :=
  set_invoices empty_db
    [Invoice.Build 1 "INV-202412-0007" 1 1 1 738960 None INV_OPEN;
     Invoice.Build 2 "INV-202501-0001" 2 1 1 738990 None INV_OPEN;
     Invoice.Build 3 "INV-202501-0003" 3 1 1 738991 None INV_OPEN].

(** Price slabs on one item of list price 100: party 1 has a discount of
    12.5, party 2 of 150, party 3 of -5, party 4 has none. *)
Definition pricing_db : DB :=
  mkDB [Item.Build 1 "BK-1" (of_Z 5) (of_Z 100)] []
       [PartyPrice.Build 1 1 1 (decimal 125 10);
        PartyPrice.Build 2 2 1 (of_Z 150);
        PartyPrice.Build 3 3 1 (of_Z (-5))]
       [] [] [] [] [] [] [] [] [] [].

(* ===================================================================== *)
(** * Derived definitions for the stock ledger and the feeding requests *)
(* ===================================================================== *)

(** ** Values of [get_stock] *)

(** The row [get_stock] returns. *)
Definition stock_row (warehouse_id item_id : Z) (db : DB) : Stock.t :=
  match select_stock warehouse_id item_id db with
  | Some st => st
  | None =>
      Stock.Build (next_id (map Stock.id (stocks db))) warehouse_id item_id 0
  end.

(** The database [get_stock] leaves behind. *)
Definition with_stock_row (warehouse_id item_id : Z) (db : DB) : DB :=
  match select_stock warehouse_id item_id db with
  | Some _ => db
  | None => set_stocks db (stocks db ++ [stock_row warehouse_id item_id db])
  end.

(** The quantity on hand of an item in a warehouse, as the requests read
    it: a pair without a row counts as 0. *)
Definition qty_at (warehouse_id item_id : Z) (db : DB) : Z :=
  match select_stock warehouse_id item_id db with
  | Some st => Stock.qty st
  | None => 0
  end.

(** ** Keys *)

(** No key occurs twice in a column of primary keys. *)
Fixpoint unique_ids (ids : list Z) : bool :=
  match ids with
  | [] => true
  | x :: rest => negb (existsb (Z.eqb x) rest) && unique_ids rest
  end.

Definition stock_ids_unique (db : DB) : bool :=
  unique_ids (map Stock.id (stocks db)).

(** ** Quantities of a document *)

(** The quantity of one item over the lines of a sales order. *)
Definition ordered_qty (item_id : Z) (lines : list SalesOrderLine.t) : Z :=
  fold_right Z.add 0
    (map SalesOrderLine.qty
         (filter (fun ln => SalesOrderLine.item_id ln =? item_id) lines)).

(** The quantity of one item over the lines of a return note. *)
Definition returned_qty (item_id : Z) (lines : list ReturnLine.t) : Z :=
  fold_right Z.add 0
    (map ReturnLine.qty
         (filter (fun ln => ReturnLine.item_id ln =? item_id) lines)).

(** ** The stock loops *)

(** The working database after a turn of the loop of [challan_create] that
    served its line. *)
Definition dispatch_line (warehouse_id dc_id : Z) (db : DB)
    (ln : SalesOrderLine.t) : DB :=
  let st := stock_row warehouse_id (SalesOrderLine.item_id ln) db in
  let db1 :=
    update_stock (Stock.set_qty st (Stock.qty st - SalesOrderLine.qty ln))
                 (with_stock_row warehouse_id (SalesOrderLine.item_id ln) db) in
  set_challan_lines db1
    (challan_lines db1 ++
       [ChallanLine.Build (next_id (map ChallanLine.id (challan_lines db1)))
                          dc_id (SalesOrderLine.item_id ln)
                          (SalesOrderLine.qty ln)]).

Definition dispatch_lines (warehouse_id dc_id : Z)
    (lines : list SalesOrderLine.t) (db : DB) : DB :=
  fold_left (dispatch_line warehouse_id dc_id) lines db.

(** The working database after a turn of the loop of [returns_post]. *)
Definition restock_line (warehouse_id : Z) (db : DB) (ln : ReturnLine.t) : DB :=
  let st := stock_row warehouse_id (ReturnLine.item_id ln) db in
  update_stock (Stock.set_qty st (Stock.qty st + ReturnLine.qty ln))
               (with_stock_row warehouse_id (ReturnLine.item_id ln) db).

Definition restock_lines (warehouse_id : Z) (lines : list ReturnLine.t)
    (db : DB) : DB :=
  fold_left (restock_line warehouse_id) lines db.

(** The foreign key of [ChallanLine.dc_id]. *)
Definition challan_lines_linked (db : DB) : bool :=
  forallb (fun ln => existsb (Z.eqb (ChallanLine.dc_id ln))
                             (map Challan.id (challans db)))
          (challan_lines db).

(** The foreign key of [ReturnLine.return_id]. *)
Definition return_lines_linked (db : DB) : bool :=
  forallb (fun ln => existsb (Z.eqb (ReturnLine.return_id ln))
                             (map ReturnNote.id (return_notes db)))
          (return_lines db).

(** The foreign key of [SalesOrderLine.so_id]. *)
Definition so_lines_linked (db : DB) : bool :=
  forallb (fun ln => existsb (Z.eqb (SalesOrderLine.so_id ln))
                             (map SalesOrder.id (sales_orders db)))
          (sales_order_lines db).

(** ** What a document line carries *)

(** The item, quantity, rate, tax and discount of an invoice line. *)
Definition line_content (ln : InvoiceLine.t) : Z * Z * float * float * float :=
  (InvoiceLine.item_id ln, InvoiceLine.qty ln, InvoiceLine.rate ln,
   InvoiceLine.gst_percent ln, InvoiceLine.discount_percent ln).

(** A challan line priced for a party against the database: nothing when
    its item is gone. *)
Definition priced_line (db : DB) (party_id : Z) (dln : ChallanLine.t)
  : list (Z * Z * float * float * float) :=
  match get_item (ChallanLine.item_id dln) db with
  | None => []
  | Some it =>
      [(Item.id it, ChallanLine.qty dln, fst (resolve_price db party_id it),
        Item.gst_percent it, snd (resolve_price db party_id it))]
  end.

(** The tables that invoicing has no business with are the same in two
    databases. *)
Definition same_outside_invoicing (db db' : DB) : Prop :=
  items db' = items db
  /\ parties db' = parties db
  /\ party_prices db' = party_prices db
  /\ stocks db' = stocks db
  /\ sales_orders db' = sales_orders db
  /\ sales_order_lines db' = sales_order_lines db
  /\ challan_lines db' = challan_lines db
  /\ payments db' = payments db
  /\ return_notes db' = return_notes db
  /\ return_lines db' = return_lines db.

(** What [invoice_totals] of the earlier flow returns. *)
Definition app_totals_of (db : DB) (invoice_id : Z) : Totals :=
  let acc :=
    fold_left App.totals_step (select_invoice_lines invoice_id db) (f0, f0) in
  let total := fadd (fst acc) (snd acc) in
  let paid_amt := py_sum (map Payment.amount (select_payments invoice_id db)) in
  mkTotals (round2 (fst acc)) (round2 (snd acc)) (round2 total)
           (round2 paid_amt) (round2 (fsub total paid_amt)).

(** [unpaid_db] with 10 copies of item 1 in warehouse 1, the warehouse of
    its invoice. *)
Definition counter_sale_db : DB :=
  set_stocks unpaid_db [Stock.Build 1 1 1 10].

(** [returns_db] after 2 copies of item 1 and 3 of item 2 have been entered
    on return note 1. *)
Definition return_lines_db : DB :=
  set_return_lines returns_db
    [ReturnLine.Build 1 1 1 2; ReturnLine.Build 2 1 2 3].

(** ** Decimal numerals *)




(** ** What the loop of [challan_create] asks of the stock *)

(** The database after the quantity of a line has been taken from the
    stock of a warehouse. *)
Definition take_stock (warehouse_id : Z) (db : DB) (ln : SalesOrderLine.t)
  : DB :=
  let st := stock_row warehouse_id (SalesOrderLine.item_id ln) db in
  update_stock (Stock.set_qty st (Stock.qty st - SalesOrderLine.qty ln))
               (with_stock_row warehouse_id (SalesOrderLine.item_id ln) db).

(** Every line, in its turn, finds its quantity on hand in the warehouse,
    the lines before it having been served. *)
Fixpoint sufficient (warehouse_id : Z) (lines : list SalesOrderLine.t)
    (db : DB) : bool :=
  match lines with
  | [] => true
  | ln :: rest =>
      (SalesOrderLine.qty ln
       <=? qty_at warehouse_id (SalesOrderLine.item_id ln) db)
      && sufficient warehouse_id rest (take_stock warehouse_id db ln)
  end.

(** The price slab that [set_party_price] leaves for a party and an item. *)
Definition stored_slab (party_id item_id : Z) (discount_percent : float)
    (db : DB) : PartyPrice.t :=
  match select_party_price party_id item_id db with
  | Some pp => with_discount pp discount_percent
  | None =>
      PartyPrice.Build (next_id (map PartyPrice.id (party_prices db)))
                       party_id item_id discount_percent
  end.

(** [credit_db] with 10 copies of item 1 in warehouse 1. *)
Definition stocked_db : DB :=
  set_stocks credit_db [Stock.Build 1 1 1 10].


(* ===================================================================== *)
(** * Reasoning about requests *)
(* ===================================================================== *)

Arguments fadd : simpl never.
Arguments fsub : simpl never.
Arguments fmul : simpl never.
Arguments fdiv : simpl never.
Arguments of_Z : simpl never.
Arguments round2 : simpl never.
Arguments flt : simpl never.
Arguments fle : simpl never.
Arguments feq : simpl never.
Arguments f100 : simpl never.
Arguments f1 : simpl never.
Arguments decimal : simpl never.
Arguments py_str : simpl never.
Arguments zfill : simpl never.
Arguments py_int : simpl never.
Arguments replace_empty : simpl never.
Arguments next_id : simpl never.

(** ** Queries leave the session as it is *)

Lemma apply_party_price_run (party_id : Z) (item : Item.t) (s : Session) :
  apply_party_price party_id item s
  = Returned (resolve_price (working s) party_id item) s.
Proof.
  unfold apply_party_price, resolve_price, bind, exec.
  destruct (select_party_price party_id (Item.id item) (working s));
    reflexivity.
Qed.

Lemma invoice_totals_run (invoice_id : Z) (s : Session) :
  invoice_totals invoice_id s = Returned (totals_of (working s) invoice_id) s.
Proof. reflexivity. Qed.

Lemma for_fold_query {A S} (body : S -> A -> M S) (step : DB -> S -> A -> S) :
  (forall acc x s, body acc x s = Returned (step (working s) acc x) s) ->
  forall xs acc s,
    for_fold xs acc body s = Returned (fold_left (step (working s)) xs acc) s.
Proof.
  intros Hbody xs.
  induction xs as [|x xs IH]; intros acc s; [reflexivity|].
  simpl. unfold bind. rewrite Hbody. apply IH.
Qed.

Lemma calc_party_summary_run (clock : Clock) (party : Party.t) (s : Session) :
  calc_party_summary clock party s
  = Returned (party_summary clock (working s) party) s.
Proof.
  unfold calc_party_summary, party_summary, bind at 1, exec at 1.
  unfold bind at 1.
  rewrite (for_fold_query _ (summary_step clock party)); [reflexivity|].
  intros [total_out overdue_acc] iv s'.
  unfold bind. rewrite invoice_totals_run. unfold summary_step.
  cbn [fst snd].
  destruct (fle (balance (totals_of (working s') (Invoice.id iv))) f0);
    [reflexivity|].
  destruct (Party.payment_terms_days party >? 0); [|reflexivity].
  destruct (today clock >? Invoice.invoice_date iv + Party.payment_terms_days party);
    reflexivity.
Qed.

Lemma projected_amounts_run (party_id : Z) (dc_lines : list ChallanLine.t)
    (s : Session) :
  projected_amounts party_id dc_lines s
  = Returned (projection (working s) party_id dc_lines) s.
Proof.
  unfold projected_amounts, projection.
  apply (for_fold_query _ (projection_step party_id)).
  intros acc dln s'. unfold bind, exec, projection_step.
  destruct (get_item (ChallanLine.item_id dln) (working s')); [|reflexivity].
  rewrite apply_party_price_run. reflexivity.
Qed.

Lemma next_no_run (clock : Clock) (prefix : string) (s : Session) :
  next_no clock prefix s = Returned (next_number clock prefix (working s)) s.
Proof. reflexivity. Qed.

(** Two databases with the same items and price slabs resolve prices alike. *)
Lemma copy_step_ext (db db' : DB) (invoice_id party_id : Z) :
  items db = items db' -> party_prices db = party_prices db' ->
  forall table dln,
    copy_step db invoice_id party_id table dln
    = copy_step db' invoice_id party_id table dln.
Proof.
  intros Hi Hp table dln.
  unfold copy_step, get_item, resolve_price, select_party_price.
  rewrite Hi, Hp. reflexivity.
Qed.

Lemma copied_lines_ext (db db' : DB) (invoice_id party_id : Z) :
  items db = items db' -> party_prices db = party_prices db' ->
  forall dc_lines table,
    copied_lines db invoice_id party_id dc_lines table
    = copied_lines db' invoice_id party_id dc_lines table.
Proof.
  intros Hi Hp dc_lines.
  induction dc_lines as [|dln rest IH]; intros table; [reflexivity|].
  unfold copied_lines in *. simpl.
  rewrite (copy_step_ext db db' invoice_id party_id Hi Hp). apply IH.
Qed.

Lemma copy_dc_lines_run (invoice_id party_id : Z)
    (dc_lines : list ChallanLine.t) (s : Session) :
  copy_dc_lines invoice_id party_id dc_lines s
  = Returned tt
      (mkSession (committed s)
         (set_invoice_lines (working s)
            (copied_lines (working s) invoice_id party_id dc_lines
                          (invoice_lines (working s))))).
Proof.
  revert s.
  induction dc_lines as [|dln rest IH]; intros [c w].
  - destruct w; reflexivity.
  - unfold copy_dc_lines in *. simpl for_each. unfold bind at 1.
    unfold bind at 1, exec at 1. cbn [working committed].
    unfold copied_lines. simpl fold_left. unfold copy_step at 2.
    destruct (get_item (ChallanLine.item_id dln) w) as [it|] eqn:Hit.
    + unfold bind at 1. rewrite apply_party_price_run.
      cbn [working committed].
      unfold add_invoice_line, bind at 1, exec, write. cbn [working committed].
      rewrite IH. cbn [working committed].
      rewrite (copied_lines_ext _ w) by (destruct w; reflexivity).
      destruct w; reflexivity.
    + unfold ret. rewrite IH. reflexivity.
Qed.

Lemma bind_run {A B} (c : M A) (k : A -> M B) (s s' : Session) (a : A) :
  c s = Returned a s' -> bind c k s = k a s'.
Proof. intros H. unfold bind. rewrite H. reflexivity. Qed.

Lemma bind_raised {A B} (c : M A) (k : A -> M B) (s s' : Session)
    (e : HTTPException) :
  c s = Raised e s' -> bind c k s = Raised e s'.
Proof. intros H. unfold bind. rewrite H. reflexivity. Qed.

Lemma add_invoice_run (invoice_no : string) (dc_id party_id warehouse_id : Z)
    (invoice_date : Z) (place : option string) (s : Session) :
  let inv := Invoice.Build (next_id (map Invoice.id (invoices (working s))))
                           invoice_no dc_id party_id warehouse_id invoice_date
                           place INV_OPEN in
  add_invoice invoice_no dc_id party_id warehouse_id invoice_date place s
  = Returned inv
      (mkSession (committed s)
                 (set_invoices (working s) (invoices (working s) ++ [inv]))).
Proof. reflexivity. Qed.

(** ** What a request to [invoice_create] leaves behind *)

Lemma invoice_create_eq (clock : Clock) (dc_id invoice_date : Z) (db : DB) :
  invoice_create clock dc_id invoice_date db =
  match get_challan dc_id db with
  | None => (inl (HTTP 400 ChallanNotAvailable), db)
  | Some dc =>
  if negb (DCStatus_eqb (Challan.status dc) DC_OPEN)
  then (inl (HTTP 400 ChallanNotAvailable), db)
  else
  match get_sales_order (Challan.so_id dc) db with
  | None => (inl (HTTP 400 SONotFoundForChallan), db)
  | Some so =>
  match get_party (SalesOrder.party_id so) db with
  | None => (inl (HTTP 400 PartyNotFound), db)
  | Some party =>
  let summary := party_summary clock db party in
  if Party.is_blocked party then (inl (HTTP 400 PartyIsBlocked), db)
  else if fgt (overdue summary) f0
  then (inl (HTTP 400 (OverduePending (overdue summary))), db)
  else
  let projected :=
    projection db (Party.id party) (select_challan_lines dc_id db) in
  let projected_total := fadd (fst projected) (snd projected) in
  if (truthy (Party.credit_limit party)
      && fgt (fadd (outstanding summary) projected_total)
             (Party.credit_limit party))%bool
  then (inl (HTTP 400 (CreditLimitExceeded (Party.credit_limit party)
                                           (outstanding summary)
                                           (round2 projected_total))), db)
  else (inr (inl DetachedInstanceError),
        invoiced_db clock db dc_id dc so party invoice_date)
  end end end.
Proof.
  unfold invoice_create, with_session.
  unfold bind at 1, exec at 1. cbn [working committed].
  destruct (get_challan dc_id db) as [dc|]; [|reflexivity].
  destruct (negb (DCStatus_eqb (Challan.status dc) DC_OPEN)); [reflexivity|].
  unfold bind at 1, exec at 1. cbn [working committed].
  destruct (get_sales_order (Challan.so_id dc) db) as [so|]; [|reflexivity].
  unfold bind at 1, exec at 1. cbn [working committed].
  destruct (get_party (SalesOrder.party_id so) db) as [party|]; [|reflexivity].
  unfold bind at 1. rewrite calc_party_summary_run. cbn [working committed].
  cbv zeta.
  destruct (Party.is_blocked party); [reflexivity|].
  destruct (fgt (overdue (party_summary clock db party)) f0); [reflexivity|].
  unfold bind at 1, exec at 1. cbn [working committed].
  unfold bind at 1. rewrite projected_amounts_run. cbn [working committed].
  match goal with |- context [if ?b then _ else _] => destruct b end;
    [reflexivity|].
  unfold bind at 1. rewrite next_no_run. cbn [working committed].
  erewrite bind_run by apply add_invoice_run. cbn [working committed].
  erewrite bind_run by reflexivity. cbn [working committed].
  erewrite bind_run by apply copy_dc_lines_run. cbn [working committed].
  unfold bind, write, commit, ret. cbn [working committed].
  unfold invoiced_db, new_invoice. cbn [Invoice.id].
  rewrite (copied_lines_ext _ db) by (destruct db; reflexivity).
  destruct db; reflexivity.
Qed.

(* ===================================================================== *)
(** * Pricing resolver *)
(* ===================================================================== *)

Section FloatOrder.

Lemma flt_fle (a b : float) : flt a b = true -> fle a b = true.
Proof.
  unfold flt, fle, SFltb, SFleb.
  destruct (SFcompare a b) as [[]|]; congruence.
Qed.

Lemma fle_not_flt (a b : float) :
  fle a b = true -> flt a b = false -> SFcompare a b = Some Eq.
Proof.
  unfold flt, fle, SFltb, SFleb.
  destruct (SFcompare a b) as [[]|]; congruence.
Qed.

(** Only a zero compares equal to [0.0]. *)
Lemma compare_zero_eq (d : float) :
  SFcompare f0 d = Some Eq -> exists s, d = S754_zero s.
Proof.
  destruct d as [s|s| |s m e]; simpl; try discriminate.
  - intros _. now exists s.
  - destruct s; discriminate.
  - destruct s; discriminate.
Qed.

(** A float that compares equal to a finite one is that very float. *)
Lemma compare_finite_eq (d : float) (s : bool) (m : positive) (e : Z) :
  SFcompare d (S754_finite s m e) = Some Eq -> d = S754_finite s m e.
Proof.
  destruct d as [sd|sd| |sd md ed]; simpl.
  - destruct s; discriminate.
  - destruct sd; discriminate.
  - discriminate.
  - destruct sd, s; try discriminate;
      destruct (Z.compare ed e) eqn:He; try discriminate;
      apply Z.compare_eq in He; subst ed;
      intros H; injection H as H.
    + destruct (Pos.compare_cont Eq md m) eqn:Hm; try discriminate.
      apply Pos.compare_eq in Hm. now subst.
    + apply Pos.compare_eq in H. now subst.
Qed.

Lemma feq_refl (d : float) : d <> S754_nan -> feq d d = true.
Proof.
  unfold feq, SFeqb.
  destruct d as [s|s| |s m e]; simpl; try reflexivity.
  - destruct s; reflexivity.
  - congruence.
  - intros _. destruct s; rewrite Z.compare_refl, Pos.compare_cont_refl;
      reflexivity.
Qed.

Lemma flt_not_nan (a b : float) : flt a b = true -> b <> S754_nan.
Proof.
  unfold flt, SFltb. intros H ->.
  destruct a as [s|s| |s m e]; simpl in H; discriminate.
Qed.

End FloatOrder.

Lemma flt_asym (a b : float) : flt a b = true -> flt b a = false.
Proof.
  unfold flt, SFltb.
  destruct a as [sa|sa| |sa ma ea], b as [sb|sb| |sb mb eb]; simpl;
    try discriminate; try reflexivity;
    try (destruct sa; discriminate || reflexivity);
    try (destruct sb; discriminate || reflexivity);
    try (destruct sa, sb; discriminate || reflexivity).
  destruct sa, sb; try discriminate; try reflexivity;
    rewrite (Z.compare_antisym ea eb);
    destruct (Z.compare ea eb); simpl; try discriminate; try reflexivity;
    change (Pos.compare_cont Eq mb ma) with (Pos.compare mb ma);
    change (Pos.compare_cont Eq ma mb) with (Pos.compare ma mb);
    rewrite (Pos.compare_antisym ma mb);
    destruct (Pos.compare ma mb); simpl; discriminate || reflexivity.
Qed.

Lemma f100_eq : f100 = S754_finite false 7036874417766400 (-46).
Proof. vm_compute. reflexivity. Qed.

Lemma flt_0_100 : flt f0 f100 = true.
Proof. vm_compute. reflexivity. Qed.

Lemma fle_0_100 : fle f0 f100 = true.
Proof. vm_compute. reflexivity. Qed.

(** Below zero is below one hundred. *)
Lemma flt_0_flt_100 (d : float) : flt d f0 = true -> flt d f100 = true.
Proof.
  rewrite f100_eq. unfold flt, SFltb, f0.
  destruct d as [s|s| |s m e]; try destruct s; intros H;
    try (cbv in H; discriminate H); reflexivity.
Qed.

(** The clamp [max(0.0, min(100.0, d))], case by case. *)
Lemma clamp_cases (d : float) :
  let disc := py_max f0 (py_min f100 d) in
  (flt f0 d = true /\ flt d f100 = true /\ disc = d)
  \/ (flt d f100 = false /\ disc = f100)
  \/ (flt d f100 = true /\ flt f0 d = false /\ disc = f0).
Proof.
  unfold py_max, py_min, fgt.
  destruct (flt d f100) eqn:H100.
  - destruct (flt f0 d) eqn:H0; auto.
  - right. left. rewrite flt_0_100. auto.
Qed.

Lemma fle_100_100 : fle f100 f100 = true.
Proof. vm_compute. reflexivity. Qed.
Lemma fle_0_0 : fle f0 f0 = true.
Proof. vm_compute. reflexivity. Qed.
Lemma feq_100_100 : feq f100 f100 = true.
Proof. vm_compute. reflexivity. Qed.

(** What [apply_party_price] answers, by the row that its query finds. *)
Lemma apply_party_price_cases :
  forall (s : Session) (party_id : Z) (item : Item.t),
  exists rate disc,
    apply_party_price party_id item s = Returned (rate, disc) s /\
    match select_party_price party_id (Item.id item) (working s) with
    | Some pp =>
        let d := PartyPrice.discount_percent pp in
        fle f0 disc = true /\ fle disc f100 = true /\
        (fle f0 d = true -> fle d f100 = true -> feq disc d = true) /\
        (flt d f0 = true -> disc = f0) /\
        (fgt d f100 = true -> disc = f100) /\
        rate = round2 (fmul (Item.sale_price item)
                            (fsub f1 (fdiv disc f100)))
    | None => rate = Item.sale_price item /\ disc = f0
    end.
Proof.
  intros s party_id item.
  rewrite apply_party_price_run. unfold resolve_price.
  destruct (select_party_price party_id (Item.id item) (working s)) as [pp|].
  2: { exists (Item.sale_price item), f0. auto. }
  eexists _, _. split; [reflexivity|].
  cbv zeta.
  generalize (PartyPrice.discount_percent pp) as d. intros d.
  destruct (clamp_cases d) as [(H0 & H100 & ->)|[(H100 & ->)|(H100 & H0 & ->)]].
  - (* strictly between 0 and 100 *)
    split; [now apply flt_fle|].
    split; [now apply flt_fle|].
    split; [intros _ _; apply feq_refl; eapply flt_not_nan; eassumption|].
    split; [intros Hneg; apply flt_asym in Hneg; congruence|].
    split; [|reflexivity].
    unfold fgt. intros Hbig. apply flt_asym in Hbig. congruence.
  - (* not below 100 *)
    split; [exact fle_0_100|].
    split; [exact fle_100_100|].
    split.
    { intros _ Hle.
      pose proof (fle_not_flt _ _ Hle H100) as Heq.
      rewrite f100_eq in Heq. apply compare_finite_eq in Heq.
      rewrite Heq, <- f100_eq. exact feq_100_100. }
    split; [intros Hneg; apply flt_0_flt_100 in Hneg; congruence|].
    split; reflexivity.
  - (* below 100 and not above 0 *)
    split; [exact fle_0_0|].
    split; [exact fle_0_100|].
    split.
    { intros Hle _.
      pose proof (fle_not_flt _ _ Hle H0) as Heq.
      apply compare_zero_eq in Heq. destruct Heq as [sd ->].
      reflexivity. }
    split; [reflexivity|].
    split; [|reflexivity].
    unfold fgt. intros Hbig. apply flt_asym in Hbig. congruence.
Qed.

(** A query for the first row of a kind finds nothing exactly when the
    table holds no such row, and otherwise the row before which there is
    none. *)
Lemma find_absent {A} (f : A -> bool) (l : list A) :
  (forall x, In x l -> f x = false) -> find f l = None.
Proof.
  induction l as [|x l IH]; intros H; [reflexivity|].
  cbn [find]. rewrite (H x (or_introl eq_refl)).
  apply IH. intros y Hy. apply H. now right.
Qed.

Lemma find_first {A} (f : A -> bool) (before after : list A) (x : A) :
  forallb (fun y => negb (f y)) before = true ->
  f x = true ->
  find f (before ++ x :: after) = Some x.
Proof.
  intros Hbefore Hx.
  induction before as [|y before IH]; cbn [app find].
  - now rewrite Hx.
  - cbn [forallb] in Hbefore. apply andb_prop in Hbefore.
    destruct Hbefore as [Hy Hbefore]. apply negb_true_iff in Hy.
    rewrite Hy. now apply IH.
Qed.

(** C7. [apply_party_price] ("resolve_price") leaves the session as it found
    it.  When the [PartyPrice] table holds no row for the party and the
    item, the rate is the sale price of the item and the discount is 0.0.
    When it holds one, the returned discount lies between 0 and 100 and the
    returned rate is [round(sale_price * (1 - discount / 100), 2)]; the row
    used is the first one of the table for the pair, and the returned
    discount is its stored discount clamped to [0, 100]: equal to it when
    it lies between 0 and 100, 0 when it is below 0 and 100 when it is
    above 100. *)
Theorem apply_party_price_spec :
  forall (s : Session) (party_id : Z) (item : Item.t),
  exists rate disc,
    apply_party_price party_id item s = Returned (rate, disc) s
    /\ ((forall pp, In pp (party_prices (working s)) ->
                    slab_for party_id (Item.id item) pp = false) ->
        rate = Item.sale_price item /\ disc = f0)
    /\ ((exists pp, In pp (party_prices (working s))
                    /\ slab_for party_id (Item.id item) pp = true) ->
        fle f0 disc = true /\ fle disc f100 = true
        /\ rate = round2 (fmul (Item.sale_price item)
                              (fsub f1 (fdiv disc f100))))
    /\ (forall (before after : list PartyPrice.t) (pp : PartyPrice.t),
          party_prices (working s) = (before ++ pp :: after)%list ->
          forallb (fun q => negb (slab_for party_id (Item.id item) q)) before
          = true ->
          slab_for party_id (Item.id item) pp = true ->
          let d := PartyPrice.discount_percent pp in
          (fle f0 d = true -> fle d f100 = true -> feq disc d = true)
          /\ (flt d f0 = true -> disc = f0)
          /\ (fgt d f100 = true -> disc = f100)).
Proof.
  intros s party_id item.
  destruct (apply_party_price_cases s party_id item)
    as (rate & disc & Hrun & Hcase).
  exists rate, disc. split; [exact Hrun|].
  unfold select_party_price in Hcase.
  change (fun pp : PartyPrice.t =>
            ((PartyPrice.party_id pp =? party_id)
             && (PartyPrice.item_id pp =? Item.id item))%bool)
    with (slab_for party_id (Item.id item)) in Hcase.
  split; [|split].
  - intros Hnone. rewrite (find_absent _ _ Hnone) in Hcase. exact Hcase.
  - intros (pp & Hin & Hpp).
    destruct (find (slab_for party_id (Item.id item))
                   (party_prices (working s))) as [q|] eqn:Hfind.
    + destruct Hcase as (H0 & H100 & _ & _ & _ & Hrate). auto.
    + pose proof (find_none _ _ Hfind pp Hin) as Hno. congruence.
  - intros before after pp Htable Hbefore Hpp.
    rewrite Htable, (find_first _ _ _ _ Hbefore Hpp) in Hcase.
    destruct Hcase as (_ & _ & Hin & Hlow & Hhigh & _). cbv zeta.
    split; [exact Hin|]. split; [exact Hlow|exact Hhigh].
Qed.

(** The first slab of [pricing_db], for party 1 and item 1, stores 12.5. *)
Lemma apply_party_price_spec_witness :
  let s := mkSession pricing_db pricing_db in
  let item := Item.Build 1 "BK-1" (of_Z 5) (of_Z 100) in
  let pp := PartyPrice.Build 1 1 1 (decimal 125 10) in
  exists rate disc,
    apply_party_price 1 item s = Returned (rate, disc) s
    /\ In pp (party_prices (working s))
    /\ slab_for 1 (Item.id item) pp = true
    /\ fle f0 disc = true /\ fle disc f100 = true
    /\ rate = round2 (fmul (Item.sale_price item) (fsub f1 (fdiv disc f100)))
    /\ feq disc (decimal 125 10) = true.
Proof.
  intros s item pp.
  destruct (apply_party_price_spec s 1 item)
    as (rate & disc & Hrun & _ & Hexists & Hfirst).
  assert (Hin : In pp (party_prices (working s))) by (left; reflexivity).
  assert (Hpp : slab_for 1 (Item.id item) pp = true) by reflexivity.
  destruct (Hexists (ex_intro _ pp (conj Hin Hpp))) as (H0 & H100 & Hrate).
  destruct (Hfirst [] (tl (party_prices (working s))) pp
                   eq_refl eq_refl Hpp) as (Hd & _ & _).
  exists rate, disc.
  split; [exact Hrun|]. split; [exact Hin|]. split; [exact Hpp|].
  split; [exact H0|]. split; [exact H100|]. split; [exact Hrate|].
  apply Hd; vm_compute; reflexivity.
Defined.

(** On [pricing_db]: a discount of 12.5 gives the rate 87.5; a discount of
    150 is used as 100 and gives the rate 0; a discount of -5 is used as 0
    and gives the list price; without a slab the list price is returned
    with a discount of 0. *)
Lemma apply_party_price_examples :
  let s := mkSession pricing_db pricing_db in
  let item := Item.Build 1 "BK-1" (of_Z 5) (of_Z 100) in
  apply_party_price 1 item s = Returned (decimal 875 10, decimal 125 10) s
  /\ apply_party_price 2 item s = Returned (f0, of_Z 100) s
  /\ apply_party_price 3 item s = Returned (of_Z 100, f0) s
  /\ apply_party_price 4 item s = Returned (of_Z 100, f0) s.
Proof. vm_compute. auto. Qed.

(* ===================================================================== *)
(** * Financial aggregator *)
(* ===================================================================== *)

(** The loop of [invoice_totals] keeps two independent running sums. *)
Lemma totals_loop_sums (lines : list InvoiceLine.t) (a b : float) :
  fold_left totals_step lines (a, b)
  = (fold_left fadd (map line_taxable lines) a,
     fold_left fadd (map line_gst lines) b).
Proof.
  revert a b.
  induction lines as [|ln lines IH]; intros a b; [reflexivity|].
  cbn [fold_left map]. rewrite <- IH. reflexivity.
Qed.

(** C5. [invoice_totals(invoice_id)] reads without writing.  Its lines are
    the rows of the [InvoiceLine] table that carry the key of the invoice
    and the payments linked to it the rows of the [Payment] table whose
    [invoice_id] is that key, both in table order.  It returns [subtotal] =
    the sum over its lines of the taxable amounts ([qty * rate] less its
    [discount_percent]), [gst] = the sum of [taxable * gst_percent / 100],
    [total = subtotal + gst], [paid] = the sum of the amounts of the
    payments linked to the invoice and [balance = total - paid]; the sums
    run over unrounded line amounts and [round(., 2)] is applied once to
    each of the five results.  On the two lines of the specification's
    example the result is subtotal 230, gst 21.6 and total 251.6, and it
    is so with the line of another invoice stored between them; of the
    payments of 100, 55 on account and 30 against another invoice, 100 is
    paid and 151.6 is the balance. *)
Theorem invoice_totals_spec :
  (forall (s : Session) (invoice_id : Z),
     let lines := filter (line_of invoice_id) (invoice_lines (working s)) in
     let pays := filter (payment_of invoice_id) (payments (working s)) in
     let sub := py_sum (map line_taxable lines) in
     let tax := py_sum (map line_gst lines) in
     let tot := fadd sub tax in
     let pd := py_sum (map Payment.amount pays) in
     invoice_totals invoice_id s
     = Returned (mkTotals (round2 sub) (round2 tax) (round2 tot) (round2 pd)
                          (round2 (fsub tot pd))) s)
  /\ (let s := mkSession example_invoice_db example_invoice_db in
      invoice_totals 1 s
      = Returned (mkTotals (of_Z 230) (decimal 216 10) (decimal 2516 10)
                           f0 (decimal 2516 10)) s)
  /\ (let s := mkSession ledger_db ledger_db in
      invoice_totals 1 s
      = Returned (mkTotals (of_Z 230) (decimal 216 10) (decimal 2516 10)
                           (of_Z 100) (decimal 1516 10)) s
      /\ invoice_totals 2 s
         = Returned (mkTotals (of_Z 30) f0 (of_Z 30) (of_Z 30) f0) s
      /\ invoice_totals 3 s = Returned (mkTotals f0 f0 f0 f0 f0) s).
Proof.
  split; [|split].
  - intros s invoice_id. cbv zeta.
    rewrite invoice_totals_run.
    unfold totals_of, select_invoice_lines, select_payments, py_sum.
    change (fun ln : InvoiceLine.t => InvoiceLine.invoice_id ln =? invoice_id)
      with (line_of invoice_id).
    change (fun p : Payment.t =>
              match Payment.invoice_id p with
              | Some i => i =? invoice_id
              | None => false
              end)
      with (payment_of invoice_id).
    rewrite totals_loop_sums. reflexivity.
  - vm_compute. reflexivity.
  - vm_compute. split; [reflexivity|]. split; reflexivity.
Qed.

(* ===================================================================== *)
(** * Stock ledger *)
(* ===================================================================== *)

(** ** Requests that keep the stock from going negative *)

Lemma for_each_invariant {A} (I : Session -> Prop) (body : A -> M unit) :
  (forall x s, I s -> I (final_session (body x s))) ->
  forall xs s, I s -> I (final_session (for_each xs body s)).
Proof.
  intros Hbody xs.
  induction xs as [|x xs IH]; intros s Hs; [exact Hs|].
  cbn [for_each]. unfold bind.
  specialize (Hbody x s Hs).
  destruct (body x s) as [[] s'|e s']; cbn [final_session] in *.
  - now apply IH.
  - exact Hbody.
Qed.

Lemma update_stock_nonneg (st : Stock.t) (db : DB) :
  stock_nonneg db -> 0 <= Stock.qty st -> stock_nonneg (update_stock st db).
Proof.
  unfold stock_nonneg, update_stock. destruct db as [? ? ? stocks0 ? ? ? ? ? ? ? ? ?].
  cbn [stocks set_stocks]. intros Hall Hst.
  induction stocks0 as [|r rows IH]; [constructor|].
  inversion Hall as [|? ? Hr Hrows]; subst.
  cbn [map]. constructor; [|now apply IH].
  destruct (Stock.id r =? Stock.id st); assumption.
Qed.

(** [get_stock] returns a row of the working database and keeps the
    invariant, whether it finds the row or creates it. *)
Lemma get_stock_nonneg (warehouse_id item_id : Z) (s : Session) :
  session_nonneg s ->
  exists st s',
    get_stock warehouse_id item_id s = Returned st s'
    /\ session_nonneg s' /\ 0 <= Stock.qty st.
Proof.
  intros [Hc Hw]. unfold get_stock, bind at 1, exec at 1.
  destruct (select_stock warehouse_id item_id (working s)) as [st|] eqn:Hsel.
  - exists st, s. split; [reflexivity|]. split; [now split|].
    unfold select_stock in Hsel. apply find_some in Hsel.
    destruct Hsel as [Hin _]. unfold stock_nonneg in Hw.
    rewrite Forall_forall in Hw. now apply Hw.
  - eexists _, _. split; [reflexivity|]. cbn [Stock.qty].
    assert (Hnew : stock_nonneg
                     (set_stocks (working s)
                        (stocks (working s) ++
                           [Stock.Build (next_id (map Stock.id (stocks (working s))))
                                        warehouse_id item_id 0]))).
    { unfold stock_nonneg in *. destruct (working s). cbn [stocks set_stocks] in *.
      apply Forall_app. split; [exact Hw|].
      constructor; [cbn; lia|constructor]. }
    split; [split; exact Hnew|lia].
Qed.

(** X1. A manual adjustment never stores a negative quantity. *)
Lemma stock_adjust_nonneg (warehouse_id item_id delta : Z) (db : DB) :
  stock_nonneg db ->
  stock_nonneg (snd (stock_adjust warehouse_id item_id delta db)).
Proof.
  intros Hdb. unfold stock_adjust, with_session.
  destruct (get_stock_nonneg warehouse_id item_id (mkSession db db))
    as (st & s' & Hget & [Hc Hw] & Hst); [now split|].
  erewrite bind_run by exact Hget.
  unfold bind at 1, write at 1. cbn [Stock.qty Stock.set_qty].
  destruct (Stock.qty st + delta <? 0) eqn:Hneg.
  - exact Hc.
  - cbn [commit snd committed working].
    apply update_stock_nonneg; [exact Hw|]. cbn [Stock.qty].
    apply Z.ltb_ge in Hneg. exact Hneg.
Qed.

(** A manual adjustment that would take an existing row below zero is
    refused and the stored database is the one before the request. *)
Lemma stock_adjust_refused (warehouse_id item_id delta : Z) (db : DB)
    (st : Stock.t) :
  select_stock warehouse_id item_id db = Some st ->
  Stock.qty st + delta < 0 ->
  stock_adjust warehouse_id item_id delta db
  = (inl (HTTP 400 StockCannotGoNegative), db).
Proof.
  intros Hsel Hneg. unfold stock_adjust, with_session, get_stock.
  unfold bind at 1. unfold bind at 1, exec at 1. cbn [working].
  rewrite Hsel. cbn [ret]. unfold bind at 1, write at 1.
  cbn [Stock.qty Stock.set_qty].
  apply Z.ltb_lt in Hneg. rewrite Hneg. reflexivity.
Qed.

(** One turn of the dispatch loop keeps the invariant, whether the line is
    served or refused. *)
Lemma dispatch_line_nonneg (so : SalesOrder.t) (dc : Challan.t)
    (ln : SalesOrderLine.t) (s : Session) :
  session_nonneg s ->
  session_nonneg
    (final_session
       ((st <- get_stock (SalesOrder.warehouse_id so)
                         (SalesOrderLine.item_id ln) ;;
         if Stock.qty st <? SalesOrderLine.qty ln
         then raise (HTTP 400 (InsufficientStock (SalesOrderLine.item_id ln)
                                                 (Stock.qty st)))
         else
           write (update_stock
                    (Stock.set_qty st (Stock.qty st - SalesOrderLine.qty ln))) ;;;
           add_challan_line (Challan.id dc) (SalesOrderLine.item_id ln)
                            (SalesOrderLine.qty ln)) s)).
Proof.
  intros Hs.
  destruct (get_stock_nonneg (SalesOrder.warehouse_id so)
                             (SalesOrderLine.item_id ln) s Hs)
    as (st & s' & Hget & [Hc Hw] & Hst).
  erewrite bind_run by exact Hget.
  destruct (Stock.qty st <? SalesOrderLine.qty ln) eqn:Hlt; [now split|].
  apply Z.ltb_ge in Hlt.
  unfold bind, write, add_challan_line, bind, exec, write.
  cbn [final_session committed working].
  split; [exact Hc|].
  assert (Hupd : stock_nonneg
                   (update_stock
                      (Stock.set_qty st (Stock.qty st - SalesOrderLine.qty ln))
                      (working s'))).
  { apply update_stock_nonneg; [exact Hw|]. cbn [Stock.qty Stock.set_qty]. lia. }
  unfold stock_nonneg in *. destruct (update_stock _ (working s')); exact Hupd.
Qed.

(** X2. Dispatch never stores a negative quantity either, on success or on
    failure. *)
Lemma challan_create_nonneg (clock : Clock) (so_id : Z) (db : DB) :
  stock_nonneg db ->
  stock_nonneg (snd (challan_create clock so_id db)).
Proof.
  intros Hdb.
  assert (Hfinal : forall A (o : Outcome A),
             session_nonneg (final_session o) ->
             stock_nonneg (snd (match o with
                                | Returned a s => (inr a, committed s)
                                | Raised e s => (@inl _ A e, committed s)
                                end))).
  { intros A [a s|e s] [Hc _]; exact Hc. }
  unfold challan_create, with_session. apply Hfinal.
  unfold bind at 1, exec at 1. cbn [working].
  destruct (get_sales_order so_id db) as [so|]; [|now split].
  destruct (negb (SOStatus_eqb (SalesOrder.status so) SO_APPROVED));
    [now split|].
  unfold bind at 1. rewrite next_no_run. cbn [working].
  unfold bind at 1, add_challan at 1, bind at 1, exec at 1. cbn [working].
  unfold bind at 1, write at 1. cbn [ret committed working].
  unfold bind at 1, commit at 1. cbn [committed working].
  unfold bind at 1, exec at 1. cbn [working].
  set (db1 := set_challans db _).
  assert (H1 : session_nonneg (mkSession db1 db1)).
  { assert (stock_nonneg db1) by (subst db1; destruct db; exact Hdb).
    now split. }
  unfold bind at 1.
  match goal with
  | |- context [for_each ?xs ?body ?s] =>
      pose proof (for_each_invariant session_nonneg body
                    (dispatch_line_nonneg so _) xs s H1) as Hloop;
      destruct (for_each xs body s) as [[] s2|e s2]
  end; cbn [final_session] in Hloop; [|exact Hloop].
  unfold bind, write, commit. cbn [final_session committed working].
  destruct Hloop as [_ Hw2].
  assert (Hso : stock_nonneg
                  (update_sales_order
                     (SalesOrder.set_status so SO_DISPATCHED) (working s2))).
  { unfold stock_nonneg in *. destruct (working s2); exact Hw2. }
  now split.
Qed.

(** The examples of the specification: with 5 in stock, an adjustment by -6
    fails and the stored quantity is still 5; an adjustment by -5 succeeds
    and leaves 0. *)
Lemma stock_adjust_examples :
  stock_adjust 1 1 (-6) returns_db
  = (inl (HTTP 400 StockCannotGoNegative), returns_db)
  /\ fst (stock_adjust 1 1 (-5) returns_db) = inr tt
  /\ map Stock.qty (stocks (snd (stock_adjust 1 1 (-5) returns_db))) = [0].
Proof. vm_compute. auto. Qed.

(** C1. Posting a return note adds the quantity of every return line to the
    stock row without looking at the result.  A return line of -6 copies,
    accepted by [returns_add_line] on an open note, posted against a stock of
    5 leaves the stored quantity at -1, where the manual adjustment by the
    same amount is refused. *)
Theorem returns_post_drives_stock_negative :
  let r1 := returns_add_line 1 1 (-6) returns_db in
  let r2 := returns_post 1 (snd r1) in
  fst r1 = inr tt
  /\ fst r2 = inr tt
  /\ map Stock.qty (stocks (snd r2)) = [-1]
  /\ fst (stock_adjust 1 1 (-6) returns_db)
     = inl (HTTP 400 StockCannotGoNegative).
Proof. vm_compute. auto. Qed.

(* ===================================================================== *)
(** * Order pipeline *)
(* ===================================================================== *)

(** ** The guards of the pipeline *)

Lemma find_map_update {A} (key : A -> Z) (k : Z) (new old : A) (l : list A) :
  key new = k ->
  find (fun r => key r =? k) l = Some old ->
  find (fun r => key r =? k)
       (map (fun r => if key r =? key new then new else r) l) = Some new.
Proof.
  intros Hnew. rewrite Hnew.
  induction l as [|r l IH]; intros Hfind; [discriminate|].
  cbn [find map] in *.
  destruct (key r =? k) eqn:Hr.
  - rewrite Hnew, Z.eqb_refl. reflexivity.
  - rewrite Hr. now apply IH.
Qed.

(** A challan is created from an approved order only. *)
Lemma challan_create_requires_approved (clock : Clock) (so_id : Z) (db : DB) :
  match get_sales_order so_id db with
  | Some so => SalesOrder.status so <> SO_APPROVED
  | None => True
  end ->
  challan_create clock so_id db = (inl (HTTP 400 SONotApproved), db).
Proof.
  unfold challan_create, with_session, bind at 1, exec at 1. cbn [working].
  destruct (get_sales_order so_id db) as [so|]; [|reflexivity].
  intros Hstatus.
  destruct (SalesOrder.status so); try reflexivity. congruence.
Qed.

(** [get_stock] writes to the stock table only. *)
Lemma get_stock_tables (warehouse_id item_id : Z) (s : Session) :
  exists st s',
    get_stock warehouse_id item_id s = Returned st s'
    /\ sales_orders (working s') = sales_orders (working s)
    /\ challans (working s') = challans (working s).
Proof.
  unfold get_stock, bind at 1, exec at 1.
  destruct (select_stock warehouse_id item_id (working s)) as [st|].
  - exists st, s. auto.
  - eexists _, _. split; [reflexivity|].
    cbn [working]. destruct (working s); auto.
Qed.

(** X3. A successful [challan_create] found the order approved, leaves it
    dispatched and has added one open challan for it. *)
Lemma challan_create_dispatches (clock : Clock) (so_id : Z) (db db' : DB) :
  challan_create clock so_id db = (inr tt, db') ->
  exists so,
    get_sales_order so_id db = Some so
    /\ SalesOrder.status so = SO_APPROVED
    /\ get_sales_order so_id db'
       = Some (SalesOrder.set_status so SO_DISPATCHED)
    /\ challans db'
       = (challans db ++
            [Challan.Build (next_id (map Challan.id (challans db)))
                           (next_number clock "DC" db) so_id DC_OPEN])%list.
Proof.
  unfold challan_create, with_session, bind at 1, exec at 1. cbn [working].
  destruct (get_sales_order so_id db) as [so|] eqn:Hso; [|discriminate].
  destruct (SalesOrder.status so) eqn:Hstatus; try discriminate.
  cbn [SOStatus_eqb negb].
  unfold bind at 1. rewrite next_no_run. cbn [working].
  unfold bind at 1, add_challan at 1, bind at 1, exec at 1. cbn [working].
  unfold bind at 1, write at 1. cbn [ret committed working].
  unfold bind at 1, commit at 1. cbn [committed working].
  unfold bind at 1, exec at 1. cbn [working].
  set (dc := Challan.Build _ _ so_id DC_OPEN).
  set (db1 := set_challans db _).
  set (I := fun s : Session =>
              sales_orders (working s) = sales_orders db
              /\ challans (working s) = (challans db ++ [dc])%list).
  assert (H1 : I (mkSession db1 db1)).
  { subst I db1. cbn [working]. destruct db; auto. }
  unfold bind at 1.
  match goal with
  | |- context [for_each ?xs ?body ?s] =>
      assert (Hloop : I (final_session (for_each xs body s)));
      [ apply (for_each_invariant I); [|exact H1]
      | destruct (for_each xs body s) as [[] s2|e s2]; [|discriminate] ]
  end.
  - intros ln s [Hsos Hdcs].
    destruct (get_stock_tables (SalesOrder.warehouse_id so)
                               (SalesOrderLine.item_id ln) s)
      as (st & s' & Hget & Hsos' & Hdcs').
    erewrite bind_run by exact Hget.
    destruct (Stock.qty st <? SalesOrderLine.qty ln).
    + cbn [raise final_session]. subst I. cbn beta. split; congruence.
    + unfold bind, write, add_challan_line, bind, exec, write.
      cbn [final_session committed working]. subst I. cbn beta.
      cbn [working]. rewrite <- Hsos, <- Hdcs, <- Hsos', <- Hdcs'.
      destruct (working s'); auto.
  - cbn [final_session] in Hloop. destruct Hloop as [Hsos Hdcs].
    unfold bind, write, commit. cbn [committed working].
    intros Hrun. injection Hrun as <-.
    exists so. split; [reflexivity|]. split; [exact Hstatus|].
    assert (Hid : SalesOrder.id so = so_id).
    { unfold get_sales_order in Hso. apply find_some in Hso.
      destruct Hso as [_ Heq]. now apply Z.eqb_eq in Heq. }
    split.
    + unfold get_sales_order, update_sales_order.
      cbn [sales_orders set_sales_orders]. rewrite Hsos.
      apply (find_map_update SalesOrder.id so_id
                             (SalesOrder.set_status so SO_DISPATCHED) so);
        [exact Hid|exact Hso].
    + unfold update_sales_order. cbn [challans set_sales_orders].
      rewrite Hdcs. reflexivity.
Qed.

(** An invoice is created from an open challan only. *)
Lemma invoice_create_requires_open (clock : Clock) (dc_id invoice_date : Z)
    (db : DB) :
  match get_challan dc_id db with
  | Some dc => Challan.status dc <> DC_OPEN
  | None => True
  end ->
  invoice_create clock dc_id invoice_date db
  = (inl (HTTP 400 ChallanNotAvailable), db).
Proof.
  rewrite invoice_create_eq.
  destruct (get_challan dc_id db) as [dc|]; [|reflexivity].
  intros Hstatus.
  destruct (Challan.status dc); [congruence|reflexivity].
Qed.

(** An [invoice_create] that no check refused found the challan open and
    leaves it invoiced. *)
Lemma invoice_create_marks_invoiced (clock : Clock) (dc_id invoice_date : Z)
    (db db' : DB) (r : Unhandled + Z) :
  invoice_create clock dc_id invoice_date db = (inr r, db') ->
  exists dc,
    get_challan dc_id db = Some dc
    /\ Challan.status dc = DC_OPEN
    /\ get_challan dc_id db' = Some (Challan.set_status dc DC_INVOICED).
Proof.
  rewrite invoice_create_eq.
  destruct (get_challan dc_id db) as [dc|] eqn:Hdc; [|discriminate].
  destruct (Challan.status dc) eqn:Hstatus; [|discriminate].
  cbn [DCStatus_eqb negb].
  destruct (get_sales_order (Challan.so_id dc) db) as [so|]; [|discriminate].
  destruct (get_party (SalesOrder.party_id so) db) as [party|]; [|discriminate].
  cbv zeta.
  destruct (Party.is_blocked party); [discriminate|].
  destruct (fgt (overdue (party_summary clock db party)) f0); [discriminate|].
  match goal with |- (if ?b then _ else _) = _ -> _ => destruct b end;
    [discriminate|].
  intros Hrun. injection Hrun as _ <-.
  exists dc. split; [reflexivity|]. split; [exact Hstatus|].
  unfold invoiced_db, get_challan, update_challan.
  cbn [challans set_challans set_invoice_lines set_invoices].
  assert (Hid : Challan.id dc = dc_id).
  { unfold get_challan in Hdc. apply find_some in Hdc.
    destruct Hdc as [_ Heq]. now apply Z.eqb_eq in Heq. }
  apply (find_map_update Challan.id dc_id
                         (Challan.set_status dc DC_INVOICED) dc);
    [exact Hid|exact Hdc].
Qed.

(** X4. Once [invoice_create] has passed every check on a challan, which
    it answers with the [DetachedInstanceError] of its last line after the
    invoice is stored, a second [invoice_create] on the same challan is
    refused with "Challan not available" and stores nothing. *)
Lemma second_invoice_refused (clock clock' : Clock)
    (dc_id invoice_date invoice_date' : Z) (db db' : DB) :
  invoice_create clock dc_id invoice_date db
  = (inr (inl DetachedInstanceError), db') ->
  invoice_create clock' dc_id invoice_date' db'
  = (inl (HTTP 400 ChallanNotAvailable), db').
Proof.
  intros Hrun.
  apply invoice_create_marks_invoiced in Hrun.
  destruct Hrun as (dc & _ & _ & Hdc').
  apply invoice_create_requires_open. rewrite Hdc'. discriminate.
Qed.

(** C2. [challan_create] commits the challan header before it looks at the
    stock, and [get_stock] commits the open transaction whenever it has to
    create a stock row.  On an approved order whose only line cannot be
    served the request fails, the order stays approved, and a challan
    header is stored all the same.  On an approved order whose first line
    can be served and whose second line has no stock row, the request fails
    with the header, the challan line of the first item and the decrement
    of its stock (10 to 7) all stored. *)
Theorem challan_create_keeps_partial_writes :
  (let r := challan_create sample_clock 1 short_stock_db in
   fst r = inl (HTTP 400 (InsufficientStock 1 2))
   /\ map SalesOrder.status (sales_orders (snd r)) = [SO_APPROVED]
   /\ map Stock.qty (stocks (snd r)) = [2]
   /\ challans short_stock_db = []
   /\ challans (snd r) = [Challan.Build 1 "DC-202501-0001" 1 DC_OPEN])
  /\
  (let r := challan_create sample_clock 1 two_line_db in
   fst r = inl (HTTP 400 (InsufficientStock 2 0))
   /\ map SalesOrder.status (sales_orders (snd r)) = [SO_APPROVED]
   /\ challans (snd r) = [Challan.Build 1 "DC-202501-0001" 1 DC_OPEN]
   /\ challan_lines (snd r) = [ChallanLine.Build 1 1 1 3]
   /\ map Stock.qty (stocks two_line_db) = [10]
   /\ map Stock.qty (stocks (snd r)) = [7; 0]).
Proof. vm_compute. repeat split; reflexivity. Qed.

(** C3. [so_approve] sets the status to APPROVED whatever it was.  An order
    dispatched by [challan_create] is taken out of DISPATCHED by a second
    approval, and a second challan is then created for it, taking the stock
    down a second time (10, 7, 4). *)
Theorem so_approve_leaves_terminal_state :
  let r1 := challan_create sample_clock 1 approved_db in
  let r2 := so_approve 1 (snd r1) in
  let r3 := challan_create sample_clock 1 (snd r2) in
  fst r1 = inr tt
  /\ map SalesOrder.status (sales_orders (snd r1)) = [SO_DISPATCHED]
  /\ map Stock.qty (stocks (snd r1)) = [7]
  /\ fst r2 = inr tt
  /\ map SalesOrder.status (sales_orders (snd r2)) = [SO_APPROVED]
  /\ fst r3 = inr tt
  /\ map Challan.so_id (challans (snd r3)) = [1; 1]
  /\ map Stock.qty (stocks (snd r3)) = [4].
Proof. vm_compute. repeat split; reflexivity. Qed.

(* ===================================================================== *)
(** * Invoice status *)
(* ===================================================================== *)

(** The status rule of [update_invoice_status]: a total of at most 0 gives
    OPEN; otherwise a balance of at most 0.001 gives PAID; otherwise a
    positive amount paid gives PARTIAL; otherwise OPEN. *)
Lemma derive_status_rule (t : Totals) :
  (fle (total t) f0 = true -> App.derive_status t = INV_OPEN)
  /\ (fle (total t) f0 = false -> fle (balance t) (decimal 1 1000) = true ->
      App.derive_status t = INV_PAID)
  /\ (fle (total t) f0 = false -> fle (balance t) (decimal 1 1000) = false ->
      fgt (paid t) f0 = true -> App.derive_status t = INV_PARTIAL)
  /\ (fle (total t) f0 = false -> fle (balance t) (decimal 1 1000) = false ->
      fgt (paid t) f0 = false -> App.derive_status t = INV_OPEN).
Proof.
  unfold App.derive_status.
  split; [|split; [|split]]; intros; 
    repeat match goal with H : _ = _ |- _ => rewrite H; clear H end;
    reflexivity.
Qed.

(** The examples of the specification: total 500 with nothing paid is OPEN,
    with 500 paid PAID, with 200 paid PARTIAL; a total of 0 is OPEN whatever
    was paid. *)
Lemma derive_status_examples :
  App.derive_status (mkTotals (of_Z 500) f0 (of_Z 500) f0 (of_Z 500)) = INV_OPEN
  /\ App.derive_status (mkTotals (of_Z 500) f0 (of_Z 500) (of_Z 500) f0) = INV_PAID
  /\ App.derive_status (mkTotals (of_Z 500) f0 (of_Z 500) (of_Z 200) (of_Z 300))
     = INV_PARTIAL
  /\ App.derive_status (mkTotals f0 f0 f0 (of_Z 200) (of_Z (-200))) = INV_OPEN.
Proof. vm_compute. auto. Qed.

(** [update_invoice_status] stores the status that the rule derives from the
    totals of the invoice. *)
Lemma update_invoice_status_rederives (invoice_id : Z) (s : Session)
    (inv : Invoice.t) (t : Totals) :
  get_invoice invoice_id (working s) = Some inv ->
  App.invoice_totals invoice_id s = Returned t s ->
  exists s',
    App.update_invoice_status invoice_id s = Returned tt s'
    /\ get_invoice invoice_id (committed s')
       = Some (Invoice.set_status inv (App.derive_status t)).
Proof.
  intros Hinv Htot.
  unfold App.update_invoice_status, bind at 1, exec at 1. rewrite Hinv.
  erewrite bind_run by exact Htot.
  unfold bind, write, commit. eexists. split; [reflexivity|].
  cbn [committed working]. unfold get_invoice, update_invoice.
  assert (Hid : Invoice.id inv = invoice_id).
  { unfold get_invoice in Hinv. apply find_some in Hinv.
    destruct Hinv as [_ Heq]. now apply Z.eqb_eq in Heq. }
  destruct (working s) eqn:Hw. cbn [invoices set_invoices].
  apply (find_map_update Invoice.id invoice_id
                         (Invoice.set_status inv (App.derive_status t)) inv);
    [exact Hid|exact Hinv].
Qed.

(** C6. [add_payment] of [main.py] stores the payment and commits; it never
    computes a status.  After a payment of 500 against an invoice whose
    total is 500 the balance is 0 and the rule gives PAID, after a payment of
    200 it gives PARTIAL, yet the stored status is still OPEN in both cases;
    [payments_create] of [app.py] stores PAID and PARTIAL. *)
Theorem add_payment_leaves_status_unchanged :
  (let db' := snd (add_payment 1 (of_Z 500) unpaid_db) in
   fst (add_payment 1 (of_Z 500) unpaid_db) = inr tt
   /\ total (totals_of db' 1) = of_Z 500
   /\ paid (totals_of db' 1) = of_Z 500
   /\ balance (totals_of db' 1) = f0
   /\ App.derive_status (totals_of db' 1) = INV_PAID
   /\ map Invoice.status (invoices db') = [INV_OPEN])
  /\
  (let db' := snd (add_payment 1 (of_Z 200) unpaid_db) in
   App.derive_status (totals_of db' 1) = INV_PARTIAL
   /\ map Invoice.status (invoices db') = [INV_OPEN])
  /\ map Invoice.status
         (invoices (snd (App.payments_create 1 1 (of_Z 500) unpaid_db)))
     = [INV_PAID]
  /\ map Invoice.status
         (invoices (snd (App.payments_create 1 1 (of_Z 200) unpaid_db)))
     = [INV_PARTIAL].
Proof. vm_compute. repeat split; reflexivity. Qed.

(* ===================================================================== *)
(** * Credit control *)
(* ===================================================================== *)

(** A key handed out next is above every key in use. *)
Lemma next_id_fresh (ids : list Z) (x : Z) : In x ids -> x < next_id ids.
Proof.
  unfold next_id.
  induction ids as [|y ids IH]; intros Hin; [destruct Hin|].
  cbn [fold_right]. destruct Hin as [->|Hin]; [lia|].
  specialize (IH Hin). lia.
Qed.

(** C4 as stated does not hold: the credit-limit check is not confined to
    limits above 0.  The source tests the truth value of
    [party.credit_limit], which is true of every non-zero float, and a party
    with a limit of -1 and nothing outstanding is refused an empty
    invoice. *)
Lemma credit_check_not_only_for_positive_limit :
  ~ (forall clock dc_id invoice_date db limit outstanding_amount new_invoice_amount db',
        invoice_create clock dc_id invoice_date db
        = (inl (HTTP 400 (CreditLimitExceeded limit outstanding_amount
                                              new_invoice_amount)), db') ->
        fgt limit f0 = true).
Proof.
  intros H.
  specialize (H sample_clock 1 739000 negative_limit_db (of_Z (-1)) f0 f0
                negative_limit_db).
  assert (Hrun : invoice_create sample_clock 1 739000 negative_limit_db
                 = (inl (HTTP 400 (CreditLimitExceeded (of_Z (-1)) f0 f0)),
                    negative_limit_db))
    by (vm_compute; reflexivity).
  specialize (H Hrun). vm_compute in H. discriminate H.
Qed.

(** C4 (amended). For an open challan whose order and party exist,
    [invoice_create] checks in this order and stops at the first failure:
    a blocked party is refused with "Party is BLOCKED"; else an overdue
    amount above 0 is refused with that amount; else, when the credit limit
    is a non-zero number and outstanding + projected total exceeds it, the
    request is refused with the limit, the outstanding amount and the
    projected total rounded to 2 decimals; else the invoice is stored under
    the next key, and the request ends in the [DetachedInstanceError] of
    the read of [inv.id] after the session is closed.  Every refusal
    returns the stored database as it was: no invoice row is kept and the
    challan is still open. *)
Theorem invoice_create_credit_control :
  forall (clock : Clock) (dc_id invoice_date : Z) (db : DB)
         (dc : Challan.t) (so : SalesOrder.t) (party : Party.t),
    get_challan dc_id db = Some dc ->
    Challan.status dc = DC_OPEN ->
    get_sales_order (Challan.so_id dc) db = Some so ->
    get_party (SalesOrder.party_id so) db = Some party ->
    forall (summary : Summary) (projected : float * float),
    calc_party_summary clock party (mkSession db db)
    = Returned summary (mkSession db db) ->
    projected_amounts (Party.id party) (select_challan_lines dc_id db)
                      (mkSession db db)
    = Returned projected (mkSession db db) ->
    let projected_total := fadd (fst projected) (snd projected) in
    let limit := Party.credit_limit party in
    let over := (truthy limit
                 && fgt (fadd (outstanding summary) projected_total) limit)%bool in
    let result := invoice_create clock dc_id invoice_date db in
    (Party.is_blocked party = true ->
       result = (inl (HTTP 400 PartyIsBlocked), db))
    /\ (Party.is_blocked party = false -> fgt (overdue summary) f0 = true ->
        result = (inl (HTTP 400 (OverduePending (overdue summary))), db))
    /\ (Party.is_blocked party = false -> fgt (overdue summary) f0 = false ->
        over = true ->
        result = (inl (HTTP 400 (CreditLimitExceeded
                                   limit (outstanding summary)
                                   (round2 projected_total))), db))
    /\ (Party.is_blocked party = false -> fgt (overdue summary) f0 = false ->
        over = false ->
        exists inv db',
          result = (inr (inl DetachedInstanceError), db')
          /\ In inv (invoices db')
          /\ Invoice.id inv = next_id (map Invoice.id (invoices db))
          /\ get_invoice (Invoice.id inv) db = None).
Proof.
  intros clock dc_id invoice_date db dc so party Hdc Hopen Hso Hparty
         summary projected Hsum Hproj.
  rewrite calc_party_summary_run in Hsum. cbn [working] in Hsum.
  injection Hsum as <-.
  rewrite projected_amounts_run in Hproj. cbn [working] in Hproj.
  injection Hproj as <-.
  cbv zeta. rewrite invoice_create_eq, Hdc, Hopen, Hso, Hparty.
  cbn [DCStatus_eqb negb]. cbv zeta.
  split; [|split; [|split]].
  - intros ->. reflexivity.
  - intros -> ->. reflexivity.
  - intros -> -> ->. reflexivity.
  - intros -> -> ->.
    exists (new_invoice clock db dc_id so party invoice_date).
    eexists. split; [reflexivity|]. split.
    + unfold invoiced_db, update_challan, set_challans, set_invoice_lines,
        set_invoices. cbn [invoices].
      apply in_or_app. right. left. reflexivity.
    + split; [reflexivity|].
      unfold new_invoice, get_invoice. cbn [Invoice.id].
      destruct (find _ (invoices db)) as [iv|] eqn:Hfind; [|reflexivity].
      apply find_some in Hfind. destruct Hfind as [Hin Heq].
      apply Z.eqb_eq in Heq.
      assert (Hlt : Invoice.id iv < next_id (map Invoice.id (invoices db)))
        by (apply next_id_fresh; now apply in_map).
      lia.
Qed.

(** The credit-control example of the specification, on challan 2 of
    [credit_db]: limit 1000, outstanding 800, new invoice 300. *)
Lemma invoice_create_credit_control_witness :
  invoice_create sample_clock 2 739000 credit_db
  = (inl (HTTP 400 (CreditLimitExceeded (of_Z 1000) (of_Z 800) (of_Z 300))),
     credit_db).
Proof.
  destruct (invoice_create_credit_control
              sample_clock 2 739000 credit_db
              (Challan.Build 2 "DC-202501-0002" 2 DC_OPEN)
              (SalesOrder.Build 2 "SO-202501-0002" 1 1 SO_DISPATCHED)
              (Party.Build 1 None (of_Z 1000) 0 false)
              eq_refl eq_refl eq_refl eq_refl
              (mkSummary (of_Z 800) f0) (of_Z 300, f0))
    as (_ & _ & Hover & _).
  - vm_compute. reflexivity.
  - vm_compute. reflexivity.
  - rewrite Hover.
    + reflexivity.
    + reflexivity.
    + vm_compute. reflexivity.
    + vm_compute. reflexivity.
Defined.

(** On challan 3 the new invoice is 150 and no check refuses it: invoice 2
    is stored and the request ends in the [DetachedInstanceError]. *)
Lemma invoice_create_within_limit :
  fst (invoice_create sample_clock 3 739000 credit_db)
  = inr (inl DetachedInstanceError)
  /\ map Invoice.id
         (invoices (snd (invoice_create sample_clock 3 739000 credit_db)))
     = [1; 2].
Proof. vm_compute. split; reflexivity. Qed.

(* ===================================================================== *)
(** * Projection and invoice total *)
(* ===================================================================== *)

(** No stored line carries the key of the invoice about to be inserted. *)
Lemma no_line_of_next_invoice (db : DB) :
  invoice_lines_linked db = true ->
  select_invoice_lines (next_id (map Invoice.id (invoices db))) db = [].
Proof.
  unfold invoice_lines_linked, select_invoice_lines.
  intros Hlinked. rewrite forallb_forall in Hlinked.
  induction (invoice_lines db) as [|ln lines IH]; [reflexivity|].
  cbn [filter].
  assert (Hln : InvoiceLine.invoice_id ln
                <> next_id (map Invoice.id (invoices db))).
  { specialize (Hlinked ln (or_introl eq_refl)).
    apply existsb_exists in Hlinked. destruct Hlinked as (i & Hi & Heq).
    apply Z.eqb_eq in Heq. subst i.
    apply next_id_fresh in Hi. lia. }
  apply Z.eqb_neq in Hln. rewrite Hln.
  apply IH. intros l Hl. apply Hlinked. now right.
Qed.

(** Copying adds lines of the new invoice only. *)
Lemma copied_lines_forall (P : InvoiceLine.t -> Prop) (db : DB)
    (invoice_id party_id : Z) :
  (forall ln, InvoiceLine.invoice_id ln = invoice_id -> P ln) ->
  forall (dc_lines : list ChallanLine.t) (table : list InvoiceLine.t),
    Forall P table ->
    Forall P (copied_lines db invoice_id party_id dc_lines table).
Proof.
  intros Hnew. unfold copied_lines.
  induction dc_lines as [|dln rest IH]; intros table Htable; [exact Htable|].
  cbn [fold_left]. apply IH. unfold copy_step.
  destruct (get_item (ChallanLine.item_id dln) db) as [it|]; [|exact Htable].
  apply Forall_app. split; [exact Htable|].
  constructor; [|constructor]. now apply Hnew.
Qed.

(** X5. [invoice_create] keeps the foreign key of the invoice lines: the empty
    database honours it, and so does every database that the requests
    reach from there. *)
Lemma invoice_create_keeps_lines_linked (clock : Clock)
    (dc_id invoice_date : Z) (db : DB) :
  invoice_lines_linked db = true ->
  invoice_lines_linked (snd (invoice_create clock dc_id invoice_date db))
  = true.
Proof.
  intros Hlinked. rewrite invoice_create_eq.
  destruct (get_challan dc_id db) as [dc|]; [|exact Hlinked].
  destruct (negb (DCStatus_eqb (Challan.status dc) DC_OPEN)); [exact Hlinked|].
  destruct (get_sales_order (Challan.so_id dc) db) as [so|]; [|exact Hlinked].
  destruct (get_party (SalesOrder.party_id so) db) as [party|];
    [|exact Hlinked].
  cbv zeta.
  destruct (Party.is_blocked party); [exact Hlinked|].
  destruct (fgt (overdue (party_summary clock db party)) f0); [exact Hlinked|].
  match goal with |- context [if ?b then _ else _] => destruct b end;
    [exact Hlinked|].
  cbn [snd]. unfold invoice_lines_linked, invoiced_db in *.
  cbn [invoices invoice_lines update_challan set_challans set_invoice_lines
       set_invoices].
  apply forallb_forall. apply Forall_forall.
  apply copied_lines_forall.
  - intros ln Hln. apply existsb_exists.
    exists (InvoiceLine.invoice_id ln). split; [|apply Z.eqb_refl].
    rewrite map_app. apply in_or_app. right. left. now rewrite Hln.
  - apply Forall_forall. intros ln Hin.
    rewrite forallb_forall in Hlinked. specialize (Hlinked ln Hin).
    apply existsb_exists in Hlinked. destruct Hlinked as (i & Hi & Heq).
    apply existsb_exists. exists i. split; [|exact Heq].
    rewrite map_app. apply in_or_app. now left.
Qed.

(** Summing the copied lines of one invoice repeats the projection, turn by
    turn. *)
Lemma totals_of_copied_lines (db : DB) (invoice_id party_id : Z) :
  forall (dc_lines : list ChallanLine.t) (table : list InvoiceLine.t)
         (acc : float * float),
    fold_left totals_step
      (filter (fun ln => InvoiceLine.invoice_id ln =? invoice_id)
              (copied_lines db invoice_id party_id dc_lines table)) acc
    = fold_left (projection_step party_id db) dc_lines
        (fold_left totals_step
           (filter (fun ln => InvoiceLine.invoice_id ln =? invoice_id) table)
           acc).
Proof.
  induction dc_lines as [|dln rest IH]; intros table acc; [reflexivity|].
  unfold copied_lines in *. cbn [fold_left]. rewrite IH. f_equal.
  unfold copy_step, projection_step.
  destruct (get_item (ChallanLine.item_id dln) db) as [it|]; [|reflexivity].
  rewrite filter_app, fold_left_app. cbn [filter InvoiceLine.invoice_id].
  rewrite Z.eqb_refl. reflexivity.
Qed.

(** C8. When [invoice_create] passes every check on a database that
    honours the foreign key of the invoice lines, the total that
    [invoice_totals] returns for the invoice it has stored, under the next
    key, is the projected total of the credit-limit check rounded to 2
    decimals: the same prices are resolved for the same challan lines in
    the same order.  The request itself is then answered with the
    [DetachedInstanceError] of its last line. *)
Theorem projected_total_is_invoice_total :
  forall (clock : Clock) (dc_id invoice_date : Z) (db db' : DB),
    invoice_lines_linked db = true ->
    invoice_create clock dc_id invoice_date db
    = (inr (inl DetachedInstanceError), db') ->
    exists (dc : Challan.t) (so : SalesOrder.t) (projected : float * float)
           (inv : Invoice.t) (t : Totals),
      get_challan dc_id db = Some dc
      /\ get_sales_order (Challan.so_id dc) db = Some so
      /\ projected_amounts (SalesOrder.party_id so)
                           (select_challan_lines dc_id db) (mkSession db db)
         = Returned projected (mkSession db db)
      /\ get_invoice (next_id (map Invoice.id (invoices db))) db = None
      /\ get_invoice (next_id (map Invoice.id (invoices db))) db' = Some inv
      /\ Invoice.dc_id inv = dc_id
      /\ invoice_totals (Invoice.id inv) (mkSession db' db')
         = Returned t (mkSession db' db')
      /\ total t = round2 (fadd (fst projected) (snd projected)).
Proof.
  intros clock dc_id invoice_date db db' Hlinked Hrun.
  rewrite invoice_create_eq in Hrun.
  destruct (get_challan dc_id db) as [dc|] eqn:Hdc; [|discriminate].
  destruct (negb (DCStatus_eqb (Challan.status dc) DC_OPEN)); [discriminate|].
  destruct (get_sales_order (Challan.so_id dc) db) as [so|] eqn:Hso;
    [|discriminate].
  destruct (get_party (SalesOrder.party_id so) db) as [party|] eqn:Hparty;
    [|discriminate].
  cbv zeta in Hrun.
  destruct (Party.is_blocked party); [discriminate|].
  destruct (fgt (overdue (party_summary clock db party)) f0); [discriminate|].
  match type of Hrun with (if ?b then _ else _) = _ => destruct b end;
    [discriminate|].
  injection Hrun as <-.
  assert (Hpid : Party.id party = SalesOrder.party_id so).
  { unfold get_party in Hparty. apply find_some in Hparty.
    destruct Hparty as [_ Heq]. now apply Z.eqb_eq in Heq. }
  set (new_id := next_id (map Invoice.id (invoices db))).
  assert (Hnone : get_invoice new_id db = None).
  { unfold get_invoice.
    destruct (find _ (invoices db)) as [iv|] eqn:Hfind; [|reflexivity].
    apply find_some in Hfind. destruct Hfind as [Hin Heq].
    apply Z.eqb_eq in Heq.
    assert (Hlt : Invoice.id iv < new_id)
      by (apply next_id_fresh; now apply in_map).
    lia. }
  assert (Hstored : get_invoice new_id
                      (invoiced_db clock db dc_id dc so party invoice_date)
                    = Some (new_invoice clock db dc_id so party invoice_date)).
  { assert (Happ : forall (l : list Invoice.t) (x : Invoice.t),
               find (fun r => Invoice.id r =? new_id) l = None ->
               Invoice.id x = new_id ->
               find (fun r => Invoice.id r =? new_id) (l ++ [x]) = Some x).
    { intros l x Hl Hx. induction l as [|iv l IH]; cbn [app find] in *.
      - now rewrite Hx, Z.eqb_refl.
      - destruct (Invoice.id iv =? new_id); [discriminate|]. now apply IH. }
    unfold get_invoice, invoiced_db in *.
    cbn [invoices update_challan set_challans set_invoice_lines set_invoices].
    apply Happ; [exact Hnone|reflexivity]. }
  exists dc, so. eexists _, (new_invoice clock db dc_id so party invoice_date), _.
  split; [reflexivity|]. split; [exact Hso|].
  split; [apply projected_amounts_run|].
  split; [exact Hnone|]. split; [exact Hstored|].
  split; [reflexivity|].
  split; [apply invoice_totals_run|].
  cbn [working]. unfold totals_of. cbn [total]. f_equal.
  unfold new_invoice. cbn [Invoice.id]. rewrite <- Hpid. fold new_id.
  assert (Hlines :
    fold_left totals_step
      (select_invoice_lines new_id
         (invoiced_db clock db dc_id dc so party invoice_date)) (f0, f0)
    = projection db (Party.id party) (select_challan_lines dc_id db)).
  { unfold select_invoice_lines, invoiced_db, new_invoice.
    cbn [invoice_lines update_challan set_challans set_invoice_lines Invoice.id].
    fold new_id. rewrite totals_of_copied_lines.
    pose proof (no_line_of_next_invoice db Hlinked) as Hnone'.
    unfold select_invoice_lines in Hnone'. fold new_id in Hnone'.
    rewrite Hnone'. reflexivity. }
  rewrite Hlines. reflexivity.
Qed.

(** On challan 3 of [credit_db], which honours the foreign key, no check
    refuses the request and invoice 2 is stored. *)
Lemma projected_total_is_invoice_total_witness :
  invoice_lines_linked credit_db = true
  /\ invoice_create sample_clock 3 739000 credit_db
     = (inr (inl DetachedInstanceError),
        snd (invoice_create sample_clock 3 739000 credit_db))
  /\ exists (dc : Challan.t) (so : SalesOrder.t) (projected : float * float)
            (inv : Invoice.t) (t : Totals),
       let db' := snd (invoice_create sample_clock 3 739000 credit_db) in
       get_challan 3 credit_db = Some dc
       /\ get_sales_order (Challan.so_id dc) credit_db = Some so
       /\ projected_amounts (SalesOrder.party_id so)
                            (select_challan_lines 3 credit_db)
                            (mkSession credit_db credit_db)
          = Returned projected (mkSession credit_db credit_db)
       /\ get_invoice (next_id (map Invoice.id (invoices credit_db))) credit_db
          = None
       /\ get_invoice (next_id (map Invoice.id (invoices credit_db))) db'
          = Some inv
       /\ Invoice.dc_id inv = 3
       /\ invoice_totals (Invoice.id inv) (mkSession db' db')
          = Returned t (mkSession db' db')
       /\ total t = round2 (fadd (fst projected) (snd projected)).
Proof.
  split; [vm_compute; reflexivity|].
  split; [vm_compute; reflexivity|].
  apply (projected_total_is_invoice_total sample_clock 3 739000 credit_db).
  - vm_compute. reflexivity.
  - vm_compute. reflexivity.
Defined.

(* ===================================================================== *)
(** * Challan lines whose item is gone *)
(* ===================================================================== *)

Lemma projection_skips_unresolved (db : DB) (party_id : Z) :
  forall (dc_lines : list ChallanLine.t) (acc : float * float),
    fold_left (projection_step party_id db) dc_lines acc
    = fold_left (projection_step party_id db) (filter (resolves db) dc_lines)
                acc.
Proof.
  induction dc_lines as [|dln rest IH]; intros acc; [reflexivity|].
  cbn [fold_left filter].
  destruct (get_item (ChallanLine.item_id dln) db) as [it|] eqn:Hit.
  - replace (resolves db dln) with true by (unfold resolves; now rewrite Hit).
    cbn [fold_left]. apply IH.
  - replace (resolves db dln) with false by (unfold resolves; now rewrite Hit).
    replace (projection_step party_id db acc dln) with acc
      by (unfold projection_step; rewrite Hit; reflexivity).
    apply IH.
Qed.

Lemma copied_lines_skips_unresolved (db : DB) (invoice_id party_id : Z) :
  forall (dc_lines : list ChallanLine.t) (table : list InvoiceLine.t),
    copied_lines db invoice_id party_id dc_lines table
    = copied_lines db invoice_id party_id (filter (resolves db) dc_lines) table.
Proof.
  unfold copied_lines.
  induction dc_lines as [|dln rest IH]; intros table; [reflexivity|].
  cbn [fold_left filter].
  destruct (get_item (ChallanLine.item_id dln) db) as [it|] eqn:Hit.
  - replace (resolves db dln) with true by (unfold resolves; now rewrite Hit).
    cbn [fold_left]. apply IH.
  - replace (resolves db dln) with false by (unfold resolves; now rewrite Hit).
    replace (copy_step db invoice_id party_id table dln) with table
      by (unfold copy_step; rewrite Hit; reflexivity).
    apply IH.
Qed.

Lemma filter_comm {A} (f g : A -> bool) (l : list A) :
  filter f (filter g l) = filter g (filter f l).
Proof.
  induction l as [|x l IH]; [reflexivity|].
  cbn [filter]. destruct (f x) eqn:Hf, (g x) eqn:Hg; cbn [filter];
    rewrite ?Hf, ?Hg, IH; reflexivity.
Qed.

Lemma restore_challan_lines (db : DB) :
  set_challan_lines (without_unresolved db) (challan_lines db) = db.
Proof. destruct db; reflexivity. Qed.

(** A refused request gives back the database it was given. *)
Ltac restored := cbn [fst snd]; rewrite restore_challan_lines; reflexivity.

(** C10. A challan line whose item no longer resolves is passed over by both
    loops of [invoice_create]: the projection and the copy give what they
    give on the resolvable lines alone, and the whole request answers and
    stores exactly what it would if those lines were not in the challan-line
    table (so it never fails on their account).  In [orphan_line_db] challan
    3 has a line for the missing item 2 and a line for item 1: no check
    refuses the request, invoice 2 is stored for the challan with the line
    of item 1 only, and the request ends, as every request that stores an
    invoice does, in the [DetachedInstanceError] of its last line. *)
Theorem invoice_create_skips_unresolved_lines :
  (forall (s : Session) (party_id : Z) (dc_lines : list ChallanLine.t),
      projected_amounts party_id dc_lines s
      = projected_amounts party_id (filter (resolves (working s)) dc_lines) s)
  /\ (forall (s : Session) (invoice_id party_id : Z)
             (dc_lines : list ChallanLine.t),
         copy_dc_lines invoice_id party_id dc_lines s
         = copy_dc_lines invoice_id party_id
                         (filter (resolves (working s)) dc_lines) s)
  /\ (forall (clock : Clock) (dc_id invoice_date : Z) (db : DB),
         let r := invoice_create clock dc_id invoice_date
                                 (without_unresolved db) in
         invoice_create clock dc_id invoice_date db
         = (fst r, set_challan_lines (snd r) (challan_lines db)))
  /\ (let r := invoice_create sample_clock 3 739000 orphan_line_db in
      map ChallanLine.item_id (select_challan_lines 3 orphan_line_db) = [2; 1]
      /\ get_item 2 orphan_line_db = None
      /\ fst r = inr (inl DetachedInstanceError)
      /\ map (fun iv => (Invoice.id iv, Invoice.dc_id iv))
             (invoices (snd r)) = [(1, 1); (2, 3)]
      /\ map (fun ln => (InvoiceLine.item_id ln, InvoiceLine.qty ln))
             (select_invoice_lines 2 (snd r)) = [(1, 1)]).
Proof.
  split; [|split; [|split]].
  - intros s party_id dc_lines.
    rewrite !projected_amounts_run. unfold projection.
    now rewrite projection_skips_unresolved.
  - intros s invoice_id party_id dc_lines.
    rewrite !copy_dc_lines_run.
    now rewrite copied_lines_skips_unresolved.
  - intros clock dc_id invoice_date db. cbv zeta.
    rewrite !invoice_create_eq.
    change (get_challan dc_id (without_unresolved db))
      with (get_challan dc_id db).
    destruct (get_challan dc_id db) as [dc|];
      [|restored].
    destruct (negb (DCStatus_eqb (Challan.status dc) DC_OPEN));
      [restored|].
    change (get_sales_order (Challan.so_id dc) (without_unresolved db))
      with (get_sales_order (Challan.so_id dc) db).
    destruct (get_sales_order (Challan.so_id dc) db) as [so|];
      [|restored].
    change (get_party (SalesOrder.party_id so) (without_unresolved db))
      with (get_party (SalesOrder.party_id so) db).
    destruct (get_party (SalesOrder.party_id so) db) as [party|];
      [|restored].
    cbv zeta.
    change (party_summary clock (without_unresolved db) party)
      with (party_summary clock db party).
    destruct (Party.is_blocked party); [restored|].
    destruct (fgt (overdue (party_summary clock db party)) f0);
      [restored|].
    assert (Hlines : select_challan_lines dc_id (without_unresolved db)
                     = filter (resolves db) (select_challan_lines dc_id db)).
    { unfold select_challan_lines, without_unresolved.
      cbn [challan_lines set_challan_lines]. apply filter_comm. }
    assert (Hproj : projection (without_unresolved db) (Party.id party)
                      (select_challan_lines dc_id (without_unresolved db))
                    = projection db (Party.id party)
                                 (select_challan_lines dc_id db)).
    { rewrite Hlines. unfold projection at 2.
      rewrite projection_skips_unresolved. reflexivity. }
    rewrite Hproj.
    match goal with |- context [if ?b then _ else _] => destruct b end;
      [restored|].
    cbn [fst snd]. f_equal.
    unfold invoiced_db. rewrite Hlines.
    change (new_invoice clock (without_unresolved db) dc_id so party invoice_date)
      with (new_invoice clock db dc_id so party invoice_date).
    rewrite (copied_lines_ext (without_unresolved db) db) by reflexivity.
    rewrite <- copied_lines_skips_unresolved.
    destruct db; reflexivity.
  - vm_compute. repeat split; reflexivity.
Qed.

(* ===================================================================== *)
(** * Numbering service *)
(* ===================================================================== *)

Section Strings.

Local Open Scope string_scope.

Lemma prefix_split (p x : string) :
  String.prefix p x = true -> x = p ++ string_drop (String.length p) x.
Proof.
  revert x.
  induction p as [|c p IH]; intros x Hpre; [reflexivity|].
  destruct x as [|d x]; [discriminate|].
  cbn [String.prefix] in Hpre.
  destruct (ascii_dec c d) as [->|]; [|discriminate].
  cbn [String.length string_drop append]. f_equal. now apply IH.
Qed.

Lemma replace_go_skip (p q s : string) :
  replace_go p (String.length q) (q ++ s) = replace_go p 0 s.
Proof.
  induction q as [|c q IH]; [reflexivity|].
  cbn [String.length append replace_go]. exact IH.
Qed.

Lemma replace_go_no_occurrence (p s : string) :
  occurs p s = false -> replace_go p 0 s = s.
Proof.
  induction s as [|c s IH]; intros Hocc; [reflexivity|].
  cbn [occurs] in Hocc. apply orb_false_iff in Hocc.
  destruct Hocc as [Hpre Hocc].
  cbn [replace_go]. rewrite Hpre. f_equal. now apply IH.
Qed.

(** Where the prefix occurs once, deleting it leaves the trailing suffix. *)
Lemma replace_is_suffix (p x : string) :
  p <> EmptyString ->
  String.prefix p x = true ->
  occurs p (string_drop (String.length p) x) = false ->
  replace_empty x p = string_drop (String.length p) x.
Proof.
  intros Hp Hpre Hocc.
  destruct p as [|c q]; [congruence|].
  unfold replace_empty.
  pose proof (prefix_split _ _ Hpre) as Hx.
  set (sfx := string_drop (String.length (String c q)) x) in *.
  rewrite Hx at 1. cbn [append replace_go].
  rewrite <- Hx at 1. rewrite Hpre.
  cbn [String.length]. rewrite Nat.sub_succ, Nat.sub_0_r.
  rewrite replace_go_skip. now apply replace_go_no_occurrence.
Qed.

Lemma period_prefix_not_empty (prefix period : string) :
  prefix ++ "-" ++ period ++ "-" <> EmptyString.
Proof. destruct prefix; discriminate. Qed.

Lemma empty_startswith (p : string) :
  p <> EmptyString -> startswith EmptyString p = false.
Proof. destruct p; [congruence|reflexivity]. Qed.

End Strings.

(** On document numbers in which the period prefix occurs once, the loop of
    [next_no] keeps the numbers of the specification. *)
Lemma collect_nums_kept (p : string) (existing : list string) :
  p <> EmptyString ->
  forallb (prefix_once p) existing = true ->
  collect_nums p existing = kept_suffixes p existing.
Proof.
  intros Hp.
  induction existing as [|x rest IH]; intros Honce; [reflexivity|].
  cbn [forallb] in Honce. apply andb_true_iff in Honce.
  destruct Honce as [Hx Hrest]. specialize (IH Hrest).
  unfold kept_suffixes in *. cbn [collect_nums flat_map].
  destruct (startswith x p) eqn:Hpre.
  - assert (Hne : String.eqb x EmptyString = false).
    { destruct x; [|reflexivity].
      rewrite (empty_startswith p Hp) in Hpre. discriminate. }
    rewrite Hne. cbn [negb andb].
    unfold prefix_once in Hx. rewrite Hpre in Hx. cbn [negb orb] in Hx.
    apply negb_true_iff in Hx.
    rewrite (replace_is_suffix p x Hp Hpre Hx).
    destruct (py_int (string_drop (String.length p) x));
      cbn [app]; now rewrite IH.
  - rewrite andb_false_r. exact IH.
Qed.

Lemma py_max_list_spec (ks : list Z) (k : Z) :
  In (py_max_list k ks) (k :: ks)
  /\ Forall (fun j => j <= py_max_list k ks) (k :: ks).
Proof.
  unfold py_max_list. revert k.
  induction ks as [|j ks IH]; intros k.
  - cbn. split; [now left|]. constructor; [lia|constructor].
  - cbn [fold_left]. destruct (IH (Z.max k j)) as [Hin Hall].
    inversion Hall as [|? ? Hk Hks]; subst.
    split.
    + destruct Hin as [Heq|Hin].
      * rewrite <- Heq.
        destruct (Z.max_spec k j) as [[_ ->]|[_ ->]]; cbn; auto.
      * right. now right.
    + constructor; [lia|]. constructor; [lia|exact Hks].
Qed.

(** ** The numbers that [next_no] issues

    A number issued for a prefix and a month is the period prefix followed
    by digits, so that the period prefix of any month of the same prefix
    occurs in it at most once, at its head. *)

Section IssuedNumbers.

Local Open Scope string_scope.

Lemma length_append (a b : string) :
  String.length (a ++ b) = (String.length a + String.length b)%nat.
Proof. induction a as [|c a IH]; [reflexivity|]. cbn. now rewrite IH. Qed.

Lemma string_drop_append (n : nat) (a b : string) :
  String.length a = n -> string_drop n (a ++ b) = b.
Proof.
  revert n. induction a as [|c a IH]; intros n <-; [reflexivity|].
  cbn. now apply IH.
Qed.

Lemma no_dash_append (a b : string) :
  no_dash (a ++ b) = (no_dash a && no_dash b)%bool.
Proof.
  induction a as [|c a IH]; [reflexivity|].
  cbn [append no_dash]. rewrite IH. now rewrite andb_assoc.
Qed.

Lemma no_dash_digits (d : Decimal.uint) :
  no_dash (NilEmpty.string_of_uint d) = true.
Proof. induction d; cbn; auto. Qed.

Lemma py_str_no_dash (n : Z) : 0 <= n -> no_dash (py_str n) = true.
Proof.
  intros Hn. unfold py_str. destruct n as [|p|p]; [reflexivity| |lia].
  cbn [Z.to_int NilZero.string_of_int]. unfold NilZero.string_of_uint.
  destruct (Pos.to_uint p) eqn:Hp; try reflexivity;
    rewrite <- Hp; apply no_dash_digits.
Qed.

Lemma zeros_no_dash (n : nat) : no_dash (zeros n) = true.
Proof. induction n; cbn; auto. Qed.

Lemma zfill_no_dash (s : string) (width : nat) :
  no_dash s = true -> no_dash (zfill s width) = true.
Proof.
  intros Hs. unfold zfill.
  destruct (width <=? String.length s)%nat; [exact Hs|].
  destruct s as [|c r]; [apply zeros_no_dash|].
  cbn [no_dash] in Hs. apply andb_true_iff in Hs. destruct Hs as [Hc Hr].
  destruct (Ascii.eqb c "-" || Ascii.eqb c "+")%bool.
  - cbn [no_dash]. rewrite Hc, no_dash_append, zeros_no_dash, Hr. reflexivity.
  - rewrite no_dash_append, zeros_no_dash. cbn [no_dash]. now rewrite Hc, Hr.
Qed.

Lemma prefix_no_dash (p s : string) :
  String.prefix p s = true -> no_dash s = true -> no_dash p = true.
Proof.
  revert s. induction p as [|c p IH]; intros s Hpre Hs; [reflexivity|].
  destruct s as [|d s]; [discriminate|].
  cbn [String.prefix] in Hpre.
  destruct (ascii_dec c d) as [->|]; [|discriminate].
  cbn [no_dash] in *. apply andb_true_iff in Hs. destruct Hs as [Hd Hs].
  rewrite Hd. cbn [andb]. now apply (IH s).
Qed.

Lemma no_dash_no_occurrence (p d : string) :
  no_dash p = false -> no_dash d = true -> occurs p d = false.
Proof.
  intros Hp. induction d as [|c d IH]; intros Hd; [reflexivity|].
  cbn [occurs]. apply orb_false_iff. split.
  - destruct (String.prefix p (String c d)) eqn:Hpre; [|reflexivity].
    rewrite (prefix_no_dash _ _ Hpre Hd) in Hp. discriminate.
  - apply IH. cbn [no_dash] in Hd. apply andb_true_iff in Hd. tauto.
Qed.

Lemma period_prefix_has_dash (prefix period : string) :
  no_dash (prefix ++ "-" ++ period ++ "-") = false.
Proof.
  rewrite no_dash_append. cbn [append no_dash Ascii.eqb Bool.eqb negb andb].
  apply andb_false_r.
Qed.

(** Every number issued by [next_no] for a prefix, in a month written with
    as many characters as the current one, has the period prefix of the
    current month at most once. *)
Lemma issued_number_prefix_once (prefix period period' : string) (n : Z) :
  String.length period = String.length period' ->
  0 <= n ->
  prefix_once (prefix ++ "-" ++ period' ++ "-")
              ((prefix ++ "-" ++ period ++ "-") ++ zfill (py_str n) 4) = true.
Proof.
  intros Hlen Hn. unfold prefix_once.
  destruct (startswith _ _); [|reflexivity]. cbn [negb orb].
  rewrite string_drop_append.
  - rewrite no_dash_no_occurrence; [reflexivity| |].
    + apply period_prefix_has_dash.
    + apply zfill_no_dash, py_str_no_dash, Hn.
  - rewrite !length_append. cbn [String.length]. now rewrite Hlen.
Qed.

Lemma issued_prefix_once (prefix period' x : string) :
  issued prefix (String.length period') x ->
  prefix_once (prefix ++ "-" ++ period' ++ "-") x = true.
Proof.
  intros (period & n & Hlen & Hn & ->).
  now apply issued_number_prefix_once.
Qed.

Lemma lstrip_no_dash (s : string) : no_dash s = true -> no_dash (lstrip s) = true.
Proof.
  induction s as [|c s IH]; intros Hs; [reflexivity|].
  cbn [lstrip]. destruct (is_space c); [|exact Hs].
  apply IH. cbn [no_dash] in Hs. apply andb_true_iff in Hs. tauto.
Qed.

Lemma rstrip_no_dash (s : string) : no_dash s = true -> no_dash (rstrip s) = true.
Proof.
  induction s as [|c s IH]; intros Hs; [reflexivity|].
  cbn [no_dash] in Hs. apply andb_true_iff in Hs. destruct Hs as [Hc Hs].
  specialize (IH Hs). cbn [rstrip].
  destruct (rstrip s) as [|d r].
  - destruct (is_space c); [reflexivity|]. cbn [no_dash]. now rewrite Hc.
  - cbn [no_dash] in *. now rewrite Hc, IH.
Qed.

Lemma digits_go_nonneg (s : string) :
  forall (acc : Z) (after_digit : bool) (n : Z),
    0 <= acc -> digits_go acc after_digit s = Some n -> 0 <= n.
Proof.
  induction s as [|c s IH]; intros acc after_digit n Hacc.
  - cbn [digits_go]. destruct after_digit; [|discriminate].
    intros [= <-]. exact Hacc.
  - cbn [digits_go]. destruct (Ascii.eqb c "_").
    + destruct after_digit; [|discriminate]. now apply IH.
    + unfold digit_val.
      destruct ((48 <=? nat_of_ascii c)%nat && (nat_of_ascii c <=? 57)%nat)%bool
        eqn:Hd; [|discriminate].
      apply IH. apply andb_true_iff in Hd. destruct Hd as [Hlo _].
      apply Nat.leb_le in Hlo. lia.
Qed.

(** A string without [-] does not parse to a negative number. *)
Lemma py_int_no_dash_nonneg (s : string) (n : Z) :
  no_dash s = true -> py_int s = Some n -> 0 <= n.
Proof.
  intros Hs. unfold py_int.
  pose proof (rstrip_no_dash _ (lstrip_no_dash _ Hs)) as Hstrip.
  destruct (rstrip (lstrip s)) as [|c r]; [discriminate|].
  cbn [no_dash] in Hstrip. apply andb_true_iff in Hstrip.
  destruct Hstrip as [Hc _]. apply negb_true_iff in Hc. rewrite Hc.
  destruct (Ascii.eqb c "+"); apply digits_go_nonneg; lia.
Qed.

End IssuedNumbers.

(** On a table of issued numbers nothing negative is kept. *)
Lemma kept_of_issued_nonneg (prefix period' : string) (existing : list string) :
  Forall (issued prefix (String.length period')) existing ->
  Forall (fun k => 0 <= k)
         (kept_suffixes (prefix ++ "-" ++ period' ++ "-")%string existing).
Proof.
  intros Hall. unfold kept_suffixes.
  induction Hall as [|x rest Hx _ IH]; [constructor|].
  cbn [flat_map]. apply Forall_app. split; [|exact IH].
  destruct (startswith x _) eqn:Hpre; [|constructor].
  destruct Hx as (period & n & Hlen & Hn & ->).
  rewrite string_drop_append.
  - destruct (py_int (zfill (py_str n) 4)) as [k|] eqn:Hk; [|constructor].
    constructor; [|constructor].
    apply (py_int_no_dash_nonneg _ _ (zfill_no_dash _ 4 (py_str_no_dash n Hn)) Hk).
  - rewrite !length_append. cbn [String.length]. now rewrite Hlen.
Qed.

(** X6. [next_no] answers an issued number whenever the table holds issued
    numbers only: the tables, empty at first and filled with answers of
    [next_no], never leave that form. *)
Lemma next_no_keeps_issued (clock : Clock) (prefix : string) (s : Session) :
  Forall (issued prefix (String.length (yyyymm clock)))
         (existing_numbers prefix (working s)) ->
  forallb (prefix_once (prefix ++ "-" ++ yyyymm clock ++ "-")%string)
          (existing_numbers prefix (working s)) = true
  /\ exists x,
       next_no clock prefix s = Returned x s
       /\ issued prefix (String.length (yyyymm clock)) x.
Proof.
  intros Hall.
  assert (Honce : forallb (prefix_once (prefix ++ "-" ++ yyyymm clock ++ "-")%string)
                          (existing_numbers prefix (working s)) = true).
  { apply forallb_forall. intros x Hx.
    apply issued_prefix_once. rewrite Forall_forall in Hall. now apply Hall. }
  split; [exact Honce|].
  rewrite next_no_run. unfold next_number.
  rewrite (collect_nums_kept _ _
             (period_prefix_not_empty prefix (yyyymm clock)) Honce).
  pose proof (kept_of_issued_nonneg prefix (yyyymm clock) _ Hall) as Hkept.
  eexists. split; [reflexivity|].
  exists (yyyymm clock). eexists. split; [reflexivity|]. split; [|reflexivity].
  destruct (kept_suffixes _ _) as [|k ks]; [lia|].
  destruct (py_max_list_spec ks k) as [Hin _].
  rewrite Forall_forall in Hkept. specialize (Hkept _ Hin). lia.
Qed.

(** Without the assumption, [str.replace] deletes the later occurrences as
    well: a stored number made of the period prefix twice and 0007 counts as
    7, although its trailing suffix is not an integer. *)
Lemma replace_deletes_every_occurrence :
  let db := set_invoices empty_db
              [Invoice.Build 1 "INV-202501-INV-202501-0007" 1 1 1 738990 None
                             INV_OPEN] in
  next_no sample_clock "INV" (mkSession db db)
  = Returned "INV-202501-0008"%string (mkSession db db)
  /\ py_int "INV-202501-0007" = None.
Proof. vm_compute. auto. Qed.



(* ===================================================================== *)
(** * The stock ledger *)
(* ===================================================================== *)

Lemma find_app_none {A} (f : A -> bool) (l : list A) (x : A) :
  find f l = None -> find f (l ++ [x]) = if f x then Some x else None.
Proof.
  induction l as [|r l IH]; intros H; [reflexivity|].
  cbn [find app] in *. destruct (f r); [discriminate|]. now apply IH.
Qed.

Lemma find_app_some {A} (f : A -> bool) (l l' : list A) (x : A) :
  find f l = Some x -> find f (l ++ l') = Some x.
Proof.
  induction l as [|r l IH]; intros H; [discriminate|].
  cbn [find app] in *. destruct (f r); [exact H|]. now apply IH.
Qed.

Lemma get_stock_run (warehouse_id item_id : Z) (s : Session) :
  get_stock warehouse_id item_id s
  = Returned (stock_row warehouse_id item_id (working s))
      match select_stock warehouse_id item_id (working s) with
      | Some _ => s
      | None => mkSession (with_stock_row warehouse_id item_id (working s))
                          (with_stock_row warehouse_id item_id (working s))
      end.
Proof.
  unfold get_stock, stock_row, with_stock_row, stock_row, bind at 1, exec at 1.
  destruct (select_stock warehouse_id item_id (working s)); reflexivity.
Qed.

Lemma stock_row_key (warehouse_id item_id : Z) (db : DB) :
  Stock.warehouse_id (stock_row warehouse_id item_id db) = warehouse_id
  /\ Stock.item_id (stock_row warehouse_id item_id db) = item_id.
Proof.
  unfold stock_row, select_stock.
  destruct (find _ (stocks db)) as [st|] eqn:Hfind; [|split; reflexivity].
  apply find_some in Hfind. destruct Hfind as [_ Hkey].
  apply andb_prop in Hkey. destruct Hkey as [Hw Hi].
  apply Z.eqb_eq in Hw. apply Z.eqb_eq in Hi. now split.
Qed.

Lemma select_stock_with_row (warehouse_id item_id : Z) (db : DB) :
  select_stock warehouse_id item_id (with_stock_row warehouse_id item_id db)
  = Some (stock_row warehouse_id item_id db).
Proof.
  unfold with_stock_row, stock_row.
  destruct (select_stock warehouse_id item_id db) as [st|] eqn:Hsel;
    [exact Hsel|].
  unfold select_stock in *. destruct db; cbn [stocks set_stocks] in *.
  rewrite find_app_none by exact Hsel.
  cbn [Stock.warehouse_id Stock.item_id]. now rewrite !Z.eqb_refl.
Qed.

Lemma with_stock_row_idem (warehouse_id item_id : Z) (db : DB) :
  with_stock_row warehouse_id item_id (with_stock_row warehouse_id item_id db)
  = with_stock_row warehouse_id item_id db.
Proof.
  unfold with_stock_row at 1. now rewrite select_stock_with_row.
Qed.

(** X7. [get_stock] answers with a row of the asked warehouse and item that
    the session then holds; asked again, it answers with the same row and
    writes nothing more, so that a pair never gets a second row from it. *)
Theorem get_stock_is_idempotent :
  forall (warehouse_id item_id : Z) (s : Session),
  exists st s1,
    get_stock warehouse_id item_id s = Returned st s1
    /\ Stock.warehouse_id st = warehouse_id
    /\ Stock.item_id st = item_id
    /\ select_stock warehouse_id item_id (working s1) = Some st
    /\ get_stock warehouse_id item_id s1 = Returned st s1.
Proof.
  intros warehouse_id item_id s.
  eexists _, _. split; [apply get_stock_run|].
  destruct (stock_row_key warehouse_id item_id (working s)) as [Hw Hi].
  split; [exact Hw|]. split; [exact Hi|].
  assert (Hsel : select_stock warehouse_id item_id
                   (working match select_stock warehouse_id item_id (working s) with
                            | Some _ => s
                            | None =>
                                mkSession
                                  (with_stock_row warehouse_id item_id (working s))
                                  (with_stock_row warehouse_id item_id (working s))
                            end)
                 = Some (stock_row warehouse_id item_id (working s))).
  { destruct (select_stock warehouse_id item_id (working s)) eqn:E.
    - unfold stock_row. rewrite E. reflexivity.
    - cbn [working]. apply select_stock_with_row. }
  split; [exact Hsel|].
  rewrite get_stock_run. rewrite Hsel. unfold stock_row at 1. rewrite Hsel.
  reflexivity.
Qed.

(** What a request to [stock_adjust] answers and stores. *)
Lemma stock_adjust_eq (warehouse_id item_id delta : Z) (db : DB) :
  stock_adjust warehouse_id item_id delta db
  = if Stock.qty (stock_row warehouse_id item_id db) + delta <? 0
    then (inl (HTTP 400 StockCannotGoNegative),
          with_stock_row warehouse_id item_id db)
    else (inr tt,
          update_stock
            (Stock.set_qty (stock_row warehouse_id item_id db)
               (Stock.qty (stock_row warehouse_id item_id db) + delta))
            (with_stock_row warehouse_id item_id db)).
Proof.
  unfold stock_adjust, with_session.
  erewrite bind_run by apply get_stock_run. cbn [working].
  unfold bind at 1, write at 1. cbn [Stock.qty Stock.set_qty].
  unfold with_stock_row.
  destruct (select_stock warehouse_id item_id db);
    destruct (_ + delta <? 0); reflexivity.
Qed.

Lemma stock_row_qty (warehouse_id item_id : Z) (db : DB) :
  Stock.qty (stock_row warehouse_id item_id db) = qty_at warehouse_id item_id db.
Proof.
  unfold stock_row, qty_at.
  destruct (select_stock warehouse_id item_id db); reflexivity.
Qed.

Lemma unique_ids_app (ids : list Z) (n : Z) :
  (forall x, In x ids -> x <> n) ->
  unique_ids ids = true -> unique_ids (ids ++ [n]) = true.
Proof.
  induction ids as [|x ids IH]; intros Hn Hu; [reflexivity|].
  cbn [unique_ids app] in *. apply andb_prop in Hu. destruct Hu as [Hx Hu].
  apply andb_true_intro. split.
  - rewrite existsb_app. cbn [existsb]. apply negb_true_iff in Hx. rewrite Hx.
    cbn [orb negb]. rewrite orb_false_r. apply negb_true_iff. apply Z.eqb_neq.
    apply Hn. now left.
  - apply IH; [|exact Hu]. intros y Hy. apply Hn. now right.
Qed.

Lemma unique_ids_next (ids : list Z) :
  unique_ids ids = true -> unique_ids (ids ++ [next_id ids]) = true.
Proof.
  apply unique_ids_app. intros x Hx. apply next_id_fresh in Hx. lia.
Qed.

Lemma with_stock_row_unique (warehouse_id item_id : Z) (db : DB) :
  stock_ids_unique db = true ->
  stock_ids_unique (with_stock_row warehouse_id item_id db) = true.
Proof.
  unfold with_stock_row, stock_row, stock_ids_unique.
  destruct (select_stock warehouse_id item_id db); [auto|].
  intros Hu. destruct db; cbn [stocks set_stocks] in *.
  rewrite map_app. cbn [map Stock.id]. now apply unique_ids_next.
Qed.

Lemma qty_at_with_stock_row (warehouse_id item_id wh it : Z) (db : DB) :
  qty_at wh it (with_stock_row warehouse_id item_id db) = qty_at wh it db.
Proof.
  unfold with_stock_row, stock_row.
  destruct (select_stock warehouse_id item_id db) as [st|]; [reflexivity|].
  unfold qty_at, select_stock. destruct db; cbn [stocks set_stocks].
  match goal with
  | |- context [find ?f (?l ++ _)] => destruct (find f l) as [r|] eqn:Hfind
  end.
  - erewrite find_app_some by exact Hfind. reflexivity.
  - rewrite find_app_none by exact Hfind.
    match goal with |- context [if ?b then _ else _] => destruct b end;
      reflexivity.
Qed.

Lemma update_stock_ids (st : Stock.t) (db : DB) :
  map Stock.id (stocks (update_stock st db)) = map Stock.id (stocks db).
Proof.
  unfold update_stock. destruct db; cbn [stocks set_stocks].
  rewrite map_map. apply map_ext. intros r.
  destruct (Stock.id r =? Stock.id st) eqn:E; [|reflexivity].
  apply Z.eqb_eq in E. now rewrite E.
Qed.

Lemma update_absent {A} (key : A -> Z) (new : A) (l : list A) :
  existsb (Z.eqb (key new)) (map key l) = false ->
  map (fun r => if key r =? key new then new else r) l = l.
Proof.
  induction l as [|r l IH]; intros H; [reflexivity|].
  cbn [map existsb] in *. apply orb_false_elim in H. destruct H as [Hr Hl].
  rewrite Z.eqb_sym, Hr. now rewrite IH.
Qed.

Lemma existsb_key_of_member {A} (key : A -> Z) (k : Z) (x : A) (l : list A) :
  In x l -> existsb (Z.eqb k) (map key l) = false -> k <> key x.
Proof.
  intros Hin Hex Heq.
  assert (H : existsb (Z.eqb k) (map key l) = true).
  { apply existsb_exists. exists (key x). split.
    - now apply in_map.
    - now apply Z.eqb_eq. }
  congruence.
Qed.

(** Writing a new quantity into the row of one warehouse and item changes
    the quantity on hand of that pair and of no other. *)
Lemma qty_at_update_row (warehouse_id item_id wh it : Z) (st st' : Stock.t)
    (db : DB) :
  Stock.id st' = Stock.id st ->
  Stock.warehouse_id st' = Stock.warehouse_id st ->
  Stock.item_id st' = Stock.item_id st ->
  stock_ids_unique db = true ->
  select_stock warehouse_id item_id db = Some st ->
  qty_at wh it (update_stock st' db)
  = if ((wh =? warehouse_id) && (it =? item_id))%bool then Stock.qty st'
    else qty_at wh it db.
Proof.
  unfold stock_ids_unique, qty_at, select_stock, update_stock.
  destruct db; cbn [stocks set_stocks]. clear.
  rename stocks0 into l. intros Hid Hwh Hit.
  induction l as [|r l IH]; intros Hu Hf; [discriminate|].
  cbn [map unique_ids find] in *.
  apply andb_prop in Hu. destruct Hu as [Hr Hl]. apply negb_true_iff in Hr.
  destruct ((Stock.warehouse_id r =? warehouse_id)
            && (Stock.item_id r =? item_id))%bool eqn:Hk.
  - injection Hf as ->. rewrite Hid, Z.eqb_refl.
    pose proof (update_absent Stock.id st' l) as Habs.
    rewrite Hid in Habs. rewrite Habs by exact Hr.
    cbn [find]. rewrite Hwh, Hit.
    apply andb_prop in Hk. destruct Hk as [Hw Hi].
    apply Z.eqb_eq in Hw. apply Z.eqb_eq in Hi. rewrite Hw, Hi.
    rewrite (Z.eqb_sym warehouse_id wh), (Z.eqb_sym item_id it).
    destruct ((wh =? warehouse_id) && (it =? item_id))%bool; reflexivity.
  - assert (Hin : In st l) by (apply find_some in Hf; tauto).
    pose proof (existsb_key_of_member Stock.id (Stock.id r) st l Hin Hr) as Hne.
    apply Z.eqb_neq in Hne. rewrite Hid, Hne. cbn [find].
    specialize (IH Hl Hf). rewrite Hid in IH.
    destruct ((wh =? warehouse_id) && (it =? item_id))%bool eqn:Hc.
    + apply andb_prop in Hc. destruct Hc as [Hw Hi].
      apply Z.eqb_eq in Hw. apply Z.eqb_eq in Hi. subst wh it.
      rewrite Hk. exact IH.
    + destruct ((Stock.warehouse_id r =? wh) && (Stock.item_id r =? it))%bool;
        [reflexivity|exact IH].
Qed.

Lemma qty_at_update_stock (warehouse_id item_id wh it q : Z) (st : Stock.t)
    (db : DB) :
  stock_ids_unique db = true ->
  select_stock warehouse_id item_id db = Some st ->
  qty_at wh it (update_stock (Stock.set_qty st q) db)
  = if ((wh =? warehouse_id) && (it =? item_id))%bool then q
    else qty_at wh it db.
Proof.
  intros Hu Hsel.
  now rewrite (qty_at_update_row warehouse_id item_id wh it st).
Qed.

(** X8. With one row per key, a manual adjustment that keeps the quantity
    on hand at or above zero is accepted and moves the quantity of its
    warehouse and item by [delta], and no other quantity; one that would
    take it below zero is refused with 400 and leaves every quantity on
    hand as it was. *)
Theorem stock_adjust_moves_one_quantity :
  forall (warehouse_id item_id delta : Z) (db : DB),
    stock_ids_unique db = true ->
    (0 <= qty_at warehouse_id item_id db + delta ->
     fst (stock_adjust warehouse_id item_id delta db) = inr tt
     /\ forall wh it,
          qty_at wh it (snd (stock_adjust warehouse_id item_id delta db))
          = if ((wh =? warehouse_id) && (it =? item_id))%bool
            then qty_at warehouse_id item_id db + delta
            else qty_at wh it db)
    /\ (qty_at warehouse_id item_id db + delta < 0 ->
        fst (stock_adjust warehouse_id item_id delta db)
        = inl (HTTP 400 StockCannotGoNegative)
        /\ forall wh it,
             qty_at wh it (snd (stock_adjust warehouse_id item_id delta db))
             = qty_at wh it db).
Proof.
  intros warehouse_id item_id delta db Hu.
  rewrite stock_adjust_eq, stock_row_qty. split; intros Hq.
  - apply Z.ltb_ge in Hq. rewrite Hq. cbn [fst snd]. split; [reflexivity|].
    intros wh it.
    rewrite (qty_at_update_stock warehouse_id item_id);
      [ | now apply with_stock_row_unique | apply select_stock_with_row ].
    destruct ((wh =? warehouse_id) && (it =? item_id))%bool; [reflexivity|].
    apply qty_at_with_stock_row.
  - apply Z.ltb_lt in Hq. rewrite Hq. cbn [fst snd]. split; [reflexivity|].
    intros wh it. apply qty_at_with_stock_row.
Qed.

Lemma stock_adjust_moves_one_quantity_witness :
  stock_ids_unique returns_db = true
  /\ (0 <= qty_at 1 1 returns_db + (-5) ->
      fst (stock_adjust 1 1 (-5) returns_db) = inr tt
      /\ forall wh it,
           qty_at wh it (snd (stock_adjust 1 1 (-5) returns_db))
           = if ((wh =? 1) && (it =? 1))%bool
             then qty_at 1 1 returns_db + (-5)
             else qty_at wh it returns_db)
  /\ (qty_at 1 1 returns_db + (-5) < 0 ->
      fst (stock_adjust 1 1 (-5) returns_db)
      = inl (HTTP 400 StockCannotGoNegative)
      /\ forall wh it,
           qty_at wh it (snd (stock_adjust 1 1 (-5) returns_db))
           = qty_at wh it returns_db).
Proof.
  split; [reflexivity|].
  apply (stock_adjust_moves_one_quantity 1 1 (-5) returns_db). reflexivity.
Defined.

(** X9. A manual adjustment for a warehouse and item without a stock row
    that asks for a negative [delta] is refused with 400, and yet the
    stored database has gained the row, with quantity 0, that [get_stock]
    committed before the check. *)
Theorem stock_adjust_refused_keeps_new_row :
  forall (warehouse_id item_id delta : Z) (db : DB),
    select_stock warehouse_id item_id db = None ->
    delta < 0 ->
    stock_adjust warehouse_id item_id delta db
    = (inl (HTTP 400 StockCannotGoNegative),
       set_stocks db
         (stocks db ++
            [Stock.Build (next_id (map Stock.id (stocks db)))
                         warehouse_id item_id 0])).
Proof.
  intros warehouse_id item_id delta db Hsel Hneg.
  rewrite stock_adjust_eq. unfold with_stock_row, stock_row. rewrite Hsel.
  cbn [Stock.qty]. apply Z.ltb_lt in Hneg. rewrite Z.add_0_l, Hneg.
  reflexivity.
Qed.

Lemma stock_adjust_refused_keeps_new_row_witness :
  select_stock 2 7 returns_db = None
  /\ -1 < 0
  /\ stock_adjust 2 7 (-1) returns_db
     = (inl (HTTP 400 StockCannotGoNegative),
        set_stocks returns_db
          (stocks returns_db ++
             [Stock.Build (next_id (map Stock.id (stocks returns_db))) 2 7 0])).
Proof.
  split; [reflexivity|]. split; [lia|].
  apply (stock_adjust_refused_keeps_new_row 2 7 (-1) returns_db);
    [reflexivity|lia].
Defined.

Lemma select_stock_update (warehouse_id item_id : Z) (st st' : Stock.t)
    (db : DB) :
  select_stock warehouse_id item_id db = Some st ->
  Stock.id st' = Stock.id st ->
  Stock.warehouse_id st' = warehouse_id ->
  Stock.item_id st' = item_id ->
  select_stock warehouse_id item_id (update_stock st' db) = Some st'.
Proof.
  unfold select_stock, update_stock. destruct db; cbn [stocks set_stocks].
  intros Hf Hid Hw Hi. rename stocks0 into l.
  assert (Hkey : ((Stock.warehouse_id st' =? warehouse_id)
                  && (Stock.item_id st' =? item_id))%bool = true)
    by (rewrite Hw, Hi, !Z.eqb_refl; reflexivity).
  induction l as [|r l IH]; [discriminate|].
  cbn [map find] in *.
  destruct ((Stock.warehouse_id r =? warehouse_id)
            && (Stock.item_id r =? item_id))%bool eqn:Hk.
  - injection Hf as ->. rewrite Hid, Z.eqb_refl. now rewrite Hkey.
  - destruct (Stock.id r =? Stock.id st').
    + now rewrite Hkey.
    + rewrite Hk. now apply IH.
Qed.

Lemma update_stock_twice (st st' : Stock.t) (db : DB) :
  Stock.id st' = Stock.id st ->
  update_stock st' (update_stock st db) = update_stock st' db.
Proof.
  intros Hid. unfold update_stock, set_stocks. destruct db.
  cbn [stocks items parties party_prices sales_orders sales_order_lines
       challans challan_lines invoices invoice_lines payments return_notes
       return_lines].
  f_equal. rewrite map_map. apply map_ext. intros r. rewrite Hid.
  destruct (Stock.id r =? Stock.id st) eqn:E; [|now rewrite E].
  now rewrite Z.eqb_refl.
Qed.

(** X10. Two accepted adjustments of one warehouse and item, by [a] and then
    by [b], answer and store what the single adjustment by [a + b] does. *)
Theorem stock_adjust_twice :
  forall (warehouse_id item_id a b : Z) (db : DB),
    0 <= qty_at warehouse_id item_id db + a ->
    0 <= qty_at warehouse_id item_id db + a + b ->
    stock_adjust warehouse_id item_id b
      (snd (stock_adjust warehouse_id item_id a db))
    = stock_adjust warehouse_id item_id (a + b) db.
Proof.
  intros warehouse_id item_id a b db Ha Hab.
  rewrite (stock_adjust_eq warehouse_id item_id a db).
  rewrite (stock_adjust_eq warehouse_id item_id (a + b) db).
  rewrite stock_row_qty.
  assert (Hab' : 0 <= qty_at warehouse_id item_id db + (a + b)) by lia.
  apply Z.ltb_ge in Ha, Hab'. rewrite Ha, Hab'. cbn [snd].
  set (st := stock_row warehouse_id item_id db).
  set (db0 := with_stock_row warehouse_id item_id db).
  set (q := qty_at warehouse_id item_id db).
  destruct (stock_row_key warehouse_id item_id db) as [Hw Hi].
  assert (Hsel : select_stock warehouse_id item_id
                   (update_stock (Stock.set_qty st (q + a)) db0)
                 = Some (Stock.set_qty st (q + a))).
  { apply (select_stock_update warehouse_id item_id st);
      [apply select_stock_with_row|reflexivity|exact Hw|exact Hi]. }
  rewrite stock_adjust_eq.
  unfold with_stock_row, stock_row. rewrite Hsel.
  cbn [Stock.qty Stock.set_qty].
  replace (q + a + b) with (q + (a + b)) by lia. subst q. rewrite Hab'.
  f_equal. now rewrite update_stock_twice.
Qed.

Lemma stock_adjust_twice_witness :
  0 <= qty_at 1 1 returns_db + (-3)
  /\ 0 <= qty_at 1 1 returns_db + (-3) + 7
  /\ stock_adjust 1 1 7 (snd (stock_adjust 1 1 (-3) returns_db))
     = stock_adjust 1 1 (-3 + 7) returns_db.
Proof.
  split; [vm_compute; discriminate|]. split; [vm_compute; discriminate|].
  apply (stock_adjust_twice 1 1 (-3) 7 returns_db); vm_compute; discriminate.
Defined.

(* ===================================================================== *)
(** * Dispatch and the ledger *)
(* ===================================================================== *)

Lemma get_stock_working (warehouse_id item_id : Z) (s : Session) :
  working match select_stock warehouse_id item_id (working s) with
          | Some _ => s
          | None => mkSession (with_stock_row warehouse_id item_id (working s))
                              (with_stock_row warehouse_id item_id (working s))
          end
  = with_stock_row warehouse_id item_id (working s).
Proof.
  unfold with_stock_row.
  destruct (select_stock warehouse_id item_id (working s)); reflexivity.
Qed.

Lemma get_stock_run_at (warehouse_id item_id : Z) (c db : DB) :
  get_stock warehouse_id item_id (mkSession c db)
  = Returned (stock_row warehouse_id item_id db)
      (mkSession match select_stock warehouse_id item_id db with
                 | Some _ => c
                 | None => with_stock_row warehouse_id item_id db
                 end
                 (with_stock_row warehouse_id item_id db)).
Proof.
  rewrite get_stock_run. cbn [working]. unfold with_stock_row.
  destruct (select_stock warehouse_id item_id db); reflexivity.
Qed.

(** A loop whose turns all return ends in the state that the turns compute
    one after the other. *)
Lemma for_each_returned {A} (body : A -> M unit) (step : DB -> A -> DB) :
  (forall x s s', body x s = Returned tt s' -> working s' = step (working s) x) ->
  forall xs s s',
    for_each xs body s = Returned tt s' ->
    working s' = fold_left step xs (working s).
Proof.
  intros Hbody xs.
  induction xs as [|x xs IH]; intros s s' Hrun.
  - injection Hrun as <-. reflexivity.
  - cbn [for_each fold_left] in *. unfold bind in Hrun.
    destruct (body x s) as [[] s1|e s1] eqn:Hx; [|discriminate].
    rewrite <- (Hbody _ _ _ Hx). now apply IH.
Qed.

Lemma challan_create_returned (clock : Clock) (so_id : Z) (db db' : DB) :
  challan_create clock so_id db = (inr tt, db') ->
  exists so,
    get_sales_order so_id db = Some so
    /\ SalesOrder.status so = SO_APPROVED
    /\ db' = update_sales_order (SalesOrder.set_status so SO_DISPATCHED)
               (dispatch_lines (SalesOrder.warehouse_id so)
                  (next_id (map Challan.id (challans db)))
                  (select_so_lines so_id db)
                  (set_challans db
                     (challans db ++
                        [Challan.Build (next_id (map Challan.id (challans db)))
                                       (next_number clock "DC" db) so_id
                                       DC_OPEN]))).
Proof.
  unfold challan_create, with_session, bind at 1, exec at 1. cbn [working].
  destruct (get_sales_order so_id db) as [so|] eqn:Hso; [|discriminate].
  destruct (SalesOrder.status so) eqn:Hstatus; try discriminate.
  cbn [SOStatus_eqb negb].
  unfold bind at 1. rewrite next_no_run. cbn [working].
  unfold bind at 1, add_challan at 1, bind at 1, exec at 1. cbn [working].
  unfold bind at 1, write at 1. cbn [ret committed working].
  unfold bind at 1, commit at 1. cbn [committed working].
  unfold bind at 1, exec at 1. cbn [working Challan.id].
  unfold bind at 1.
  match goal with
  | |- context [for_each ?xs ?body ?s] =>
      destruct (for_each xs body s) as [[] s2|e s2] eqn:Hloop; [|discriminate]
  end.
  apply (for_each_returned _
           (dispatch_line (SalesOrder.warehouse_id so)
                          (next_id (map Challan.id (challans db))))) in Hloop.
  - unfold bind, write, commit. cbn [committed working] in *.
    intros Hrun. injection Hrun as <-.
    exists so. split; [reflexivity|]. split; [exact Hstatus|].
    rewrite Hloop. reflexivity.
  - intros ln s s'. erewrite bind_run by apply get_stock_run.
    destruct (_ <? _); [discriminate|].
    unfold bind, write, add_challan_line, bind, exec, write.
    cbn [committed working]. intros Hrun. injection Hrun as <-.
    cbn [working]. rewrite get_stock_working. reflexivity.
Qed.

Lemma ordered_qty_cons (item_id : Z) (ln : SalesOrderLine.t)
    (lines : list SalesOrderLine.t) :
  ordered_qty item_id (ln :: lines)
  = (if SalesOrderLine.item_id ln =? item_id then SalesOrderLine.qty ln else 0)
    + ordered_qty item_id lines.
Proof.
  unfold ordered_qty. cbn [filter].
  destruct (SalesOrderLine.item_id ln =? item_id); reflexivity.
Qed.

Lemma dispatch_line_stock (warehouse_id dc_id : Z) (db : DB)
    (ln : SalesOrderLine.t) :
  stock_ids_unique db = true ->
  stock_ids_unique (dispatch_line warehouse_id dc_id db ln) = true
  /\ forall wh it,
       qty_at wh it (dispatch_line warehouse_id dc_id db ln)
       = qty_at wh it db
         - (if ((wh =? warehouse_id)
                && (SalesOrderLine.item_id ln =? it))%bool
            then SalesOrderLine.qty ln else 0).
Proof.
  intros Hu. unfold dispatch_line. cbv zeta.
  set (item_id := SalesOrderLine.item_id ln).
  set (st := stock_row warehouse_id item_id db).
  set (db0 := with_stock_row warehouse_id item_id db).
  set (db1 := update_stock _ db0).
  assert (Hu0 : stock_ids_unique db0 = true)
    by now apply with_stock_row_unique.
  assert (Hu1 : stock_ids_unique db1 = true).
  { unfold stock_ids_unique, db1. now rewrite update_stock_ids. }
  assert (Hq : forall wh it,
             qty_at wh it db1
             = qty_at wh it db
               - (if ((wh =? warehouse_id) && (item_id =? it))%bool
                  then SalesOrderLine.qty ln else 0)).
  { intros wh it. unfold db1.
    rewrite (qty_at_update_stock warehouse_id item_id);
      [|exact Hu0|apply select_stock_with_row].
    unfold db0. rewrite qty_at_with_stock_row. unfold st.
    rewrite stock_row_qty. rewrite (Z.eqb_sym item_id it).
    destruct ((wh =? warehouse_id) && (it =? item_id))%bool eqn:Hc; [|lia].
    apply andb_prop in Hc. destruct Hc as [Hw Hi].
    apply Z.eqb_eq in Hw. apply Z.eqb_eq in Hi. now subst wh it. }
  split.
  - unfold stock_ids_unique in *. destruct db1; exact Hu1.
  - intros wh it. rewrite <- Hq. unfold qty_at, select_stock.
    destruct db1; reflexivity.
Qed.

Lemma dispatch_lines_stock (warehouse_id dc_id : Z)
    (lines : list SalesOrderLine.t) :
  forall db,
    stock_ids_unique db = true ->
    stock_ids_unique (dispatch_lines warehouse_id dc_id lines db) = true
    /\ forall wh it,
         qty_at wh it (dispatch_lines warehouse_id dc_id lines db)
         = qty_at wh it db
           - (if wh =? warehouse_id then ordered_qty it lines else 0).
Proof.
  unfold dispatch_lines.
  induction lines as [|ln lines IH]; intros db Hu.
  - split; [exact Hu|]. intros wh it. cbn [fold_left].
    unfold ordered_qty. cbn. destruct (wh =? warehouse_id); lia.
  - cbn [fold_left].
    destruct (dispatch_line_stock warehouse_id dc_id db ln Hu) as [Hu1 Hq1].
    destruct (IH _ Hu1) as [Hu2 Hq2]. split; [exact Hu2|].
    intros wh it. rewrite Hq2, Hq1, ordered_qty_cons.
    destruct (wh =? warehouse_id); cbn [andb];
      destruct (SalesOrderLine.item_id ln =? it); lia.
Qed.

Lemma qty_at_stocks (db db' : DB) :
  stocks db' = stocks db ->
  forall wh it, qty_at wh it db' = qty_at wh it db.
Proof. intros H wh it. unfold qty_at, select_stock. now rewrite H. Qed.

(** X11. With one stock row per key, a challan that is created takes from
    the order's warehouse, for every item, exactly the quantity the order's
    lines ask for, and leaves the quantities of every other warehouse as
    they were. *)
Theorem challan_create_takes_ordered_quantities :
  forall (clock : Clock) (so_id : Z) (db db' : DB),
    stock_ids_unique db = true ->
    challan_create clock so_id db = (inr tt, db') ->
    exists so,
      get_sales_order so_id db = Some so
      /\ stock_ids_unique db' = true
      /\ forall wh it,
           qty_at wh it db'
           = qty_at wh it db
             - (if wh =? SalesOrder.warehouse_id so
                then ordered_qty it (select_so_lines so_id db) else 0).
Proof.
  intros clock so_id db db' Hu Hrun.
  destruct (challan_create_returned _ _ _ _ Hrun) as (so & Hso & _ & ->).
  exists so. split; [exact Hso|].
  set (db1 := set_challans db _).
  assert (Hu1 : stock_ids_unique db1 = true)
    by (unfold stock_ids_unique, db1 in *; destruct db; exact Hu).
  destruct (dispatch_lines_stock (SalesOrder.warehouse_id so)
              (next_id (map Challan.id (challans db)))
              (select_so_lines so_id db) db1 Hu1) as [Hu2 Hq].
  split.
  - unfold stock_ids_unique, update_sales_order in *.
    destruct (dispatch_lines _ _ _ db1); exact Hu2.
  - intros wh it.
    rewrite (qty_at_stocks (dispatch_lines (SalesOrder.warehouse_id so)
                              (next_id (map Challan.id (challans db)))
                              (select_so_lines so_id db) db1))
      by (unfold update_sales_order; destruct (dispatch_lines _ _ _ db1);
          reflexivity).
    rewrite Hq. rewrite (qty_at_stocks db db1)
      by (unfold db1; destruct db; reflexivity).
    reflexivity.
Qed.

Lemma challan_create_takes_ordered_quantities_witness :
  stock_ids_unique approved_db = true
  /\ challan_create sample_clock 1 approved_db
     = (inr tt, snd (challan_create sample_clock 1 approved_db))
  /\ exists so,
       get_sales_order 1 approved_db = Some so
       /\ stock_ids_unique (snd (challan_create sample_clock 1 approved_db))
          = true
       /\ forall wh it,
            qty_at wh it (snd (challan_create sample_clock 1 approved_db))
            = qty_at wh it approved_db
              - (if wh =? SalesOrder.warehouse_id so
                 then ordered_qty it (select_so_lines 1 approved_db) else 0).
Proof.
  split; [reflexivity|]. split; [reflexivity|].
  apply (challan_create_takes_ordered_quantities sample_clock 1 approved_db);
    reflexivity.
Defined.

Lemma filter_none {A} (f : A -> bool) (l : list A) :
  (forall x, In x l -> f x = false) -> filter f l = [].
Proof.
  induction l as [|x l IH]; intros H; [reflexivity|].
  cbn [filter]. rewrite (H x (or_introl eq_refl)).
  apply IH. intros y Hy. apply H. now right.
Qed.

(** A row that honours a foreign key does not point to the key about to be
    given out. *)
Lemma linked_not_next (k : Z) (ids : list Z) :
  existsb (Z.eqb k) ids = true -> (k =? next_id ids) = false.
Proof.
  intros H. apply existsb_exists in H. destruct H as (i & Hi & Heq).
  apply Z.eqb_eq in Heq. subst i. apply next_id_fresh in Hi.
  apply Z.eqb_neq. lia.
Qed.

Lemma no_line_of_next_challan (db : DB) :
  challan_lines_linked db = true ->
  select_challan_lines (next_id (map Challan.id (challans db))) db = [].
Proof.
  unfold challan_lines_linked, select_challan_lines. intros Hlinked.
  rewrite forallb_forall in Hlinked.
  apply filter_none. intros ln Hin. apply linked_not_next. now apply Hlinked.
Qed.

Lemma dispatch_line_lines (warehouse_id dc_id : Z) (db : DB)
    (ln : SalesOrderLine.t) :
  challan_lines (dispatch_line warehouse_id dc_id db ln)
  = (challan_lines db ++
       [ChallanLine.Build (next_id (map ChallanLine.id (challan_lines db)))
                          dc_id (SalesOrderLine.item_id ln)
                          (SalesOrderLine.qty ln)])%list.
Proof.
  unfold dispatch_line, with_stock_row, update_stock. cbv zeta.
  destruct (select_stock warehouse_id (SalesOrderLine.item_id ln) db);
    destruct db; reflexivity.
Qed.

Lemma dispatch_lines_lines (warehouse_id dc_id : Z)
    (lines : list SalesOrderLine.t) :
  forall db,
    map (fun l => (ChallanLine.item_id l, ChallanLine.qty l))
        (filter (fun l => ChallanLine.dc_id l =? dc_id)
                (challan_lines (dispatch_lines warehouse_id dc_id lines db)))
    = (map (fun l => (ChallanLine.item_id l, ChallanLine.qty l))
           (filter (fun l => ChallanLine.dc_id l =? dc_id) (challan_lines db))
       ++ map (fun ln => (SalesOrderLine.item_id ln, SalesOrderLine.qty ln))
              lines)%list.
Proof.
  unfold dispatch_lines.
  induction lines as [|ln lines IH]; intros db.
  - cbn [fold_left map]. now rewrite app_nil_r.
  - cbn [fold_left map]. rewrite IH, dispatch_line_lines.
    rewrite filter_app, map_app. cbn [filter ChallanLine.dc_id].
    rewrite Z.eqb_refl. cbn [map ChallanLine.item_id ChallanLine.qty].
    now rewrite <- app_assoc.
Qed.

Lemma update_sales_order_lines (so : SalesOrder.t) (db : DB) :
  challan_lines (update_sales_order so db) = challan_lines db.
Proof. destruct db; reflexivity. Qed.

(** X12. When the challan lines honour their foreign key, the lines of a
    challan that is created are the lines of the order, item by item and
    quantity by quantity, in the order's sequence. *)
Theorem challan_create_copies_order_lines :
  forall (clock : Clock) (so_id : Z) (db db' : DB),
    challan_lines_linked db = true ->
    challan_create clock so_id db = (inr tt, db') ->
    map (fun l => (ChallanLine.item_id l, ChallanLine.qty l))
        (select_challan_lines (next_id (map Challan.id (challans db))) db')
    = map (fun ln => (SalesOrderLine.item_id ln, SalesOrderLine.qty ln))
          (select_so_lines so_id db).
Proof.
  intros clock so_id db db' Hlinked Hrun.
  destruct (challan_create_returned _ _ _ _ Hrun) as (so & _ & _ & ->).
  unfold select_challan_lines at 1.
  rewrite update_sales_order_lines, dispatch_lines_lines.
  pose proof (no_line_of_next_challan db Hlinked) as Hnone.
  unfold select_challan_lines in Hnone.
  replace (challan_lines (set_challans db _)) with (challan_lines db)
    by (destruct db; reflexivity).
  rewrite Hnone. reflexivity.
Qed.

Lemma challan_create_copies_order_lines_witness :
  challan_lines_linked approved_db = true
  /\ challan_create sample_clock 1 approved_db
     = (inr tt, snd (challan_create sample_clock 1 approved_db))
  /\ map (fun l => (ChallanLine.item_id l, ChallanLine.qty l))
         (select_challan_lines (next_id (map Challan.id (challans approved_db)))
            (snd (challan_create sample_clock 1 approved_db)))
     = map (fun ln => (SalesOrderLine.item_id ln, SalesOrderLine.qty ln))
           (select_so_lines 1 approved_db).
Proof.
  split; [reflexivity|]. split; [reflexivity|].
  apply (challan_create_copies_order_lines sample_clock 1 approved_db);
    reflexivity.
Defined.

(* ===================================================================== *)
(** * Invoicing *)
(* ===================================================================== *)

Lemma invoice_create_returned (clock : Clock) (dc_id invoice_date : Z)
    (db db' : DB) (r : Unhandled + Z) :
  invoice_create clock dc_id invoice_date db = (inr r, db') ->
  exists dc so party,
    get_challan dc_id db = Some dc
    /\ Challan.status dc = DC_OPEN
    /\ get_sales_order (Challan.so_id dc) db = Some so
    /\ get_party (SalesOrder.party_id so) db = Some party
    /\ r = inl DetachedInstanceError
    /\ db' = invoiced_db clock db dc_id dc so party invoice_date.
Proof.
  rewrite invoice_create_eq.
  destruct (get_challan dc_id db) as [dc|] eqn:Hdc; [|discriminate].
  destruct (Challan.status dc) eqn:Hstatus; [|discriminate].
  cbn [DCStatus_eqb negb].
  destruct (get_sales_order (Challan.so_id dc) db) as [so|] eqn:Hso;
    [|discriminate].
  destruct (get_party (SalesOrder.party_id so) db) as [party|] eqn:Hparty;
    [|discriminate].
  cbv zeta.
  destruct (Party.is_blocked party); [discriminate|].
  destruct (fgt (overdue (party_summary clock db party)) f0); [discriminate|].
  match goal with |- (if ?b then _ else _) = _ -> _ => destruct b end;
    [discriminate|].
  intros Hrun. injection Hrun as <- <-.
  exists dc, so, party.
  split; [reflexivity|]. split; [exact Hstatus|]. split; [exact Hso|].
  split; [exact Hparty|]. split; reflexivity.
Qed.

Lemma copied_lines_content (db : DB) (invoice_id party_id : Z) :
  forall (dc_lines : list ChallanLine.t) (table : list InvoiceLine.t),
    map line_content
        (filter (fun ln => InvoiceLine.invoice_id ln =? invoice_id)
                (copied_lines db invoice_id party_id dc_lines table))
    = (map line_content
           (filter (fun ln => InvoiceLine.invoice_id ln =? invoice_id) table)
       ++ flat_map (priced_line db party_id) dc_lines)%list.
Proof.
  unfold copied_lines.
  induction dc_lines as [|dln rest IH]; intros table.
  - cbn [fold_left flat_map]. now rewrite app_nil_r.
  - cbn [fold_left flat_map]. rewrite IH. unfold copy_step, priced_line.
    destruct (get_item (ChallanLine.item_id dln) db) as [it|]; [|reflexivity].
    rewrite filter_app, map_app. cbn [filter InvoiceLine.invoice_id].
    rewrite Z.eqb_refl. cbn [map app]. now rewrite <- app_assoc.
Qed.

(** X13. When the invoice lines honour their foreign key and
    [invoice_create] passes every check, the lines stored under the key of
    the new invoice, the next one, are the challan's lines whose item is
    still in the [Item] table, in the challan's sequence, each with the
    challan's quantity, the item's tax rate and the rate and discount that
    [apply_party_price] resolves, at invoicing time, for the party of the
    order. *)
Theorem invoice_create_prices_challan_lines :
  forall (clock : Clock) (dc_id invoice_date : Z) (db db' : DB),
    invoice_lines_linked db = true ->
    invoice_create clock dc_id invoice_date db
    = (inr (inl DetachedInstanceError), db') ->
    exists dc so,
      get_challan dc_id db = Some dc
      /\ get_sales_order (Challan.so_id dc) db = Some so
      /\ map line_content
             (select_invoice_lines (next_id (map Invoice.id (invoices db))) db')
         = flat_map (priced_line db (SalesOrder.party_id so))
                    (select_challan_lines dc_id db).
Proof.
  intros clock dc_id invoice_date db db' Hlinked Hrun.
  destruct (invoice_create_returned _ _ _ _ _ _ Hrun)
    as (dc & so & party & Hdc & _ & Hso & Hparty & _ & ->).
  exists dc, so. split; [exact Hdc|]. split; [exact Hso|].
  assert (Hid : Party.id party = SalesOrder.party_id so).
  { unfold get_party in Hparty. apply find_some in Hparty.
    destruct Hparty as [_ Heq]. now apply Z.eqb_eq in Heq. }
  unfold select_invoice_lines at 1, invoiced_db, new_invoice.
  cbn [Invoice.id invoice_lines update_challan set_challans set_invoice_lines
       set_invoices].
  rewrite copied_lines_content.
  pose proof (no_line_of_next_invoice db Hlinked) as Hnone.
  unfold select_invoice_lines in Hnone. rewrite Hnone, Hid. reflexivity.
Qed.

Lemma invoice_create_prices_challan_lines_witness :
  invoice_lines_linked credit_db = true
  /\ invoice_create sample_clock 3 739000 credit_db
     = (inr (inl DetachedInstanceError),
        snd (invoice_create sample_clock 3 739000 credit_db))
  /\ exists dc so,
       get_challan 3 credit_db = Some dc
       /\ get_sales_order (Challan.so_id dc) credit_db = Some so
       /\ map line_content
              (select_invoice_lines
                 (next_id (map Invoice.id (invoices credit_db)))
                 (snd (invoice_create sample_clock 3 739000 credit_db)))
          = flat_map (priced_line credit_db (SalesOrder.party_id so))
                     (select_challan_lines 3 credit_db).
Proof.
  split; [vm_compute; reflexivity|]. split; [vm_compute; reflexivity|].
  apply (invoice_create_prices_challan_lines sample_clock 3 739000 credit_db);
    vm_compute; reflexivity.
Defined.

(** X14. Whatever it answers, [invoice_create] leaves the stock, the orders
    and their lines, the challan lines, the payments, the master data and
    the returns as it found them: invoicing moves no stock. *)
Theorem invoice_create_moves_no_stock :
  forall (clock : Clock) (dc_id invoice_date : Z) (db : DB),
    same_outside_invoicing db
      (snd (invoice_create clock dc_id invoice_date db)).
Proof.
  intros clock dc_id invoice_date db.
  assert (Hsame : same_outside_invoicing db db)
    by (unfold same_outside_invoicing; auto 12).
  rewrite invoice_create_eq.
  destruct (get_challan dc_id db) as [dc|]; [|exact Hsame].
  destruct (negb (DCStatus_eqb (Challan.status dc) DC_OPEN)); [exact Hsame|].
  destruct (get_sales_order (Challan.so_id dc) db) as [so|]; [|exact Hsame].
  destruct (get_party (SalesOrder.party_id so) db) as [party|];
    [|exact Hsame].
  cbv zeta.
  destruct (Party.is_blocked party); [exact Hsame|].
  destruct (fgt (overdue (party_summary clock db party)) f0); [exact Hsame|].
  match goal with |- context [if ?b then _ else _] => destruct b end;
    [exact Hsame|].
  cbn [snd]. unfold same_outside_invoicing, invoiced_db, update_challan.
  cbn [items parties party_prices stocks sales_orders sales_order_lines
       challan_lines payments return_notes return_lines set_challans
       set_invoice_lines set_invoices].
  auto 12.
Qed.

Lemma find_key_next {A} (key : A -> Z) (l : list A) :
  find (fun r => key r =? next_id (map key l)) l = None.
Proof.
  destruct (find _ l) as [r|] eqn:Hfind; [|reflexivity].
  apply find_some in Hfind. destruct Hfind as [Hin Heq].
  apply Z.eqb_eq in Heq.
  assert (Hlt : key r < next_id (map key l))
    by (apply next_id_fresh; now apply in_map).
  lia.
Qed.

(** X15. An [invoice_create] that passes every check answers with no key:
    it ends in the [DetachedInstanceError] of the read of [inv.id] after
    the session is closed.  The invoice is stored all the same: under the
    next key, which was not in use, the stored database holds an open
    invoice for the challan, with the next number of the period, the party
    and the warehouse of the order, the date of the request and the state
    of the party as place of supply, and the challan is stored as
    invoiced. *)
Theorem invoice_create_stores_header :
  forall (clock : Clock) (dc_id invoice_date : Z) (db db' : DB)
         (r : Unhandled + Z),
    invoice_create clock dc_id invoice_date db = (inr r, db') ->
    r = inl DetachedInstanceError
    /\ exists dc so party,
         get_challan dc_id db = Some dc
         /\ get_sales_order (Challan.so_id dc) db = Some so
         /\ get_party (SalesOrder.party_id so) db = Some party
         /\ get_invoice (next_id (map Invoice.id (invoices db))) db = None
         /\ get_invoice (next_id (map Invoice.id (invoices db))) db'
            = Some (Invoice.Build (next_id (map Invoice.id (invoices db)))
                                  (next_number clock "INV" db) dc_id
                                  (SalesOrder.party_id so)
                                  (SalesOrder.warehouse_id so) invoice_date
                                  (Party.state party) INV_OPEN)
         /\ get_challan dc_id db' = Some (Challan.set_status dc DC_INVOICED).
Proof.
  intros clock dc_id invoice_date db db' r Hrun.
  pose proof (invoice_create_marks_invoiced _ _ _ _ _ _ Hrun)
    as (dc0 & Hdc0 & _ & Hmarked).
  destruct (invoice_create_returned _ _ _ _ _ _ Hrun)
    as (dc & so & party & Hdc & _ & Hso & Hparty & -> & ->).
  split; [reflexivity|].
  exists dc, so, party.
  split; [exact Hdc|]. split; [exact Hso|]. split; [exact Hparty|].
  assert (Hid : Party.id party = SalesOrder.party_id so).
  { unfold get_party in Hparty. apply find_some in Hparty.
    destruct Hparty as [_ Heq]. now apply Z.eqb_eq in Heq. }
  assert (Hnone : get_invoice (next_id (map Invoice.id (invoices db))) db = None)
    by apply (find_key_next Invoice.id).
  split; [exact Hnone|]. split.
  - unfold get_invoice, invoiced_db, new_invoice in *.
    cbn [invoices update_challan set_challans set_invoice_lines set_invoices].
    rewrite find_app_none by exact Hnone.
    cbn [Invoice.id]. now rewrite Z.eqb_refl, Hid.
  - rewrite Hdc in Hdc0. injection Hdc0 as <-. exact Hmarked.
Qed.

Lemma invoice_create_stores_header_witness :
  invoice_create sample_clock 3 739000 credit_db
  = (inr (inl DetachedInstanceError),
     snd (invoice_create sample_clock 3 739000 credit_db))
  /\ inl DetachedInstanceError = @inl Unhandled Z DetachedInstanceError
  /\ exists dc so party,
       get_challan 3 credit_db = Some dc
       /\ get_sales_order (Challan.so_id dc) credit_db = Some so
       /\ get_party (SalesOrder.party_id so) credit_db = Some party
       /\ get_invoice (next_id (map Invoice.id (invoices credit_db)))
                      credit_db = None
       /\ get_invoice (next_id (map Invoice.id (invoices credit_db)))
                      (snd (invoice_create sample_clock 3 739000 credit_db))
          = Some (Invoice.Build (next_id (map Invoice.id (invoices credit_db)))
                                (next_number sample_clock "INV" credit_db) 3
                                (SalesOrder.party_id so)
                                (SalesOrder.warehouse_id so) 739000
                                (Party.state party) INV_OPEN)
       /\ get_challan 3 (snd (invoice_create sample_clock 3 739000 credit_db))
          = Some (Challan.set_status dc DC_INVOICED).
Proof.
  split; [vm_compute; reflexivity|].
  apply (invoice_create_stores_header sample_clock 3 739000 credit_db).
  vm_compute. reflexivity.
Defined.

(* ===================================================================== *)
(** * Payments and the status of an invoice *)
(* ===================================================================== *)

Lemma py_sum_app (xs : list float) (x : float) :
  py_sum (xs ++ [x]) = fadd (py_sum xs) x.
Proof. unfold py_sum. now rewrite fold_left_app. Qed.

Lemma select_payments_added (invoice_id other : Z) (db : DB) (p : Payment.t) :
  Payment.invoice_id p = Some invoice_id ->
  select_payments other (set_payments db (payments db ++ [p]))
  = (select_payments other db
     ++ if invoice_id =? other then [p] else [])%list.
Proof.
  intros Hp. unfold select_payments. destruct db; cbn [payments set_payments].
  rewrite filter_app. cbn [filter]. rewrite Hp.
  destruct (invoice_id =? other); reflexivity.
Qed.

Lemma add_payment_eq (inv_id : Z) (amount : float) (db : DB) :
  add_payment inv_id amount db
  = match get_invoice inv_id db with
    | None => (inl (HTTP 404 InvoiceNotFound), db)
    | Some inv =>
        (inr tt,
         set_payments db
           (payments db ++
              [Payment.Build (next_id (map Payment.id (payments db)))
                             (Invoice.party_id inv) (Some inv_id) amount]))
    end.
Proof.
  unfold add_payment, with_session, bind at 1, exec at 1. cbn [working].
  destruct (get_invoice inv_id db); reflexivity.
Qed.

(** X16. [add_payment] answers 404 and stores nothing for an unknown
    invoice.  For a known one it accepts any amount: the sub-total, the tax
    and the total of the invoice stay what they were, the amount paid
    becomes the earlier sum plus the new amount, rounded, and the totals of
    every other invoice are untouched. *)
Theorem add_payment_adds_to_paid :
  forall (inv_id : Z) (amount : float) (db : DB),
    match get_invoice inv_id db with
    | None =>
        add_payment inv_id amount db = (inl (HTTP 404 InvoiceNotFound), db)
    | Some inv =>
        fst (add_payment inv_id amount db) = inr tt
        /\ subtotal (totals_of (snd (add_payment inv_id amount db)) inv_id)
           = subtotal (totals_of db inv_id)
        /\ gst (totals_of (snd (add_payment inv_id amount db)) inv_id)
           = gst (totals_of db inv_id)
        /\ total (totals_of (snd (add_payment inv_id amount db)) inv_id)
           = total (totals_of db inv_id)
        /\ paid (totals_of (snd (add_payment inv_id amount db)) inv_id)
           = round2 (fadd (py_sum (map Payment.amount
                                       (select_payments inv_id db)))
                          amount)
        /\ forall other,
             other <> inv_id ->
             totals_of (snd (add_payment inv_id amount db)) other
             = totals_of db other
    end.
Proof.
  intros inv_id amount db. rewrite add_payment_eq.
  destruct (get_invoice inv_id db) as [inv|]; [|reflexivity].
  cbn [fst snd].
  set (p := Payment.Build _ _ (Some inv_id) amount).
  assert (Hlines : forall i,
             select_invoice_lines i (set_payments db (payments db ++ [p]))
             = select_invoice_lines i db)
    by (intros i; destruct db; reflexivity).
  split; [reflexivity|].
  unfold totals_of. cbn [subtotal gst total paid].
  rewrite !Hlines.
  split; [reflexivity|]. split; [reflexivity|]. split; [reflexivity|].
  split.
  - rewrite (select_payments_added inv_id inv_id) by reflexivity.
    rewrite Z.eqb_refl, map_app. subst p. cbn [map Payment.amount].
    rewrite py_sum_app. reflexivity.
  - intros other Hother. rewrite Hlines.
    rewrite (select_payments_added inv_id other) by reflexivity.
    apply not_eq_sym in Hother. apply Z.eqb_neq in Hother. rewrite Hother.
    now rewrite app_nil_r.
Qed.

Lemma app_totals_of_ext (db db' : DB) (invoice_id : Z) :
  invoice_lines db' = invoice_lines db ->
  payments db' = payments db ->
  app_totals_of db' invoice_id = app_totals_of db invoice_id.
Proof.
  intros Hl Hp. unfold app_totals_of, select_invoice_lines, select_payments.
  now rewrite Hl, Hp.
Qed.

(** What [update_invoice_status] does to a session. *)
Lemma update_invoice_status_run (invoice_id : Z) (s : Session) :
  App.update_invoice_status invoice_id s
  = match get_invoice invoice_id (working s) with
    | None => Returned tt s
    | Some inv =>
        let db' :=
          update_invoice
            (Invoice.set_status inv
               (App.derive_status (app_totals_of (working s) invoice_id)))
            (working s) in
        Returned tt (mkSession db' db')
    end.
Proof.
  unfold App.update_invoice_status, bind at 1, exec at 1.
  destruct (get_invoice invoice_id (working s)); reflexivity.
Qed.

(** The status that [update_invoice_status] stores is the one the rule
    derives from the totals of the database it leaves. *)
Lemma update_invoice_rederived (invoice_id : Z) (inv : Invoice.t) (db : DB) :
  get_invoice invoice_id db = Some inv ->
  let db' :=
    update_invoice
      (Invoice.set_status inv
         (App.derive_status (app_totals_of db invoice_id))) db in
  get_invoice invoice_id db'
  = Some (Invoice.set_status inv
            (App.derive_status (app_totals_of db' invoice_id))).
Proof.
  intros Hinv db'.
  assert (Hid : Invoice.id inv = invoice_id).
  { unfold get_invoice in Hinv. apply find_some in Hinv.
    destruct Hinv as [_ Heq]. now apply Z.eqb_eq in Heq. }
  rewrite (app_totals_of_ext db db')
    by (unfold db', update_invoice; destruct db; reflexivity).
  unfold db', get_invoice, update_invoice. destruct db.
  cbn [invoices set_invoices] in *.
  apply (find_map_update Invoice.id invoice_id _ inv); [exact Hid|exact Hinv].
Qed.

(** X17. [payments_create] of the earlier flow accepts every payment.  When
    the invoice exists, the status it leaves stored is the one that the
    rule of [update_invoice_status] derives from the totals of the stored
    database, the new payment included; when it does not, the payment is
    stored all the same and no invoice changes. *)
Theorem payments_create_status_follows_totals :
  forall (party_id invoice_id : Z) (amount : float) (db : DB),
  exists db',
    App.payments_create party_id invoice_id amount db = (inr tt, db')
    /\ payments db'
       = (payments db ++
            [Payment.Build (next_id (map Payment.id (payments db))) party_id
                           (Some invoice_id) amount])%list
    /\ match get_invoice invoice_id db with
       | Some inv =>
           get_invoice invoice_id db'
           = Some (Invoice.set_status inv
                     (App.derive_status (app_totals_of db' invoice_id)))
       | None => invoices db' = invoices db
       end.
Proof.
  intros party_id invoice_id amount db.
  unfold App.payments_create, with_session.
  unfold bind at 1, add_payment_row at 1, bind at 1, exec at 1, write at 1.
  unfold bind at 1, commit at 1. cbn [committed working].
  rewrite update_invoice_status_run. cbn [working].
  set (db1 := set_payments db _).
  assert (Hget : get_invoice invoice_id db1 = get_invoice invoice_id db)
    by (unfold db1; destruct db; reflexivity).
  rewrite Hget.
  destruct (get_invoice invoice_id db) as [inv|] eqn:Hinv.
  - cbv zeta. eexists. split; [reflexivity|]. cbn [committed]. split.
    + unfold update_invoice, db1. destruct db; reflexivity.
    + apply (update_invoice_rederived _ _ _ Hget).
  - eexists. split; [reflexivity|]. cbn [committed].
    split; unfold db1; destruct db; reflexivity.
Qed.

(** X18. [invoice_add_line] of the earlier flow, for an invoice that exists
    and a quantity that the warehouse of the invoice has on hand, stores
    the line, takes the quantity from that warehouse and item and from no
    other, and leaves stored the status that the rule derives from the
    totals of the stored database. *)
Theorem invoice_add_line_effect :
  forall (invoice_id item_id qty : Z) (rate gst_percent : float) (db : DB)
         (inv : Invoice.t),
    get_invoice invoice_id db = Some inv ->
    qty <= qty_at (Invoice.warehouse_id inv) item_id db ->
    exists db',
      App.invoice_add_line invoice_id item_id qty rate gst_percent db
      = (inr tt, db')
      /\ invoice_lines db'
         = (invoice_lines db ++
              [InvoiceLine.Build (next_id (map InvoiceLine.id (invoice_lines db)))
                                 invoice_id item_id qty rate gst_percent f0])%list
      /\ get_invoice invoice_id db'
         = Some (Invoice.set_status inv
                   (App.derive_status (app_totals_of db' invoice_id)))
      /\ (stock_ids_unique db = true ->
          forall wh it,
            qty_at wh it db'
            = qty_at wh it db
              - (if ((wh =? Invoice.warehouse_id inv) && (it =? item_id))%bool
                 then qty else 0)).
Proof.
  intros invoice_id item_id qty rate gst_percent db inv Hinv Hqty.
  unfold App.invoice_add_line, with_session, bind at 1, exec at 1.
  cbn [working]. rewrite Hinv.
  erewrite bind_run by apply get_stock_run_at.
  rewrite stock_row_qty.
  apply Z.ltb_ge in Hqty. rewrite Hqty.
  unfold bind at 1, write at 1.
  unfold bind at 1, add_invoice_line at 1, bind at 1, exec at 1, write at 1.
  unfold bind at 1, commit at 1. cbn [committed working].
  rewrite update_invoice_status_run. cbn [working].
  set (wh0 := Invoice.warehouse_id inv).
  set (db0 := with_stock_row wh0 item_id db).
  set (db1 := update_stock _ db0).
  set (db2 := set_invoice_lines db1 _).
  assert (H0 : invoices db0 = invoices db /\ invoice_lines db0 = invoice_lines db).
  { unfold db0, with_stock_row.
    destruct (select_stock wh0 item_id db); [auto|]. destruct db; auto. }
  destruct H0 as [Hinvs0 Hlines0].
  assert (Hinvs2 : invoices db2 = invoices db).
  { rewrite <- Hinvs0. unfold db2, db1, update_stock. destruct db0; reflexivity. }
  assert (Hlines2 : invoice_lines db2
                    = (invoice_lines db ++
                         [InvoiceLine.Build
                            (next_id (map InvoiceLine.id (invoice_lines db)))
                            invoice_id item_id qty rate gst_percent f0])%list).
  { rewrite <- Hlines0. unfold db2, db1, update_stock. destruct db0; reflexivity. }
  assert (Hget : get_invoice invoice_id db2 = Some inv)
    by (unfold get_invoice in *; now rewrite Hinvs2).
  rewrite Hget. cbv zeta. eexists. split; [reflexivity|].
  cbn [committed]. split.
  { rewrite <- Hlines2. unfold update_invoice. destruct db2; reflexivity. }
  split; [apply (update_invoice_rederived _ _ _ Hget)|].
  intros Hu wh it.
  rewrite (qty_at_stocks db1)
    by (unfold update_invoice, db2; destruct db1; reflexivity).
  unfold db1.
  rewrite (qty_at_update_stock wh0 item_id);
    [ | now apply with_stock_row_unique | apply select_stock_with_row ].
  unfold db0. rewrite qty_at_with_stock_row.
  destruct ((wh =? wh0) && (it =? item_id))%bool eqn:Hc; [|lia].
  apply andb_prop in Hc. destruct Hc as [Hw Hi].
  apply Z.eqb_eq in Hw. apply Z.eqb_eq in Hi. now subst wh it.
Qed.

Lemma invoice_add_line_effect_witness :
  get_invoice 1 counter_sale_db
  = Some (Invoice.Build 1 "INV-202501-0001" 1 1 1 738990 None INV_OPEN)
  /\ 2 <= qty_at 1 1 counter_sale_db
  /\ exists db',
       App.invoice_add_line 1 1 2 (of_Z 100) f0 counter_sale_db = (inr tt, db')
       /\ invoice_lines db'
          = (invoice_lines counter_sale_db ++
               [InvoiceLine.Build
                  (next_id (map InvoiceLine.id (invoice_lines counter_sale_db)))
                  1 1 2 (of_Z 100) f0 f0])%list
       /\ get_invoice 1 db'
          = Some (Invoice.set_status
                    (Invoice.Build 1 "INV-202501-0001" 1 1 1 738990 None
                                   INV_OPEN)
                    (App.derive_status (app_totals_of db' 1)))
       /\ (stock_ids_unique counter_sale_db = true ->
           forall wh it,
             qty_at wh it db'
             = qty_at wh it counter_sale_db
               - (if ((wh =? Invoice.warehouse_id
                               (Invoice.Build 1 "INV-202501-0001" 1 1 1 738990
                                              None INV_OPEN))
                      && (it =? 1))%bool
                  then 2 else 0)).
Proof.
  split; [reflexivity|]. split; [vm_compute; discriminate|].
  apply (invoice_add_line_effect 1 1 2 (of_Z 100) f0 counter_sale_db);
    [reflexivity|vm_compute; discriminate].
Defined.

(* ===================================================================== *)
(** * Returns *)
(* ===================================================================== *)

(** A loop whose turns always return ends in the state that the turns
    compute one after the other. *)
Lemma for_each_total {A} (body : A -> M unit) (step : DB -> A -> DB) :
  (forall x s, exists s',
      body x s = Returned tt s' /\ working s' = step (working s) x) ->
  forall xs s, exists s',
    for_each xs body s = Returned tt s'
    /\ working s' = fold_left step xs (working s).
Proof.
  intros Hbody xs.
  induction xs as [|x xs IH]; intros s.
  - exists s. split; reflexivity.
  - destruct (Hbody x s) as (s1 & Hx & Hw1).
    destruct (IH s1) as (s2 & Hxs & Hw2).
    exists s2. cbn [for_each fold_left]. erewrite bind_run by exact Hx.
    split; [exact Hxs|]. now rewrite Hw2, Hw1.
Qed.

(** What a request to [returns_post] answers and stores. *)
Lemma returns_post_eq (rn_id : Z) (db : DB) :
  returns_post rn_id db
  = match get_return_note rn_id db with
    | None => (inl (HTTP 400 ReturnNoteNotOpen), db)
    | Some rn =>
        if negb (RNStatus_eqb (ReturnNote.status rn) RN_OPEN)
        then (inl (HTTP 400 ReturnNoteNotOpen), db)
        else (inr tt,
              update_return_note (ReturnNote.set_status rn RN_POSTED)
                (restock_lines (ReturnNote.warehouse_id rn)
                               (select_return_lines rn_id db) db))
    end.
Proof.
  unfold returns_post, with_session, bind at 1, exec at 1. cbn [working].
  destruct (get_return_note rn_id db) as [rn|]; [|reflexivity].
  destruct (negb (RNStatus_eqb (ReturnNote.status rn) RN_OPEN)); [reflexivity|].
  unfold bind at 1, exec at 1. cbn [working]. unfold bind at 1.
  match goal with
  | |- context [for_each ?xs ?body ?s] =>
      assert (Hbody : forall x s0, exists s',
                 body x s0 = Returned tt s'
                 /\ working s'
                    = restock_line (ReturnNote.warehouse_id rn) (working s0) x);
      [ | destruct (for_each_total body _ Hbody xs s) as (s2 & Hloop & Hw) ]
  end.
  - intros ln s. erewrite bind_run by apply get_stock_run.
    unfold write. eexists. split; [reflexivity|].
    cbn [working]. now rewrite get_stock_working.
  - rewrite Hloop. unfold bind, write, commit. cbn [committed working] in *.
    now rewrite Hw.
Qed.

Lemma returned_qty_cons (item_id : Z) (ln : ReturnLine.t)
    (lines : list ReturnLine.t) :
  returned_qty item_id (ln :: lines)
  = (if ReturnLine.item_id ln =? item_id then ReturnLine.qty ln else 0)
    + returned_qty item_id lines.
Proof.
  unfold returned_qty. cbn [filter].
  destruct (ReturnLine.item_id ln =? item_id); reflexivity.
Qed.

Lemma restock_lines_stock (warehouse_id : Z) (lines : list ReturnLine.t) :
  forall db,
    stock_ids_unique db = true ->
    stock_ids_unique (restock_lines warehouse_id lines db) = true
    /\ forall wh it,
         qty_at wh it (restock_lines warehouse_id lines db)
         = qty_at wh it db
           + (if wh =? warehouse_id then returned_qty it lines else 0).
Proof.
  unfold restock_lines.
  induction lines as [|ln lines IH]; intros db Hu.
  - split; [exact Hu|]. intros wh it. cbn [fold_left].
    unfold returned_qty. cbn. destruct (wh =? warehouse_id); lia.
  - cbn [fold_left].
    set (item_id := ReturnLine.item_id ln).
    assert (Hu1 : stock_ids_unique (restock_line warehouse_id db ln) = true).
    { unfold stock_ids_unique, restock_line. rewrite update_stock_ids.
      now apply with_stock_row_unique. }
    destruct (IH _ Hu1) as [Hu2 Hq2]. split; [exact Hu2|].
    intros wh it. rewrite Hq2, returned_qty_cons. unfold restock_line.
    rewrite (qty_at_update_stock warehouse_id item_id);
      [ | now apply with_stock_row_unique | apply select_stock_with_row ].
    rewrite qty_at_with_stock_row, stock_row_qty. fold item_id.
    rewrite (Z.eqb_sym item_id it).
    destruct (wh =? warehouse_id) eqn:Hw; cbn [andb];
      destruct (it =? item_id) eqn:Hi; try lia.
    apply Z.eqb_eq in Hw. apply Z.eqb_eq in Hi. subst wh it. lia.
Qed.

Lemma restock_lines_notes (warehouse_id : Z) (lines : list ReturnLine.t) :
  forall db,
    return_notes (restock_lines warehouse_id lines db) = return_notes db
    /\ return_lines (restock_lines warehouse_id lines db) = return_lines db.
Proof.
  unfold restock_lines.
  induction lines as [|ln lines IH]; intros db; [split; reflexivity|].
  cbn [fold_left]. destruct (IH (restock_line warehouse_id db ln)) as [Hn Hl].
  rewrite Hn, Hl. unfold restock_line, with_stock_row, update_stock.
  destruct (select_stock warehouse_id (ReturnLine.item_id ln) db);
    destruct db; split; reflexivity.
Qed.

(** X19. With one stock row per key, posting an open return note adds to
    the note's warehouse, for every item, exactly the quantity its lines
    carry, and leaves the quantities of every other warehouse as they
    were. *)
Theorem returns_post_restocks :
  forall (rn_id : Z) (db : DB) (rn : ReturnNote.t),
    get_return_note rn_id db = Some rn ->
    ReturnNote.status rn = RN_OPEN ->
    stock_ids_unique db = true ->
    fst (returns_post rn_id db) = inr tt
    /\ stock_ids_unique (snd (returns_post rn_id db)) = true
    /\ forall wh it,
         qty_at wh it (snd (returns_post rn_id db))
         = qty_at wh it db
           + (if wh =? ReturnNote.warehouse_id rn
              then returned_qty it (select_return_lines rn_id db) else 0).
Proof.
  intros rn_id db rn Hrn Hopen Hu.
  rewrite returns_post_eq, Hrn, Hopen. cbn [RNStatus_eqb negb fst snd].
  split; [reflexivity|].
  destruct (restock_lines_stock (ReturnNote.warehouse_id rn)
              (select_return_lines rn_id db) db Hu) as [Hu2 Hq].
  split.
  - unfold stock_ids_unique, update_return_note in *.
    destruct (restock_lines _ _ db); exact Hu2.
  - intros wh it. rewrite <- Hq. apply qty_at_stocks.
    unfold update_return_note. destruct (restock_lines _ _ db); reflexivity.
Qed.

Lemma returns_post_restocks_witness :
  get_return_note 1 return_lines_db
  = Some (ReturnNote.Build 1 "RN-202501-0001" 1 1 RN_OPEN)
  /\ ReturnNote.status (ReturnNote.Build 1 "RN-202501-0001" 1 1 RN_OPEN)
     = RN_OPEN
  /\ stock_ids_unique return_lines_db = true
  /\ fst (returns_post 1 return_lines_db) = inr tt
  /\ stock_ids_unique (snd (returns_post 1 return_lines_db)) = true
  /\ forall wh it,
       qty_at wh it (snd (returns_post 1 return_lines_db))
       = qty_at wh it return_lines_db
         + (if wh =? ReturnNote.warehouse_id
                       (ReturnNote.Build 1 "RN-202501-0001" 1 1 RN_OPEN)
            then returned_qty it (select_return_lines 1 return_lines_db)
            else 0).
Proof.
  split; [reflexivity|]. split; [reflexivity|]. split; [reflexivity|].
  apply (returns_post_restocks 1 return_lines_db); reflexivity.
Defined.

(** X20. A return note is posted once: after [returns_post] has accepted
    it, a second [returns_post] and every [returns_add_line] on the same
    note are refused with 400 and store nothing. *)
Theorem returns_post_is_one_shot :
  forall (rn_id : Z) (db db' : DB),
    returns_post rn_id db = (inr tt, db') ->
    returns_post rn_id db' = (inl (HTTP 400 ReturnNoteNotOpen), db')
    /\ forall item_id qty,
         returns_add_line rn_id item_id qty db'
         = (inl (HTTP 400 ReturnNoteNotOpen), db').
Proof.
  intros rn_id db db'. rewrite returns_post_eq.
  destruct (get_return_note rn_id db) as [rn|] eqn:Hrn; [|discriminate].
  destruct (negb (RNStatus_eqb (ReturnNote.status rn) RN_OPEN));
    [discriminate|].
  intros Hrun. injection Hrun as <-.
  assert (Hid : ReturnNote.id rn = rn_id).
  { unfold get_return_note in Hrn. apply find_some in Hrn.
    destruct Hrn as [_ Heq]. now apply Z.eqb_eq in Heq. }
  set (db2 := restock_lines _ _ db).
  assert (Hposted : get_return_note rn_id
                      (update_return_note
                         (ReturnNote.set_status rn RN_POSTED) db2)
                    = Some (ReturnNote.set_status rn RN_POSTED)).
  { unfold get_return_note, update_return_note.
    assert (Hn : return_notes db2 = return_notes db)
      by apply restock_lines_notes.
    destruct db2; cbn [return_notes set_return_notes] in *. rewrite Hn.
    apply (find_map_update ReturnNote.id rn_id _ rn); [exact Hid|exact Hrn]. }
  split.
  - rewrite returns_post_eq, Hposted. reflexivity.
  - intros item_id qty.
    unfold returns_add_line, with_session, bind at 1, exec at 1.
    cbn [working]. rewrite Hposted. reflexivity.
Qed.

Lemma returns_post_is_one_shot_witness :
  returns_post 1 return_lines_db = (inr tt, snd (returns_post 1 return_lines_db))
  /\ returns_post 1 (snd (returns_post 1 return_lines_db))
     = (inl (HTTP 400 ReturnNoteNotOpen), snd (returns_post 1 return_lines_db))
  /\ forall item_id qty,
       returns_add_line 1 item_id qty (snd (returns_post 1 return_lines_db))
       = (inl (HTTP 400 ReturnNoteNotOpen),
          snd (returns_post 1 return_lines_db)).
Proof.
  split; [reflexivity|].
  apply (returns_post_is_one_shot 1 return_lines_db). reflexivity.
Defined.

(* ===================================================================== *)
(** * Document numbers read back *)
(* ===================================================================== *)

Section Numerals.

Local Open Scope string_scope.




























End Numerals.

Section Numbering.

Local Open Scope string_scope.

Lemma prefix_append (p s : string) : String.prefix p (p ++ s) = true.
Proof.
  induction p as [|c p IH]; [now destruct s|].
  cbn [append String.prefix]. destruct (ascii_dec c c); [exact IH|congruence].
Qed.

(** A stored number made of the period prefix and a numeral is among the
    numbers that [next_no] keeps. *)
Lemma kept_of_member (p sfx : string) (n : Z) (existing : list string) :
  In (p ++ sfx) existing ->
  py_int sfx = Some n ->
  In n (kept_suffixes p existing).
Proof.
  intros Hin Hn. unfold kept_suffixes. apply in_flat_map.
  exists (p ++ sfx). split; [exact Hin|].
  unfold startswith. rewrite prefix_append.
  rewrite string_drop_append by reflexivity. rewrite Hn. now left.
Qed.




Lemma numbering_db_issued :
  Forall (issued "INV" (String.length (yyyymm sample_clock)))
         (existing_numbers "INV" numbering_db).
Proof.
  repeat constructor.
  - exists "202412", 7. repeat split. lia.
  - exists "202501", 1. repeat split. lia.
  - exists "202501", 3. repeat split. lia.
Qed.




End Numbering.

(* ===================================================================== *)
(** * A return from its creation to its posting *)
(* ===================================================================== *)

Lemma returns_create_eq (clock : Clock) (party_id warehouse_id : Z) (db : DB) :
  returns_create clock party_id warehouse_id db
  = (inr (next_id (map ReturnNote.id (return_notes db))),
     set_return_notes db
       (return_notes db ++
          [ReturnNote.Build (next_id (map ReturnNote.id (return_notes db)))
                            (next_number clock "RN" db) party_id warehouse_id
                            RN_OPEN])).
Proof. reflexivity. Qed.

Lemma returns_add_line_eq (rn_id item_id qty : Z) (db : DB) (rn : ReturnNote.t) :
  get_return_note rn_id db = Some rn ->
  ReturnNote.status rn = RN_OPEN ->
  returns_add_line rn_id item_id qty db
  = (inr tt,
     set_return_lines db
       (return_lines db ++
          [ReturnLine.Build (next_id (map ReturnLine.id (return_lines db)))
                            rn_id item_id qty])).
Proof.
  intros Hrn Hopen.
  unfold returns_add_line, with_session, bind at 1, exec at 1.
  cbn [working]. rewrite Hrn, Hopen. reflexivity.
Qed.

(** X23. On a database with one stock row per key whose return lines
    honour their foreign key, a return note that is created, given one
    line and posted is accepted at each step, and the three requests
    together add the quantity of the line to the stock of its item in the
    warehouse of the note and change no other quantity. *)
Theorem return_of_one_line_restocks :
  forall (clock : Clock) (party_id warehouse_id item_id qty : Z) (db : DB),
    return_lines_linked db = true ->
    stock_ids_unique db = true ->
    exists rn_id db1 db2 db3,
      returns_create clock party_id warehouse_id db = (inr rn_id, db1)
      /\ returns_add_line rn_id item_id qty db1 = (inr tt, db2)
      /\ returns_post rn_id db2 = (inr tt, db3)
      /\ forall wh it,
           qty_at wh it db3
           = qty_at wh it db
             + (if ((wh =? warehouse_id) && (it =? item_id))%bool
                then qty else 0).
Proof.
  intros clock party_id warehouse_id item_id qty db Hlinked Hu.
  set (rn_id := next_id (map ReturnNote.id (return_notes db))).
  set (rn := ReturnNote.Build rn_id (next_number clock "RN" db) party_id
                              warehouse_id RN_OPEN).
  set (db1 := set_return_notes db (return_notes db ++ [rn])).
  set (ln := ReturnLine.Build (next_id (map ReturnLine.id (return_lines db)))
                              rn_id item_id qty).
  set (db2 := set_return_lines db1 (return_lines db1 ++ [ln])).
  assert (Hrn1 : get_return_note rn_id db1 = Some rn).
  { unfold get_return_note, db1. destruct db; cbn [return_notes set_return_notes].
    rewrite find_app_none by apply (find_key_next ReturnNote.id).
    cbn [ReturnNote.id rn]. now rewrite Z.eqb_refl. }
  assert (Hrn2 : get_return_note rn_id db2 = Some rn)
    by (rewrite <- Hrn1; unfold db2; destruct db1; reflexivity).
  assert (Hlines : select_return_lines rn_id db2 = [ln]).
  { unfold select_return_lines, db2, db1.
    destruct db; cbn [return_lines return_notes set_return_lines
                      set_return_notes] in *.
    rewrite filter_app. cbn [filter ReturnLine.return_id ln].
    rewrite Z.eqb_refl. rewrite filter_none; [reflexivity|].
    unfold return_lines_linked in Hlinked. rewrite forallb_forall in Hlinked.
    intros l Hl. apply linked_not_next. exact (Hlinked l Hl). }
  exists rn_id, db1, db2,
    (update_return_note (ReturnNote.set_status rn RN_POSTED)
       (restock_lines warehouse_id [ln] db2)).
  split; [apply returns_create_eq|].
  split; [apply (returns_add_line_eq _ _ _ _ rn Hrn1); reflexivity|].
  split; [rewrite returns_post_eq, Hrn2, Hlines; reflexivity|].
  intros wh it.
  assert (Hu2 : stock_ids_unique db2 = true)
    by (rewrite <- Hu; unfold stock_ids_unique, db2, db1; destruct db;
        reflexivity).
  destruct (restock_lines_stock warehouse_id [ln] db2 Hu2) as [_ Hq].
  rewrite (qty_at_stocks (restock_lines warehouse_id [ln] db2))
    by (unfold update_return_note; destruct (restock_lines _ _ db2);
        reflexivity).
  rewrite Hq, returned_qty_cons.
  rewrite (qty_at_stocks db db2)
    by (unfold db2, db1; destruct db; reflexivity).
  unfold returned_qty. cbn [filter map fold_right ReturnLine.item_id
                            ReturnLine.qty ln].
  rewrite (Z.eqb_sym item_id it).
  destruct (wh =? warehouse_id); cbn [andb]; destruct (it =? item_id); lia.
Qed.

Lemma return_of_one_line_restocks_witness :
  return_lines_linked return_lines_db = true
  /\ stock_ids_unique return_lines_db = true
  /\ exists rn_id db1 db2 db3,
       returns_create sample_clock 1 1 return_lines_db = (inr rn_id, db1)
       /\ returns_add_line rn_id 1 4 db1 = (inr tt, db2)
       /\ returns_post rn_id db2 = (inr tt, db3)
       /\ forall wh it,
            qty_at wh it db3
            = qty_at wh it return_lines_db
              + (if ((wh =? 1) && (it =? 1))%bool then 4 else 0).
Proof.
  split; [reflexivity|]. split; [reflexivity|].
  apply (return_of_one_line_restocks sample_clock 1 1 1 4 return_lines_db);
    reflexivity.
Defined.

(* ===================================================================== *)
(** * Overdue amounts *)
(* ===================================================================== *)

Lemma round2_zero : round2 f0 = f0.
Proof. vm_compute. reflexivity. Qed.

Lemma summary_nothing_due (clock : Clock) (party : Party.t) (db : DB)
    (invs : list Invoice.t) :
  forallb (fun iv =>
             (Party.payment_terms_days party <=? 0)
             || (today clock
                 <=? Invoice.invoice_date iv + Party.payment_terms_days party))
          invs = true ->
  forall acc,
    snd (fold_left (summary_step clock party db) invs acc) = snd acc.
Proof.
  induction invs as [|iv invs IH]; intros Hall acc; [reflexivity|].
  cbn [forallb] in Hall. apply andb_prop in Hall. destruct Hall as [Hiv Hall].
  cbn [fold_left]. rewrite (IH Hall). unfold summary_step.
  destruct (fle _ f0); [reflexivity|].
  destruct (Party.payment_terms_days party >? 0) eqn:Hterms; [|reflexivity].
  destruct (today clock >? _) eqn:Hdue; [|reflexivity].
  apply orb_prop in Hiv. apply Z.gtb_lt in Hterms. apply Z.gtb_lt in Hdue.
  destruct Hiv as [H|H]; apply Z.leb_le in H; lia.
Qed.

(** X24. [calc_party_summary] reports an overdue amount of 0 for a party
    none of whose invoices is past its due date, and so for every party
    whose payment terms are 0 days or fewer, whatever it owes. *)
Theorem nothing_overdue_before_due_date :
  forall (clock : Clock) (party : Party.t) (s : Session),
    forallb (fun iv =>
               (Party.payment_terms_days party <=? 0)
               || (today clock
                   <=? Invoice.invoice_date iv + Party.payment_terms_days party))
            (select_party_invoices (Party.id party) (working s)) = true ->
    exists summary,
      calc_party_summary clock party s = Returned summary s
      /\ overdue summary = f0.
Proof.
  intros clock party s Hall. rewrite calc_party_summary_run.
  eexists. split; [reflexivity|].
  unfold party_summary. cbn [overdue].
  rewrite (summary_nothing_due clock party (working s) _ Hall).
  apply round2_zero.
Qed.

Lemma nothing_overdue_before_due_date_witness :
  forallb (fun iv =>
             (Party.payment_terms_days (Party.Build 1 None (of_Z 1000) 0 false)
              <=? 0)
             || (today sample_clock
                 <=? Invoice.invoice_date iv
                     + Party.payment_terms_days
                         (Party.Build 1 None (of_Z 1000) 0 false)))
          (select_party_invoices
             (Party.id (Party.Build 1 None (of_Z 1000) 0 false))
             (working (mkSession credit_db credit_db))) = true
  /\ exists summary,
       calc_party_summary sample_clock (Party.Build 1 None (of_Z 1000) 0 false)
                          (mkSession credit_db credit_db)
       = Returned summary (mkSession credit_db credit_db)
       /\ overdue summary = f0.
Proof.
  split; [reflexivity|].
  apply (nothing_overdue_before_due_date sample_clock
           (Party.Build 1 None (of_Z 1000) 0 false)
           (mkSession credit_db credit_db)).
  reflexivity.
Defined.

(* ===================================================================== *)
(** * Price slabs *)
(* ===================================================================== *)

Lemma find_update_same_key {A} (f : A -> bool) (key : A -> Z) (new old : A)
    (l : list A) :
  find f l = Some old ->
  key new = key old ->
  f new = true ->
  find f (map (fun r => if key r =? key new then new else r) l) = Some new.
Proof.
  intros Hf Hkey Hnew.
  induction l as [|r l IH]; [discriminate|].
  cbn [map find] in *. destruct (f r) eqn:Hr.
  - injection Hf as ->. rewrite Hkey, Z.eqb_refl. now rewrite Hnew.
  - destruct (key r =? key new).
    + now rewrite Hnew.
    + rewrite Hr. now apply IH.
Qed.

Lemma map_update_twice {A} (key : A -> Z) (x y : A) (l : list A) :
  key y = key x ->
  map (fun r => if key r =? key y then y else r)
      (map (fun r => if key r =? key x then x else r) l)
  = map (fun r => if key r =? key y then y else r) l.
Proof.
  intros Hkey. rewrite map_map. apply map_ext. intros r. rewrite Hkey.
  destruct (key r =? key x) eqn:E; [|now rewrite E].
  now rewrite Z.eqb_refl.
Qed.

(** What a request to [set_party_price] answers and stores. *)
Lemma set_party_price_eq (party_id item_id : Z) (discount_percent : float)
    (db : DB) :
  set_party_price party_id item_id discount_percent db
  = (inr tt,
     match select_party_price party_id item_id db with
     | Some pp => update_party_price (with_discount pp discount_percent) db
     | None =>
         set_party_prices db
           (party_prices db ++
              [stored_slab party_id item_id discount_percent db])
     end).
Proof.
  unfold set_party_price, stored_slab, with_session, bind at 1, exec at 1.
  cbn [working].
  destruct (select_party_price party_id item_id db); reflexivity.
Qed.

Lemma select_after_set_party_price (party_id item_id : Z)
    (discount_percent : float) (db : DB) :
  select_party_price party_id item_id
    (snd (set_party_price party_id item_id discount_percent db))
  = Some (stored_slab party_id item_id discount_percent db).
Proof.
  rewrite set_party_price_eq. cbn [snd]. unfold stored_slab.
  destruct (select_party_price party_id item_id db) as [pp|] eqn:Hsel.
  - unfold select_party_price, update_party_price in *.
    destruct db; cbn [party_prices set_party_prices] in *.
    apply (find_update_same_key _ PartyPrice.id _ pp);
      [exact Hsel|reflexivity|].
    apply find_some in Hsel. destruct Hsel as [_ Hkey]. exact Hkey.
  - unfold select_party_price in *.
    destruct db; cbn [party_prices set_party_prices] in *.
    rewrite find_app_none by exact Hsel.
    cbn [PartyPrice.party_id PartyPrice.item_id]. now rewrite !Z.eqb_refl.
Qed.

Lemma stored_slab_discount (party_id item_id : Z) (discount_percent : float)
    (db : DB) :
  PartyPrice.discount_percent
    (stored_slab party_id item_id discount_percent db)
  = discount_percent.
Proof.
  unfold stored_slab.
  destruct (select_party_price party_id item_id db); reflexivity.
Qed.

(** X25. After [set_party_price] for a party and an item, whether it added
    the slab or overwrote one, [apply_party_price] answers for that party
    and item with the discount just set, clamped to [0, 100], and with the
    list price reduced by it and rounded to 2 decimals. *)
Theorem set_party_price_then_apply :
  forall (party_id : Z) (item : Item.t) (discount_percent : float) (db : DB),
    fst (set_party_price party_id (Item.id item) discount_percent db) = inr tt
    /\ apply_party_price party_id item
         (mkSession
            (snd (set_party_price party_id (Item.id item) discount_percent db))
            (snd (set_party_price party_id (Item.id item) discount_percent db)))
       = Returned
           (round2 (fmul (Item.sale_price item)
                      (fsub f1
                         (fdiv (py_max f0 (py_min f100 discount_percent))
                               f100))),
            py_max f0 (py_min f100 discount_percent))
           (mkSession
              (snd (set_party_price party_id (Item.id item) discount_percent db))
              (snd (set_party_price party_id (Item.id item) discount_percent
                      db))).
Proof.
  intros party_id item discount_percent db.
  split; [now rewrite set_party_price_eq|].
  rewrite apply_party_price_run. cbn [working]. unfold resolve_price.
  rewrite select_after_set_party_price, stored_slab_discount. reflexivity.
Qed.

(** X26. Of two [set_party_price] requests for the same party and item the
    later one wins: the stored database is the one that the later request
    alone would have left, with no second slab for the pair. *)
Theorem set_party_price_last_write_wins :
  forall (party_id item_id : Z) (d1 d2 : float) (db : DB),
    snd (set_party_price party_id item_id d2
           (snd (set_party_price party_id item_id d1 db)))
    = snd (set_party_price party_id item_id d2 db).
Proof.
  intros party_id item_id d1 d2 db.
  rewrite (set_party_price_eq party_id item_id d2
             (snd (set_party_price party_id item_id d1 db))).
  rewrite select_after_set_party_price. cbn [snd].
  rewrite !set_party_price_eq. cbn [snd]. unfold stored_slab.
  destruct (select_party_price party_id item_id db) as [pp|].
  - unfold update_party_price, with_discount, set_party_prices.
    destruct db.
    cbn [party_prices items parties stocks sales_orders sales_order_lines
         challans challan_lines invoices invoice_lines payments return_notes
         return_lines PartyPrice.id PartyPrice.party_id PartyPrice.item_id].
    f_equal.
    apply (map_update_twice PartyPrice.id
             (PartyPrice.Build (PartyPrice.id pp) (PartyPrice.party_id pp)
                               (PartyPrice.item_id pp) d1)
             (PartyPrice.Build (PartyPrice.id pp) (PartyPrice.party_id pp)
                               (PartyPrice.item_id pp) d2)).
    reflexivity.
  - unfold update_party_price, with_discount, set_party_prices.
    destruct db.
    cbn [party_prices items parties stocks sales_orders sales_order_lines
         challans challan_lines invoices invoice_lines payments return_notes
         return_lines PartyPrice.id PartyPrice.party_id PartyPrice.item_id].
    f_equal. rewrite map_app. cbn [map PartyPrice.id].
    rewrite Z.eqb_refl. f_equal.
    apply (update_absent PartyPrice.id
             (PartyPrice.Build (next_id (map PartyPrice.id party_prices0))
                               party_id item_id d2)).
    cbn [PartyPrice.id].
    destruct (existsb _ _) eqn:Hex; [|reflexivity].
    apply existsb_exists in Hex. destruct Hex as (i & Hi & Heq).
    apply Z.eqb_eq in Heq. subst i. apply next_id_fresh in Hi. lia.
Qed.

(* ===================================================================== *)
(** * A sales order from its creation to its dispatch *)
(* ===================================================================== *)

Lemma so_create_eq (clock : Clock) (party_id warehouse_id : Z) (db : DB) :
  so_create clock party_id warehouse_id db
  = (inr (next_id (map SalesOrder.id (sales_orders db))),
     set_sales_orders db
       (sales_orders db ++
          [SalesOrder.Build (next_id (map SalesOrder.id (sales_orders db)))
                            (next_number clock "SO" db) party_id warehouse_id
                            SO_OPEN])).
Proof. reflexivity. Qed.

Lemma so_add_line_eq (so_id item_id qty : Z) (db : DB) :
  so_add_line so_id item_id qty db
  = match get_sales_order so_id db with
    | None => (inl (HTTP 404 SONotFound), db)
    | Some so =>
        match get_item item_id db with
        | None => (inr (inl AttributeError), db)
        | Some item =>
            (inr (inr tt),
             set_sales_order_lines db
               (sales_order_lines db ++
                  [SalesOrderLine.Build
                     (next_id (map SalesOrderLine.id (sales_order_lines db)))
                     so_id item_id qty
                     (fst (resolve_price db (SalesOrder.party_id so) item))
                     (Item.gst_percent item)
                     (snd (resolve_price db (SalesOrder.party_id so) item))]))
        end
    end.
Proof.
  unfold so_add_line, with_session, bind at 1, exec at 1. cbn [working].
  destruct (get_sales_order so_id db) as [so|]; [|reflexivity].
  unfold bind at 1, exec at 1. cbn [working].
  destruct (get_item item_id db) as [item|]; [|reflexivity].
  unfold bind at 1. rewrite apply_party_price_run. reflexivity.
Qed.

Lemma so_approve_eq (so_id : Z) (db : DB) :
  so_approve so_id db
  = match get_sales_order so_id db with
    | None => (inl (HTTP 404 SONotFound), db)
    | Some so =>
        (inr tt,
         update_sales_order (SalesOrder.set_status so SO_APPROVED) db)
    end.
Proof.
  unfold so_approve, with_session, bind at 1, exec at 1. cbn [working].
  destruct (get_sales_order so_id db); reflexivity.
Qed.

Lemma select_stock_ext (db db' : DB) :
  stocks db' = stocks db ->
  forall wh it, select_stock wh it db' = select_stock wh it db.
Proof. intros H wh it. unfold select_stock. now rewrite H. Qed.

Lemma take_stock_ext (warehouse_id : Z) (db db' : DB) (ln : SalesOrderLine.t) :
  stocks db' = stocks db ->
  stocks (take_stock warehouse_id db' ln)
  = stocks (take_stock warehouse_id db ln).
Proof.
  intros H. unfold take_stock, stock_row, with_stock_row, update_stock.
  rewrite (select_stock_ext db db' H), H.
  destruct (select_stock warehouse_id (SalesOrderLine.item_id ln) db);
    destruct db, db'; cbn [stocks set_stocks] in *; now rewrite H.
Qed.

Lemma sufficient_ext (warehouse_id : Z) (lines : list SalesOrderLine.t) :
  forall db db',
    stocks db' = stocks db ->
    sufficient warehouse_id lines db' = sufficient warehouse_id lines db.
Proof.
  induction lines as [|ln lines IH]; intros db db' H; [reflexivity|].
  cbn [sufficient]. rewrite (qty_at_stocks db db' H).
  now rewrite (IH _ _ (take_stock_ext warehouse_id db db' ln H)).
Qed.

Lemma dispatch_line_takes_stock (warehouse_id dc_id : Z) (db : DB)
    (ln : SalesOrderLine.t) :
  stocks (dispatch_line warehouse_id dc_id db ln)
  = stocks (take_stock warehouse_id db ln).
Proof.
  unfold dispatch_line, take_stock. cbv zeta.
  destruct (update_stock _ _); reflexivity.
Qed.

(** The loop of [challan_create] returns exactly when every line finds its
    quantity, and is refused for insufficient stock otherwise. *)
Lemma dispatch_loop_cases (so : SalesOrder.t) (dc_id : Z)
    (lines : list SalesOrderLine.t) :
  forall s,
    match
      for_each lines (fun ln =>
        st <- get_stock (SalesOrder.warehouse_id so)
                        (SalesOrderLine.item_id ln) ;;
        if Stock.qty st <? SalesOrderLine.qty ln
        then raise (HTTP 400 (InsufficientStock (SalesOrderLine.item_id ln)
                                                (Stock.qty st)))
        else
          write (update_stock
                   (Stock.set_qty st (Stock.qty st - SalesOrderLine.qty ln))) ;;;
          add_challan_line dc_id (SalesOrderLine.item_id ln)
                           (SalesOrderLine.qty ln)) s
    with
    | Returned _ s' =>
        sufficient (SalesOrder.warehouse_id so) lines (working s) = true
        /\ working s'
           = dispatch_lines (SalesOrder.warehouse_id so) dc_id lines (working s)
    | Raised e _ =>
        sufficient (SalesOrder.warehouse_id so) lines (working s) = false
        /\ exists item_id available,
             e = HTTP 400 (InsufficientStock item_id available)
    end.
Proof.
  induction lines as [|ln lines IH]; intros s; [split; reflexivity|].
  cbn [for_each sufficient]. unfold bind at 1.
  erewrite bind_run by apply get_stock_run.
  rewrite stock_row_qty, Z.ltb_antisym.
  destruct (SalesOrderLine.qty ln
            <=? qty_at (SalesOrder.warehouse_id so)
                       (SalesOrderLine.item_id ln) (working s)).
  - cbn [negb andb].
    unfold bind at 1, write at 1.
    unfold add_challan_line at 1, bind at 1, exec at 1, write at 1.
    rewrite <- (sufficient_ext _ _ _ _
                  (dispatch_line_takes_stock (SalesOrder.warehouse_id so)
                     dc_id (working s) ln)).
    match goal with
    | |- context [for_each lines ?body ?s1] =>
        assert (Hd : working s1
                     = dispatch_line (SalesOrder.warehouse_id so) dc_id
                                     (working s) ln)
          by (cbn [working]; rewrite get_stock_working; unfold dispatch_line;
              rewrite stock_row_qty; reflexivity);
        pose proof (IH s1) as IH1; rewrite Hd in IH1; revert IH1;
        destruct (for_each lines body s1) as [[] s2|e s2]; intros IH1;
        exact IH1
    end.
  - cbn [negb andb raise]. split; [reflexivity|]. eauto.
Qed.

Lemma challan_create_cases (clock : Clock) (so_id : Z) (db : DB)
    (so : SalesOrder.t) :
  get_sales_order so_id db = Some so ->
  SalesOrder.status so = SO_APPROVED ->
  match challan_create clock so_id db with
  | (inr _, db') =>
      sufficient (SalesOrder.warehouse_id so) (select_so_lines so_id db) db
      = true
      /\ db' = update_sales_order (SalesOrder.set_status so SO_DISPATCHED)
                 (dispatch_lines (SalesOrder.warehouse_id so)
                    (next_id (map Challan.id (challans db)))
                    (select_so_lines so_id db)
                    (set_challans db
                       (challans db ++
                          [Challan.Build
                             (next_id (map Challan.id (challans db)))
                             (next_number clock "DC" db) so_id DC_OPEN])))
  | (inl e, _) =>
      sufficient (SalesOrder.warehouse_id so) (select_so_lines so_id db) db
      = false
      /\ exists item_id available,
           e = HTTP 400 (InsufficientStock item_id available)
  end.
Proof.
  intros Hso Hstatus.
  unfold challan_create, with_session, bind at 1, exec at 1. cbn [working].
  rewrite Hso, Hstatus. cbn [SOStatus_eqb negb].
  unfold bind at 1. rewrite next_no_run. cbn [working].
  unfold bind at 1, add_challan at 1, bind at 1, exec at 1. cbn [working].
  unfold bind at 1, write at 1. cbn [ret committed working].
  unfold bind at 1, commit at 1. cbn [committed working].
  unfold bind at 1, exec at 1. cbn [working Challan.id].
  unfold bind at 1.
  set (db1 := set_challans db _).
  rewrite <- (sufficient_ext (SalesOrder.warehouse_id so)
                (select_so_lines so_id db) db db1)
    by (unfold db1; destruct db; reflexivity).
  pose proof (dispatch_loop_cases so (next_id (map Challan.id (challans db)))
                (select_so_lines so_id db1) (mkSession db1 db1)) as Hloop.
  cbn [working] in Hloop.
  change (select_so_lines so_id db1) with (select_so_lines so_id db) in *.
  revert Hloop.
  match goal with
  | |- context [for_each ?xs ?body ?s] =>
      destruct (for_each xs body s) as [[] s2|e s2]
  end; intros [Hsuff Hrest].
  - unfold bind, write, commit. cbn [committed working].
    split; [exact Hsuff|now rewrite Hrest].
  - split; [exact Hsuff|exact Hrest].
Qed.

(** X27. For an approved order, [challan_create] is accepted exactly when
    every line of the order, in the order's sequence, finds its quantity
    on hand in the order's warehouse after the lines before it have been
    served; otherwise it is refused with 400 for insufficient stock. *)
Theorem challan_create_accepts_iff_sufficient :
  forall (clock : Clock) (so_id : Z) (db : DB) (so : SalesOrder.t),
    get_sales_order so_id db = Some so ->
    SalesOrder.status so = SO_APPROVED ->
    (sufficient (SalesOrder.warehouse_id so) (select_so_lines so_id db) db
     = true ->
     fst (challan_create clock so_id db) = inr tt)
    /\ (sufficient (SalesOrder.warehouse_id so) (select_so_lines so_id db) db
        = false ->
        exists item_id available,
          fst (challan_create clock so_id db)
          = inl (HTTP 400 (InsufficientStock item_id available))).
Proof.
  intros clock so_id db so Hso Hstatus.
  pose proof (challan_create_cases clock so_id db so Hso Hstatus) as Hcases.
  destruct (challan_create clock so_id db) as [[e|[]] db'];
    destruct Hcases as [Hsuff Hrest]; rewrite Hsuff; cbn [fst].
  - split; [discriminate|]. intros _. destruct Hrest as (i & a & ->). eauto.
  - split; [reflexivity|discriminate].
Qed.

Lemma challan_create_accepts_iff_sufficient_witness :
  get_sales_order 1 two_line_db
  = Some (SalesOrder.Build 1 "SO-202501-0001" 1 1 SO_APPROVED)
  /\ SalesOrder.status (SalesOrder.Build 1 "SO-202501-0001" 1 1 SO_APPROVED)
     = SO_APPROVED
  /\ (sufficient
        (SalesOrder.warehouse_id
           (SalesOrder.Build 1 "SO-202501-0001" 1 1 SO_APPROVED))
        (select_so_lines 1 two_line_db) two_line_db
      = true ->
      fst (challan_create sample_clock 1 two_line_db) = inr tt)
  /\ (sufficient
        (SalesOrder.warehouse_id
           (SalesOrder.Build 1 "SO-202501-0001" 1 1 SO_APPROVED))
        (select_so_lines 1 two_line_db) two_line_db
      = false ->
      exists item_id available,
        fst (challan_create sample_clock 1 two_line_db)
        = inl (HTTP 400 (InsufficientStock item_id available))).
Proof.
  split; [reflexivity|]. split; [reflexivity|].
  apply (challan_create_accepts_iff_sufficient sample_clock 1 two_line_db);
    reflexivity.
Defined.

(** X28. [so_add_line] answers 404 for an unknown order and stores
    nothing.  For a known order, whatever its status, an unknown item makes
    the request end in an [AttributeError] that no handler catches, with
    nothing stored; a known item is stored as a line carrying the rate and
    discount that [apply_party_price] resolves at that moment for the party
    of the order, and the tax rate of the item. *)
Theorem so_add_line_cases :
  forall (so_id item_id qty : Z) (db : DB),
    match get_sales_order so_id db, get_item item_id db with
    | None, _ =>
        so_add_line so_id item_id qty db = (inl (HTTP 404 SONotFound), db)
    | Some _, None =>
        so_add_line so_id item_id qty db = (inr (inl AttributeError), db)
    | Some so, Some item =>
        fst (so_add_line so_id item_id qty db) = inr (inr tt)
        /\ select_so_lines so_id (snd (so_add_line so_id item_id qty db))
           = (select_so_lines so_id db ++
                [SalesOrderLine.Build
                   (next_id (map SalesOrderLine.id (sales_order_lines db)))
                   so_id item_id qty
                   (fst (resolve_price db (SalesOrder.party_id so) item))
                   (Item.gst_percent item)
                   (snd (resolve_price db (SalesOrder.party_id so) item))])%list
        /\ get_sales_order so_id (snd (so_add_line so_id item_id qty db))
           = Some so
    end.
Proof.
  intros so_id item_id qty db. rewrite so_add_line_eq.
  destruct (get_sales_order so_id db) as [so|] eqn:Hso; [|reflexivity].
  destruct (get_item item_id db) as [item|]; [|reflexivity].
  cbn [fst snd]. split; [reflexivity|]. split.
  - unfold select_so_lines. destruct db.
    cbn [sales_order_lines set_sales_order_lines]. rewrite filter_app.
    cbn [filter SalesOrderLine.so_id]. now rewrite Z.eqb_refl.
  - rewrite <- Hso. destruct db; reflexivity.
Qed.

Lemma ordered_qty_one (item_id it qty : Z) (ln : SalesOrderLine.t) :
  SalesOrderLine.item_id ln = item_id ->
  SalesOrderLine.qty ln = qty ->
  ordered_qty it [ln] = if it =? item_id then qty else 0.
Proof.
  intros Hi Hq. rewrite ordered_qty_cons, Hi, Hq, (Z.eqb_sym item_id it).
  unfold ordered_qty. cbn. destruct (it =? item_id); lia.
Qed.

(** X29. On a database with one stock row per key whose order lines honour
    their foreign key, an order that is created cannot be dispatched
    before it is approved; once it has been given one line of an item that
    exists, for a quantity on hand in its warehouse, and has been approved,
    [challan_create] is accepted and the requests together take that
    quantity from the stock of the item in that warehouse and change no
    other quantity. *)
Theorem order_of_one_line_dispatches :
  forall (clock clock' : Clock) (party_id warehouse_id item_id qty : Z)
         (db : DB) (item : Item.t),
    so_lines_linked db = true ->
    stock_ids_unique db = true ->
    get_item item_id db = Some item ->
    qty <= qty_at warehouse_id item_id db ->
    exists so_id db1 db2 db3 db4,
      so_create clock party_id warehouse_id db = (inr so_id, db1)
      /\ challan_create clock' so_id db1 = (inl (HTTP 400 SONotApproved), db1)
      /\ so_add_line so_id item_id qty db1 = (inr (inr tt), db2)
      /\ so_approve so_id db2 = (inr tt, db3)
      /\ challan_create clock' so_id db3 = (inr tt, db4)
      /\ forall wh it,
           qty_at wh it db4
           = qty_at wh it db
             - (if ((wh =? warehouse_id) && (it =? item_id))%bool
                then qty else 0).
Proof.
  intros clock clock' party_id warehouse_id item_id qty db item
         Hlinked Hu Hitem Hqty.
  set (so_id := next_id (map SalesOrder.id (sales_orders db))).
  set (so := SalesOrder.Build so_id (next_number clock "SO" db) party_id
                              warehouse_id SO_OPEN).
  set (db1 := set_sales_orders db (sales_orders db ++ [so])).
  set (ln := SalesOrderLine.Build
               (next_id (map SalesOrderLine.id (sales_order_lines db1)))
               so_id item_id qty
               (fst (resolve_price db1 (SalesOrder.party_id so) item))
               (Item.gst_percent item)
               (snd (resolve_price db1 (SalesOrder.party_id so) item))).
  set (db2 := set_sales_order_lines db1 (sales_order_lines db1 ++ [ln])).
  set (so' := SalesOrder.set_status so SO_APPROVED).
  set (db3 := update_sales_order so' db2).
  assert (Hso1 : get_sales_order so_id db1 = Some so).
  { unfold get_sales_order, db1. destruct db.
    cbn [sales_orders set_sales_orders].
    rewrite find_app_none by apply (find_key_next SalesOrder.id).
    cbn [SalesOrder.id so]. now rewrite Z.eqb_refl. }
  assert (Hitem1 : get_item item_id db1 = Some item)
    by (rewrite <- Hitem; unfold db1; destruct db; reflexivity).
  assert (Hso2 : get_sales_order so_id db2 = Some so)
    by (rewrite <- Hso1; unfold db2; destruct db1; reflexivity).
  assert (Hso3 : get_sales_order so_id db3 = Some so').
  { unfold get_sales_order, db3, update_sales_order in *. destruct db2.
    cbn [sales_orders set_sales_orders] in *.
    apply (find_map_update SalesOrder.id so_id so' so); [reflexivity|exact Hso2]. }
  assert (Hlines3 : select_so_lines so_id db3 = [ln]).
  { unfold select_so_lines, db3, update_sales_order, db2, db1.
    destruct db; cbn [sales_order_lines sales_orders set_sales_order_lines
                      set_sales_orders] in *.
    rewrite filter_app. cbn [filter SalesOrderLine.so_id ln].
    rewrite Z.eqb_refl. rewrite filter_none; [reflexivity|].
    unfold so_lines_linked in Hlinked. rewrite forallb_forall in Hlinked.
    intros l Hl. apply linked_not_next. exact (Hlinked l Hl). }
  assert (Hstocks3 : stocks db3 = stocks db)
    by (unfold db3, update_sales_order, db2, db1; destruct db; reflexivity).
  pose proof (challan_create_cases clock' so_id db3 so' Hso3 eq_refl) as Hcases.
  rewrite Hlines3 in Hcases. cbn [sufficient] in Hcases.
  rewrite (qty_at_stocks db db3 Hstocks3) in Hcases.
  cbn [SalesOrder.warehouse_id so' so SalesOrder.set_status
       SalesOrderLine.item_id SalesOrderLine.qty ln] in Hcases.
  apply Z.leb_le in Hqty. rewrite Hqty in Hcases. cbn [andb] in Hcases.
  destruct (challan_create clock' so_id db3) as [[e|[]] db4] eqn:Hrun;
    destruct Hcases as [Hsuff Hdb4]; [discriminate Hsuff|].
  exists so_id, db1, db2, db3, db4.
  split; [apply so_create_eq|].
  split.
  { apply challan_create_requires_approved. rewrite Hso1. discriminate. }
  split; [rewrite so_add_line_eq, Hso1, Hitem1; reflexivity|].
  split; [rewrite so_approve_eq, Hso2; reflexivity|].
  split; [exact Hrun|].
  intros wh it. subst db4.
  set (db3' := set_challans db3 _).
  assert (Hstocks3' : stocks db3' = stocks db)
    by (rewrite <- Hstocks3; unfold db3'; destruct db3; reflexivity).
  assert (Hu3 : stock_ids_unique db3' = true)
    by (unfold stock_ids_unique; now rewrite Hstocks3').
  destruct (dispatch_lines_stock warehouse_id
              (next_id (map Challan.id (challans db3))) [ln] db3' Hu3)
    as [_ Hq].
  rewrite (qty_at_stocks (dispatch_lines warehouse_id
                            (next_id (map Challan.id (challans db3)))
                            [ln] db3'))
    by (unfold update_sales_order; destruct (dispatch_lines _ _ _ db3');
        reflexivity).
  rewrite Hq, (ordered_qty_one item_id it qty ln) by reflexivity.
  rewrite (qty_at_stocks db db3' Hstocks3').
  destruct (wh =? warehouse_id); cbn [andb]; reflexivity.
Qed.

Lemma order_of_one_line_dispatches_witness :
  so_lines_linked stocked_db = true
  /\ stock_ids_unique stocked_db = true
  /\ get_item 1 stocked_db = Some (Item.Build 1 "BK-1" f0 (of_Z 100))
  /\ 4 <= qty_at 1 1 stocked_db
  /\ exists so_id db1 db2 db3 db4,
       so_create sample_clock 1 1 stocked_db = (inr so_id, db1)
       /\ challan_create sample_clock so_id db1
          = (inl (HTTP 400 SONotApproved), db1)
       /\ so_add_line so_id 1 4 db1 = (inr (inr tt), db2)
       /\ so_approve so_id db2 = (inr tt, db3)
       /\ challan_create sample_clock so_id db3 = (inr tt, db4)
       /\ forall wh it,
            qty_at wh it db4
            = qty_at wh it stocked_db
              - (if ((wh =? 1) && (it =? 1))%bool then 4 else 0).
Proof.
  split; [reflexivity|]. split; [reflexivity|].
  split; [vm_compute; reflexivity|]. split; [vm_compute; discriminate|].
  apply (order_of_one_line_dispatches sample_clock sample_clock 1 1 1 4
           stocked_db (Item.Build 1 "BK-1" f0 (of_Z 100)));
    [reflexivity|reflexivity|vm_compute; reflexivity|vm_compute; discriminate].
Defined.

Lemma dispatch_lines_orders (warehouse_id dc_id : Z)
    (lines : list SalesOrderLine.t) :
  forall db,
    sales_orders (dispatch_lines warehouse_id dc_id lines db) = sales_orders db.
Proof.
  unfold dispatch_lines.
  induction lines as [|ln lines IH]; intros db; [reflexivity|].
  cbn [fold_left]. rewrite IH.
  unfold dispatch_line, with_stock_row, update_stock. cbv zeta.
  destruct (select_stock warehouse_id (SalesOrderLine.item_id ln) db);
    destruct db; reflexivity.
Qed.

(** X30. An order is dispatched once: after [challan_create] has accepted
    it, a second [challan_create] on the same order is refused with 400
    and stores nothing, so that its stock is not taken twice. *)
Theorem challan_create_is_one_shot :
  forall (clock clock' : Clock) (so_id : Z) (db db' : DB),
    challan_create clock so_id db = (inr tt, db') ->
    challan_create clock' so_id db' = (inl (HTTP 400 SONotApproved), db').
Proof.
  intros clock clock' so_id db db' Hrun.
  destruct (challan_create_returned _ _ _ _ Hrun) as (so & Hso & _ & ->).
  apply challan_create_requires_approved.
  assert (Hid : SalesOrder.id so = so_id).
  { unfold get_sales_order in Hso. apply find_some in Hso.
    destruct Hso as [_ Heq]. now apply Z.eqb_eq in Heq. }
  set (db2 := dispatch_lines _ _ _ _).
  assert (Hsos : sales_orders db2 = sales_orders db)
    by (unfold db2; rewrite dispatch_lines_orders; destruct db; reflexivity).
  assert (Hget : get_sales_order so_id
                   (update_sales_order
                      (SalesOrder.set_status so SO_DISPATCHED) db2)
                 = Some (SalesOrder.set_status so SO_DISPATCHED)).
  { unfold get_sales_order, update_sales_order in *. destruct db2.
    cbn [sales_orders set_sales_orders] in *. rewrite Hsos.
    apply (find_map_update SalesOrder.id so_id _ so); [exact Hid|exact Hso]. }
  rewrite Hget. discriminate.
Qed.

Lemma challan_create_is_one_shot_witness :
  challan_create sample_clock 1 approved_db
  = (inr tt, snd (challan_create sample_clock 1 approved_db))
  /\ challan_create sample_clock 1 (snd (challan_create sample_clock 1 approved_db))
     = (inl (HTTP 400 SONotApproved),
        snd (challan_create sample_clock 1 approved_db)).
Proof.
  split; [reflexivity|].
  apply (challan_create_is_one_shot sample_clock sample_clock 1 approved_db).
  reflexivity.
Defined.

(* ===================================================================== *)
(** * The invariants on sample databases *)
(* ===================================================================== *)

Lemma stock_adjust_nonneg_witness :
  stock_nonneg returns_db
  /\ stock_nonneg (snd (stock_adjust 1 1 (-6) returns_db)).
Proof.
  assert (H : stock_nonneg returns_db)
    by (constructor; [cbn; lia|constructor]).
  split; [exact H|]. apply (stock_adjust_nonneg 1 1 (-6) returns_db). exact H.
Defined.

Lemma challan_create_nonneg_witness :
  stock_nonneg two_line_db
  /\ stock_nonneg (snd (challan_create sample_clock 1 two_line_db)).
Proof.
  assert (H : stock_nonneg two_line_db)
    by (constructor; [cbn; lia|constructor]).
  split; [exact H|].
  apply (challan_create_nonneg sample_clock 1 two_line_db). exact H.
Defined.

Lemma challan_create_dispatches_witness :
  challan_create sample_clock 1 approved_db
  = (inr tt, snd (challan_create sample_clock 1 approved_db))
  /\ exists so,
       get_sales_order 1 approved_db = Some so
       /\ SalesOrder.status so = SO_APPROVED
       /\ get_sales_order 1 (snd (challan_create sample_clock 1 approved_db))
          = Some (SalesOrder.set_status so SO_DISPATCHED)
       /\ challans (snd (challan_create sample_clock 1 approved_db))
          = (challans approved_db ++
               [Challan.Build (next_id (map Challan.id (challans approved_db)))
                              (next_number sample_clock "DC" approved_db) 1
                              DC_OPEN])%list.
Proof.
  split; [reflexivity|].
  apply (challan_create_dispatches sample_clock 1 approved_db). reflexivity.
Defined.

Lemma second_invoice_refused_witness :
  invoice_create sample_clock 3 739000 credit_db
  = (inr (inl DetachedInstanceError),
     snd (invoice_create sample_clock 3 739000 credit_db))
  /\ invoice_create sample_clock 3 739001
       (snd (invoice_create sample_clock 3 739000 credit_db))
     = (inl (HTTP 400 ChallanNotAvailable),
        snd (invoice_create sample_clock 3 739000 credit_db)).
Proof.
  split; [vm_compute; reflexivity|].
  apply (second_invoice_refused sample_clock sample_clock 3 739000 739001
           credit_db).
  vm_compute. reflexivity.
Defined.

Lemma invoice_create_keeps_lines_linked_witness :
  invoice_lines_linked credit_db = true
  /\ invoice_lines_linked (snd (invoice_create sample_clock 3 739000 credit_db))
     = true.
Proof.
  split; [reflexivity|].
  apply (invoice_create_keeps_lines_linked sample_clock 3 739000 credit_db).
  reflexivity.
Defined.

Lemma next_no_keeps_issued_witness :
  Forall (issued "INV" (String.length (yyyymm sample_clock)))
         (existing_numbers "INV"
            (working (mkSession numbering_db numbering_db)))
  /\ forallb (prefix_once ("INV" ++ "-" ++ yyyymm sample_clock ++ "-")%string)
             (existing_numbers "INV"
                (working (mkSession numbering_db numbering_db))) = true
  /\ exists x,
       next_no sample_clock "INV" (mkSession numbering_db numbering_db)
       = Returned x (mkSession numbering_db numbering_db)
       /\ issued "INV" (String.length (yyyymm sample_clock)) x.
Proof.
  split; [exact numbering_db_issued|].
  apply (next_no_keeps_issued sample_clock "INV"
           (mkSession numbering_db numbering_db)).
  exact numbering_db_issued.
Defined.
